(** * transferdb: the Oracle-to-MySQL chunked data diff ([pkg/diff/diff.go])

    A shallow embedding of the comparison engine of [pkg/diff/diff.go]:
    the per-chunk reconciliation ([Report], [reportCheckCRC32],
    [reportCheckRows]), the per-table worker group of
    [startTableDiffCheck] with its shared result channel, and the
    resume-then-fresh driver [StartTableDiff].

    Conventions.
    - Go strings are byte strings: [string].
    - A Go [error] is observed through its message only: [error := string].
    - [strset.Set] is a [gset string]; the order in which [List()] walks a
      set is not fixed by the library and is a parameter ([strset_List]).
    - Database calls, the pretty-printer of [go-pretty] and the file writer
      live outside this file of the repository; their outcomes are the
      fields of [Lib] and [Engine], and every theorem holds for all of them.
    - Goroutines of one table are interleaved by an explicit schedule. *)

From Stdlib Require Import String Ascii List ZArith NArith Lia DecimalString.
From stdpp Require Import base gmap sets list strings.

Open Scope string_scope.
Open Scope list_scope.

(** ** Go library functions used by the source *)

Definition error := string.

Inductive result (A : Type) : Type :=
| Ok (a : A)
| Err (e : error).
Arguments Ok {A} a.
Arguments Err {A} e.

(** [strings.Split(s, sep)] for a one-byte separator: the pieces between
    the separators, so the empty string yields one empty piece. *)
Fixpoint strings_Split (s : string) (sep : ascii) : list string :=
  match s with
  | EmptyString => [EmptyString]
  | String a s' =>
      if Ascii.eqb a sep then EmptyString :: strings_Split s' sep
      else match strings_Split s' sep with
           | [] => [String a EmptyString]
           | w :: ws => String a w :: ws
           end
  end.

(** [strings.Join] and [exstrings.Join]. *)
Definition strings_Join (elems : list string) (sep : string) : string :=
  String.concat sep elems.

(** [utils.StringsBuilder(str ...string)]: the arguments written one after
    the other into a [strings.Builder]. *)
Definition StringsBuilder (str : list string) : string :=
  String.concat "" str.

(** The line feed of the Go literals. *)
Definition nl : string := String "010"%char EmptyString.

(** [%d] of a length. *)
Definition itoa (n : nat) : string :=
  NilEmpty.string_of_uint (Nat.to_uint n).

(** A [strings.Builder] is kept as the sequence of its [WriteString]
    arguments; [String()] is their concatenation. *)
Definition Builder := list string.
Definition WriteString (b : Builder) (s : string) : Builder := b ++ [s].
Definition Builder_String (b : Builder) : string := String.concat "" b.

(** A cell of a [table.Row] ([[]interface{}]). *)
Inductive Cell :=
| CStr (s : string)
| CUint32 (n : N)
| CInt64 (z : Z).

(** ** Data model *)

(** [service.DataDiffMeta]: one persisted chunk. The struct is declared in
    package [service]; the fields are the ones [diff.go] reads, plus the
    snapshot token the data model attaches to every chunk. *)
Record DataDiffMeta := {
  SourceSchemaName : string;
  SourceTableName : string;
  SourceColumnInfo : string;
  TargetColumnInfo : string;
  Range : string;
  NumberColumn : string;
  SnapshotSCN : string
}.

Record DBSummary := {
  Columns : list string;
  StringSet : gset string;
  Crc32Val : N;
  Rows : Z
}.

Record ReportSummary := {
  CRC32Result : string;
  SourceName : string;
  TargetName : string;
  SourceRows : gmap string Z;
  TargetRows : gmap string Z;
  RSRange : string
}.

(** The [DBSummary] that a digest task sends to [reportCheckCRC32]. *)
Definition digest (columns : list string) (stringSet : gset string) (crc32Val : N)
    : DBSummary :=
  {| Columns := columns; StringSet := stringSet; Crc32Val := crc32Val; Rows := 0 |}.

Definition with_SnapshotSCN (scn : string) (dm : DataDiffMeta) : DataDiffMeta :=
  {| SourceSchemaName := SourceSchemaName dm; SourceTableName := SourceTableName dm;
     SourceColumnInfo := SourceColumnInfo dm; TargetColumnInfo := TargetColumnInfo dm;
     Range := Range dm; NumberColumn := NumberColumn dm; SnapshotSCN := scn |}.

(** [service.TableErrorDetail] as built by the workers. *)
Record TableErrorDetail := {
  TEDSourceSchemaName : string;
  TEDSourceTableName : string;
  RunMode : string;
  InfoSources : string;
  RunStatus : string;
  Detail : string;
  TEDError : string
}.

(** The [Diff] value of one table (declared next to [NewDiff]). *)
Record Diff := {
  SourceSchema : string;
  SourceTable : string
}.

(** ** What lies outside [diff.go] *)

(** Library behaviour the source relies on. [strset_List] is [Set.List()]:
    some enumeration of the members, each once. *)
Record Lib := {
  strset_List : gset string → list string;
  strset_List_perm : ∀ s, strset_List s ≡ₚ elements s;
  table_Render : list Cell → list (list Cell) → string;
  strings_ToUpper : string → string;
  DataDiffMeta_String : DataDiffMeta → string;
  DiffMode : string;
  BufferSize : nat
}.

(** The adapters of [service.Engine] that [Report] calls. *)
Record Adapters := {
  GetOracleDataRowStrings : string → result (list string * gset string * N);
  GetMySQLDataRowStrings : string → result (list string * gset string * N);
  GetOracleTableActualRows : string → result Z;
  GetMySQLTableActualRows : string → result Z
}.

(** ** [Report]

    A call of [Report] has one observable effect besides its return value:
    the values it sends on [reportRes]. [Sent] pairs the two. *)
Definition Sent (A : Type) : Type := (list ReportSummary * A)%type.

Section Reconciler.
Context (lib : Lib) (db : Adapters).

Definition Report_oraQuery (dm : DataDiffMeta) : string :=
  if decide (NumberColumn dm = "") then
    StringsBuilder ["SELECT "; SourceColumnInfo dm; " FROM ";
                    SourceSchemaName dm; "."; SourceTableName dm;
                    " WHERE "; Range dm]
  else
    StringsBuilder ["SELECT "; SourceColumnInfo dm; " FROM ";
                    SourceSchemaName dm; "."; SourceTableName dm;
                    " WHERE "; Range dm;
                    " ORDER BY "; NumberColumn dm; " DESC"].

Definition Report_mysqlQuery (targetSchema : string) (dm : DataDiffMeta) : string :=
  if decide (NumberColumn dm = "") then
    StringsBuilder ["SELECT "; TargetColumnInfo dm; " FROM ";
                    targetSchema; "."; SourceTableName dm;
                    " WHERE "; Range dm]
  else
    StringsBuilder ["SELECT "; TargetColumnInfo dm; " FROM ";
                    targetSchema; "."; SourceTableName dm;
                    " WHERE "; Range dm;
                    " ORDER BY "; NumberColumn dm; " DESC"].

(** The commented summary table written in front of each group of
    statements ([word] is "more" or "less"). *)
Definition crc32Header (word : string) (targetSchema : string) (dm : DataDiffMeta)
    (oraCrc mysqlCrc : N) : list string :=
  [ "/*" +:+ nl;
    " mysql table [" +:+ targetSchema +:+ "." +:+ SourceTableName dm +:+
      "] chunk [" +:+ Range dm +:+ "] data rows are " +:+ word +:+ " " +:+ nl;
    table_Render lib [CStr "DATABASE"; CStr "DATA COUNTS SQL"; CStr "CRC32"]
      [ [CStr "ORACLE";
         CStr (StringsBuilder ["SELECT COUNT(1)"; " FROM "; SourceSchemaName dm; ".";
                               SourceTableName dm; " WHERE "; Range dm]);
         CUint32 oraCrc];
        [CStr "MySQL";
         CStr (StringsBuilder ["SELECT COUNT(1)"; " FROM "; targetSchema; ".";
                               SourceTableName dm; " WHERE "; Range dm]);
         CUint32 mysqlCrc] ] +:+ nl;
    "*/" +:+ nl ].

Definition columnCountError (targetSchema : string) (dm : DataDiffMeta)
    (ncols nvals : nat) : error :=
  "mysql schema [" +:+ targetSchema +:+ "] table [" +:+ SourceTableName dm +:+
  "] column counts [" +:+ itoa ncols +:+ "] isn't match values counts [" +:+
  itoa nvals +:+ "]".

(** One pass of the loop over [targetMore]: the line written for row [t],
    or the error that ends [reportCheckCRC32]. With the two lengths equal,
    the index loop over the columns is the zip of the two slices. *)
Definition deleteStatement (targetSchema : string) (dm : DataDiffMeta)
    (columns colValues : list string) : string :=
  let deletePrefix :=
    StringsBuilder ["DELETE FROM "; targetSchema; "."; SourceTableName dm; " WHERE "] in
  let whereCond := zip_with (λ c v, StringsBuilder [c; "="; v]) columns colValues in
  StringsBuilder [deletePrefix; strings_Join whereCond " AND "] +:+ ";" +:+ nl.

Definition deleteLine (targetSchema : string) (dm : DataDiffMeta)
    (columns : list string) (t : string) : result string :=
  let colValues := strings_Split t "," in
  if decide (length columns ≠ length colValues) then
    Err (columnCountError targetSchema dm (length columns) (length colValues))
  else Ok (deleteStatement targetSchema dm columns colValues).

Fixpoint deleteLoop (targetSchema : string) (dm : DataDiffMeta)
    (columns : list string) (targetMore : list string) (fixSQL : Builder)
    : result Builder :=
  match targetMore with
  | [] => Ok fixSQL
  | t :: rest =>
      match deleteLine targetSchema dm columns t with
      | Err e => Err e
      | Ok line => deleteLoop targetSchema dm columns rest (WriteString fixSQL line)
      end
  end.

Definition insertLine (targetSchema : string) (dm : DataDiffMeta)
    (columns : list string) (s : string) : string :=
  let insertPrefix :=
    StringsBuilder ["INSERT INTO "; targetSchema; "."; SourceTableName dm; " (";
                    strings_Join columns ","; ") VALUES ("] in
  StringsBuilder [insertPrefix; s; ")"] +:+ ";" +:+ nl.

(** The part of [reportCheckCRC32] after the two digests have been read
    and found to differ: the writes into [fixSQL]. *)
Definition fixSQLWrites (targetSchema : string) (dm : DataDiffMeta)
    (oraReport mysqlReport : DBSummary) : result Builder :=
  let fixSQL : Builder := [] in
  let targetMore := strset_List lib (StringSet mysqlReport ∖ StringSet oraReport) in
  let afterDelete :=
    if decide (0 < length targetMore) then
      deleteLoop targetSchema dm (Columns mysqlReport) targetMore
        (fixSQL ++ crc32Header "more" targetSchema dm
                     (Crc32Val oraReport) (Crc32Val mysqlReport))
    else Ok fixSQL in
  match afterDelete with
  | Err e => Err e
  | Ok fixSQL =>
      let sourceMore := strset_List lib (StringSet oraReport ∖ StringSet mysqlReport) in
      if decide (0 < length sourceMore) then
        Ok (fixSQL ++ crc32Header "less" targetSchema dm
                        (Crc32Val oraReport) (Crc32Val mysqlReport)
                   ++ map (insertLine targetSchema dm (Columns oraReport)) sourceMore)
      else Ok fixSQL
  end.

(** The writes of a fragment whose statements follow the enumerations
    [targetMore] and [sourceMore] of the two differences: a header in
    front of each non-empty group, one line per row. *)
Definition headerIf (rows : list string) (word : string) (targetSchema : string)
    (dm : DataDiffMeta) (oraCrc mysqlCrc : N) : list string :=
  match rows with
  | [] => []
  | _ :: _ => crc32Header word targetSchema dm oraCrc mysqlCrc
  end.

Definition fragmentWrites (targetSchema : string) (dm : DataDiffMeta)
    (oraReport mysqlReport : DBSummary) (targetMore sourceMore : list string) : Builder :=
  headerIf targetMore "more" targetSchema dm (Crc32Val oraReport) (Crc32Val mysqlReport) ++
  map (λ t, deleteStatement targetSchema dm (Columns mysqlReport) (strings_Split t ","))
      targetMore ++
  headerIf sourceMore "less" targetSchema dm (Crc32Val oraReport) (Crc32Val mysqlReport) ++
  map (insertLine targetSchema dm (Columns oraReport)) sourceMore.

Definition fragment (targetSchema : string) (dm : DataDiffMeta) (text : string)
    : ReportSummary :=
  {| CRC32Result := text;
     SourceName := StringsBuilder [SourceSchemaName dm; "."; SourceTableName dm];
     TargetName := StringsBuilder [targetSchema; "."; SourceTableName dm];
     SourceRows := ∅;
     TargetRows := ∅;
     RSRange := Range dm |}.

Definition reportCheckCRC32 (targetSchema oraQuery mysqlQuery : string)
    (dm : DataDiffMeta) : Sent (option error) :=
  match GetOracleDataRowStrings db oraQuery, GetMySQLDataRowStrings db mysqlQuery with
  | Err err, _ => ([], Some ("get oracle data row strings failed: " +:+ err))
  | Ok _, Err err => ([], Some ("get mysql data row strings failed: " +:+ err))
  | Ok (oraColumns, oraStringSet, oraCrc32Val),
    Ok (mysqlColumns, mysqlStringSet, mysqlCrc32Val) =>
      let oraReport := digest oraColumns oraStringSet oraCrc32Val in
      let mysqlReport := digest mysqlColumns mysqlStringSet mysqlCrc32Val in
      if decide (Crc32Val oraReport = Crc32Val mysqlReport) then ([], None)
      else
        match fixSQLWrites targetSchema dm oraReport mysqlReport with
        | Err e => ([], Some e)
        | Ok fixSQL =>
            if decide (Builder_String fixSQL ≠ "") then
              ([ fragment targetSchema dm (Builder_String fixSQL) ], None)
            else ([], None)
        end
  end.

Definition reportCheckRows (targetSchema oraQuery mysqlQuery : string)
    (dm : DataDiffMeta) : Sent (option error) :=
  match GetOracleTableActualRows db oraQuery, GetMySQLTableActualRows db mysqlQuery with
  | Err err, _ => ([], Some err)
  | Ok _, Err err => ([], Some err)
  | Ok oraRows, Ok mysqlRows =>
      if decide (oraRows = mysqlRows) then ([], None)
      else
        ([ {| CRC32Result := "";
              SourceName := StringsBuilder [SourceSchemaName dm; "."; SourceTableName dm];
              TargetName := StringsBuilder [targetSchema; "."; SourceTableName dm];
              SourceRows := {[ StringsBuilder [SourceSchemaName dm; "."; SourceTableName dm]
                               := oraRows ]};
              TargetRows := {[ StringsBuilder [targetSchema; "."; SourceTableName dm]
                               := mysqlRows ]};
              RSRange := Range dm |} ], None)
  end.

Definition Report (targetSchema : string) (dm : DataDiffMeta) (onlyCheckRows : bool)
    : Sent (option error) :=
  let oraQuery := Report_oraQuery dm in
  let mysqlQuery := Report_mysqlQuery targetSchema dm in
  if onlyCheckRows then reportCheckRows targetSchema oraQuery mysqlQuery dm
  else reportCheckCRC32 targetSchema oraQuery mysqlQuery dm.

End Reconciler.

(** ** The meta store, the repair file and the calls that reach them *)

(** Calls of [startTableDiffCheck] and [PreSplitChunk] that leave this file,
    and the one error log of the per-table loop, in the order they happen. *)
Inductive Event :=
| EvPreDiffCheck (tables : list string)
| EvNewDiff (tables : list string)
| EvGetOracleCurrentSnapshotSCN
| EvSplitChunk (d : Diff) (workerID : nat) (globalSCN : N)
| EvGetDataDiffMeta (schema table : string)
| EvDiffTableFailed (schema table : string)
| EvModifyWaitSyncTableMetaRecord (metaSchema schema table mode : string).

(** What the run leaves behind: the rows of the meta tables
    [data_diff_meta] and [table_error_detail], the tables whose status
    [ModifyWaitSyncTableMetaRecord] has advanced (modelled from the spec:
    [MarkDone] sets the status of the table task to done), the texts
    written to the repair file, and the calls made. *)
Record World := {
  data_diff_meta : list DataDiffMeta;
  table_error_detail : list TableErrorDetail;
  done_tables : list string;
  fix_sql_file : list string;
  trace : list Event
}.

Definition set_data_diff_meta (v : list DataDiffMeta) (w : World) : World :=
  {| data_diff_meta := v; table_error_detail := table_error_detail w;
     done_tables := done_tables w; fix_sql_file := fix_sql_file w; trace := trace w |}.
Definition set_table_error_detail (v : list TableErrorDetail) (w : World) : World :=
  {| data_diff_meta := data_diff_meta w; table_error_detail := v;
     done_tables := done_tables w; fix_sql_file := fix_sql_file w; trace := trace w |}.
Definition set_done_tables (v : list string) (w : World) : World :=
  {| data_diff_meta := data_diff_meta w; table_error_detail := table_error_detail w;
     done_tables := v; fix_sql_file := fix_sql_file w; trace := trace w |}.
Definition set_fix_sql_file (v : list string) (w : World) : World :=
  {| data_diff_meta := data_diff_meta w; table_error_detail := table_error_detail w;
     done_tables := done_tables w; fix_sql_file := v; trace := trace w |}.
Definition emit (e : Event) (w : World) : World :=
  {| data_diff_meta := data_diff_meta w; table_error_detail := table_error_detail w;
     done_tables := done_tables w; fix_sql_file := fix_sql_file w;
     trace := trace w ++ [e] |}.

(** The rest of [service.Engine] and of package [diff]: whether a call
    fails, and what the calls that only read or plan return. A call that
    succeeds changes [World] as written in [step] and [tableLoop] below.
    [PreDiffCheck] is a chain of calls into [engine], [check] and the file
    system; only its outcome matters to the diff loop. *)
Record Engine := {
  adapters : Adapters;
  GormDB_Create : TableErrorDetail → option error;
  DeleteDataDiffMeta : string → string → string → option error;
  GetDataDiffMeta : string → string → option error;
  ModifyWaitSyncTableMetaRecord : string → string → string → string → option error;
  fixFileMW_Write : string → option error;
  PreDiffCheck : list string → option error;
  NewDiff : list string → result (list Diff);
  Diff_String : Diff → string;
  GetOracleCurrentSnapshotSCN : result N;
  SplitChunk : Diff → nat → N → result (list DataDiffMeta)
}.

(** The options of [cfg] that the diff loop reads. [DiffThreads] sizes the
    group ([SetLimit]); see the schedules below. *)
Record Cfg := {
  DiffThreads : nat;
  OnlyCheckRows : bool;
  cfg_SourceSchemaName : string;
  cfg_TargetSchemaName : string;
  cfg_MetaSchema : string
}.

(** Modelled from the spec: [DeleteChunk(schema, table, range)] of the meta
    store removes the chunk rows with that key. *)
Definition sameChunk (schema table range : string) (m : DataDiffMeta) : bool :=
  bool_decide (SourceSchemaName m = schema) &&
  bool_decide (SourceTableName m = table) &&
  bool_decide (Range m = range).

Definition deleteChunk (schema table range : string) (rows : list DataDiffMeta)
    : list DataDiffMeta :=
  List.filter (λ m, negb (sameChunk schema table range m)) rows.

(** Modelled from the spec: [ListChunks(schema, table)] of the meta store
    returns the persisted chunk rows of the table. *)
Definition listChunks (schema table : string) (rows : list DataDiffMeta)
    : list DataDiffMeta :=
  List.filter (λ m, bool_decide (SourceSchemaName m = schema) &&
                    bool_decide (SourceTableName m = table)) rows.

(** ** The worker group of one table

    [startTableDiffCheck] starts, for one table, the task that drains
    [reportResCh] into the repair file and one task per chunk, then waits
    for all of them. The tasks share the channel, the meta store and the
    file. Each task is cut into its atomic actions (one channel operation
    or one call on the engine each); a schedule, the list of the tasks
    that move in turn, interleaves them. Task [0] is the drain, task
    [S i] the worker of the [i]-th chunk. [SetLimit] only delays the start
    of a task, so every run of the source is the run of some schedule;
    the schedule that runs the workers one after the other is a run of the
    source whenever [DiffThreads >= 1]. The variable [err] that the
    workers of one table share is read back within the action that wrote
    it. *)
Inductive Pc :=
| AtReport
| AtReportFailed (err : error)
| AtDelete
| AtDeleteFailed (err : error)
| AtClose
| Returned (r : option error).

(** The state of one table's group: the buffered channel [reportResCh]
    ([buf], [closed]), the drain (its return value once it has returned),
    every worker with its chunk and position, the first error a task
    returned (what [Wait] will hand out), the panic that ended the process
    if there was one, the workers that have called [close], in order, and
    the world the tasks write to. *)
Record Group := {
  buf : list ReportSummary;
  closed : bool;
  drain : option (option error);
  workers : list (DataDiffMeta * Pc);
  first_err : option error;
  panicked : option string;
  close_calls : list nat;
  world : World
}.

Definition spawn (diffMetas : list DataDiffMeta) (w : World) : Group :=
  {| buf := []; closed := false; drain := None;
     workers := map (λ m, (m, AtReport)) diffMetas;
     first_err := None; panicked := None; close_calls := []; world := w |}.

(** A task that returns a non-nil error: the group keeps the first one. *)
Definition record_err (e : option error) (first : option error) : option error :=
  match first, e with
  | None, Some _ => e
  | _, _ => first
  end.

(** How a call ends: it returns an error or nil, a goroutine panics, or it
    never comes back (a task is left that has not returned). *)
Inductive Outcome :=
| Returns (err : option error)
| Panics (msg : string)
| Hangs.

Definition tab : string := String "009"%char EmptyString.

Section Executor.
Context (lib : Lib) (eng : Engine) (cfg : Cfg).

Definition set_world (w : World) (g : Group) : Group :=
  {| buf := buf g; closed := closed g; drain := drain g; workers := workers g;
     first_err := first_err g; panicked := panicked g;
     close_calls := close_calls g; world := w |}.

Definition set_buf (b : list ReportSummary) (g : Group) : Group :=
  {| buf := b; closed := closed g; drain := drain g; workers := workers g;
     first_err := first_err g; panicked := panicked g;
     close_calls := close_calls g; world := world g |}.

Definition set_pc (i : nat) (meta : DataDiffMeta) (pc : Pc) (g : Group) : Group :=
  {| buf := buf g; closed := closed g; drain := drain g;
     workers := <[i := (meta, pc)]> (workers g);
     first_err := first_err g; panicked := panicked g;
     close_calls := close_calls g; world := world g |}.

Definition worker_returns (i : nat) (meta : DataDiffMeta) (r : option error)
    (g : Group) : Group :=
  {| buf := buf g; closed := closed g; drain := drain g;
     workers := <[i := (meta, Returned r)]> (workers g);
     first_err := record_err r (first_err g); panicked := panicked g;
     close_calls := close_calls g; world := world g |}.

Definition drain_returns (r : option error) (g : Group) : Group :=
  {| buf := buf g; closed := closed g; drain := Some r; workers := workers g;
     first_err := record_err r (first_err g); panicked := panicked g;
     close_calls := close_calls g; world := world g |}.

Definition panic (msg : string) (g : Group) : Group :=
  {| buf := buf g; closed := closed g; drain := drain g; workers := workers g;
     first_err := first_err g; panicked := Some msg;
     close_calls := close_calls g; world := world g |}.

(** [close(reportResCh)] called by worker [i]. *)
Definition close_chan (i : nat) (g : Group) : Group :=
  let g' :=
    {| buf := buf g; closed := true; drain := drain g; workers := workers g;
       first_err := first_err g; panicked := panicked g;
       close_calls := close_calls g ++ [i]; world := world g |} in
  if closed g then panic "close of closed channel" g' else g'.

(** What the drain prints for one report. *)
Definition drainText (report : ReportSummary) : string :=
  if OnlyCheckRows cfg then
    ("/* " +:+ nl +:+ tab +:+ "mysql table [" +:+ SourceName report +:+ "] chunk [" +:+
     RSRange report +:+ "] data rows aren't equal" +:+ nl +:+ " */" +:+ nl) +:+
    table_Render lib
      [CStr "SOURCE TABLE"; CStr "SOURCE TABLE COUNTS"; CStr "TARGET TABLE";
       CStr "TARGET TABLE COUNTS"; CStr "RANGE"]
      [ [CStr (SourceName report);
         CInt64 (default 0%Z (SourceRows report !! SourceName report));
         CStr (TargetName report);
         CInt64 (default 0%Z (TargetRows report !! TargetName report));
         CStr (RSRange report)] ] +:+ nl
  else CRC32Result report.

Definition drainWriteError (err : error) : error :=
  if OnlyCheckRows cfg then "fix sql file write [only-check-rows = true] failed: " +:+ err
  else "fix sql file write [only-check-rows = false] failed: " +:+ err.

(** One turn of [for report := range reportResCh]. *)
Definition drain_step (g : Group) : Group :=
  match drain g with
  | Some _ => g
  | None =>
      match buf g with
      | report :: rest =>
          let text := drainText report +:+ nl in
          match fixFileMW_Write eng text with
          | Some err => drain_returns (Some (drainWriteError err)) (set_buf rest g)
          | None =>
              set_world (set_fix_sql_file (fix_sql_file (world g) ++ [text]) (world g))
                (set_buf rest g)
          end
      | [] => if closed g then drain_returns None g else g
      end
  end.

Definition reportFailedDetail (meta : DataDiffMeta) (err : error) : TableErrorDetail :=
  {| TEDSourceSchemaName := SourceSchemaName meta;
     TEDSourceTableName := SourceTableName meta;
     RunMode := DiffMode lib;
     InfoSources := DiffMode lib;
     RunStatus := "Failed";
     Detail := DataDiffMeta_String lib meta;
     TEDError := "data diff record report failed: " +:+ err |}.

Definition deleteFailedDetail (meta : DataDiffMeta) (err : error) : TableErrorDetail :=
  {| TEDSourceSchemaName := SourceSchemaName meta;
     TEDSourceTableName := SourceTableName meta;
     RunMode := DiffMode lib;
     InfoSources := DiffMode lib;
     RunStatus := "Failed";
     Detail := DataDiffMeta_String lib meta;
     TEDError := "delete [data_diff_meta] record write failed: " +:+ err |}.

Definition reportTaskError (meta : DataDiffMeta) (err : error) : error :=
  "func [Report] diff table [" +:+
  StringsBuilder [SourceSchemaName meta; "."; SourceTableName meta] +:+
  "] chunk [" +:+ Range meta +:+
  "] task failed, detail see [table_error_detail], please rerunning, error: " +:+ err.

Definition deleteTaskError (err : error) : error :=
  "func [Report] diff table task failed, detail see [table_error_detail], please rerunning, error: "
  +:+ err.

(** The call of [Report] by a worker, with its send on the channel. A send
    on a closed channel panics; a send on a full channel waits. *)
Definition callReport (meta : DataDiffMeta) : Sent (option error) :=
  Report lib (adapters eng) (strings_ToUpper lib (cfg_TargetSchemaName cfg)) meta
    (OnlyCheckRows cfg).

Definition after_report (i : nat) (meta : DataDiffMeta) (r : option error)
    (g : Group) : Group :=
  match r with
  | Some err => set_pc i meta (AtReportFailed err) g
  | None => set_pc i meta AtDelete g
  end.

Definition worker_step (i : nat) (meta : DataDiffMeta) (pc : Pc) (g : Group) : Group :=
  match pc with
  | AtReport =>
      match callReport meta with
      | ([], r) => after_report i meta r g
      | (report :: _, r) =>
          if closed g then panic "send on closed channel" g
          else if decide (BufferSize lib ≤ length (buf g))%nat then g
          else after_report i meta r (set_buf (buf g ++ [report]) g)
      end
  | AtReportFailed err =>
      let detail := reportFailedDetail meta err in
      match GormDB_Create eng detail with
      | Some err' => worker_returns i meta (Some (reportTaskError meta err')) g
      | None =>
          set_pc i meta AtDelete
            (set_world (set_table_error_detail
                          (table_error_detail (world g) ++ [detail]) (world g)) g)
      end
  | AtDelete =>
      match DeleteDataDiffMeta eng (SourceSchemaName meta) (SourceTableName meta)
              (Range meta) with
      | Some err => set_pc i meta (AtDeleteFailed err) g
      | None =>
          set_pc i meta AtClose
            (set_world (set_data_diff_meta
                          (deleteChunk (SourceSchemaName meta) (SourceTableName meta)
                             (Range meta) (data_diff_meta (world g))) (world g)) g)
      end
  | AtDeleteFailed err =>
      let detail := deleteFailedDetail meta err in
      match GormDB_Create eng detail with
      | Some err' => worker_returns i meta (Some (deleteTaskError err')) g
      | None =>
          set_pc i meta AtClose
            (set_world (set_table_error_detail
                          (table_error_detail (world g) ++ [detail]) (world g)) g)
      end
  | AtClose =>
      let g' := close_chan i g in
      match panicked g' with
      | Some _ => g'
      | None => worker_returns i meta None g'
      end
  | Returned _ => g
  end.

(** One action of task [j]. Once a goroutine has panicked the process is
    gone and nothing moves. *)
Definition step (j : nat) (g : Group) : Group :=
  match panicked g with
  | Some _ => g
  | None =>
      match j with
      | 0 => drain_step g
      | S i =>
          match workers g !! i with
          | Some (meta, pc) => worker_step i meta pc g
          | None => g
          end
      end
  end.

Definition run (sched : list nat) (g : Group) : Group :=
  fold_left (λ g j, step j g) sched g.

Definition is_returned (t : DataDiffMeta * Pc) : bool :=
  match t.2 with
  | Returned _ => true
  | _ => false
  end.

(** [g.Wait()]: the first error once every task has returned. *)
Definition Wait (g : Group) : Outcome :=
  match panicked g with
  | Some msg => Panics msg
  | None =>
      match drain g with
      | Some _ =>
          if forallb is_returned (workers g) then Returns (first_err g) else Hangs
      | None => Hangs
      end
  end.

(** *** [PreSplitChunk]

    The split tasks of the tables run in their own group; they are taken
    in the order of [diffs]. Every task runs, and [Wait] keeps the first
    error. Modelled from the spec: a [SplitChunk] that succeeds has
    written the chunks of its table to [data_diff_meta]. *)
Fixpoint splitChunks (diffs : list Diff) (idx : nat) (globalSCN : N)
    (first : option error) (w : World) : World * option error :=
  match diffs with
  | [] => (w, first)
  | d :: rest =>
      let w := emit (EvSplitChunk d idx globalSCN) w in
      match SplitChunk eng d idx globalSCN with
      | Err err =>
          splitChunks rest (S idx) globalSCN
            (record_err
               (Some ("pre split table [" +:+ Diff_String eng d +:+
                      "] chunk failed, failed table detail please see logfile, error: [" +:+
                      err +:+ "]")) first) w
      | Ok chunks =>
          splitChunks rest (S idx) globalSCN first
            (set_data_diff_meta (data_diff_meta w ++ chunks) w)
      end
  end.

Definition PreSplitChunk (exportTableSlice : list string) (w : World)
    : World * result (list Diff) :=
  let w := emit (EvNewDiff exportTableSlice) w in
  match NewDiff eng exportTableSlice with
  | Err err => (w, Err err)
  | Ok diffs =>
      let w := emit EvGetOracleCurrentSnapshotSCN w in
      match GetOracleCurrentSnapshotSCN eng with
      | Err err => (w, Err err)
      | Ok globalSCN =>
          match splitChunks diffs 0 globalSCN None w with
          | (w, Some err) => (w, Err err)
          | (w, None) => (w, Ok diffs)
          end
      end
  end.

(** *** [startTableDiffCheck] *)

(** The loop over [diffs]; [scheds] gives the schedule of each table's
    group, first table first. *)
Fixpoint tableLoop (diffs : list Diff) (scheds : list (list nat)) (w : World)
    : World * Outcome :=
  match diffs with
  | [] => (w, Returns None)
  | d :: rest =>
      let w := emit (EvGetDataDiffMeta (SourceSchema d) (SourceTable d)) w in
      match GetDataDiffMeta eng (SourceSchema d) (SourceTable d) with
      | Some err => (w, Returns (Some err))
      | None =>
          let diffMetas := listChunks (SourceSchema d) (SourceTable d) (data_diff_meta w) in
          let g := run (hd [] scheds) (spawn diffMetas w) in
          match Wait g with
          | Panics msg => (world g, Panics msg)
          | Hangs => (world g, Hangs)
          | Returns (Some _) =>
              tableLoop rest (tl scheds)
                (emit (EvDiffTableFailed (SourceSchema d) (SourceTable d)) (world g))
          | Returns None =>
              let w := emit (EvModifyWaitSyncTableMetaRecord (cfg_MetaSchema cfg)
                               (cfg_SourceSchemaName cfg) (SourceTable d) (DiffMode lib))
                         (world g) in
              match ModifyWaitSyncTableMetaRecord eng (cfg_MetaSchema cfg)
                      (cfg_SourceSchemaName cfg) (SourceTable d) (DiffMode lib) with
              | Some err => (w, Returns (Some err))
              | None =>
                  tableLoop rest (tl scheds)
                    (set_done_tables (done_tables w ++ [SourceTable d]) w)
              end
          end
      end
  end.

Definition startTableDiffCheck (partSyncTableInfo waitSyncTableInfo : list string)
    (isCheckpoint : bool) (scheds : list (list nat)) (w : World) : World * Outcome :=
  if isCheckpoint then
    let w := emit (EvPreDiffCheck partSyncTableInfo) w in
    match PreDiffCheck eng partSyncTableInfo with
    | Some err => (w, Returns (Some err))
    | None =>
        let w := emit (EvNewDiff partSyncTableInfo) w in
        match NewDiff eng partSyncTableInfo with
        | Err err => (w, Returns (Some err))
        | Ok diffs => tableLoop diffs scheds w
        end
    end
  else
    let w := emit (EvPreDiffCheck waitSyncTableInfo) w in
    match PreDiffCheck eng waitSyncTableInfo with
    | Some err => (w, Returns (Some err))
    | None =>
        match PreSplitChunk waitSyncTableInfo w with
        | (w, Err err) => (w, Returns (Some err))
        | (w, Ok diffs) => tableLoop diffs scheds w
        end
    end.

(** *** [StartTableDiff] *)
Definition StartTableDiff (partSyncTableInfo waitSyncTableInfo : list string)
    (partScheds waitScheds : list (list nat)) (w : World) : World * Outcome :=
  let afterPart :=
    if decide (0 < length partSyncTableInfo) then
      startTableDiffCheck partSyncTableInfo waitSyncTableInfo true partScheds w
    else (w, Returns None) in
  match afterPart with
  | (w, Returns None) =>
      if decide (0 < length waitSyncTableInfo) then
        startTableDiffCheck partSyncTableInfo waitSyncTableInfo false waitScheds w
      else (w, Returns None)
  | stopped => stopped
  end.

End Executor.

(** ** Vocabulary of the statements *)

(** The [ORDER BY] tail of the two queries. *)
Definition orderBy (dm : DataDiffMeta) : string :=
  if decide (NumberColumn dm = "") then ""
  else " ORDER BY " +:+ NumberColumn dm +:+ " DESC".

(** The calls that belong to the planner: taking the upstream snapshot and
    splitting a table into chunks. *)
Definition planner_event (e : Event) : bool :=
  match e with
  | EvGetOracleCurrentSnapshotSCN | EvSplitChunk _ _ _ => true
  | _ => false
  end.

(** The calls of the loop for a table it got through: the chunk rows of
    the table are read with [GetDataDiffMeta]; then the error of its group
    is logged, or its status is advanced. *)
Definition table_handled (lib : Lib) (cfg : Cfg) (d : Diff) (block : list Event) : Prop :=
  block = [EvGetDataDiffMeta (SourceSchema d) (SourceTable d);
           EvDiffTableFailed (SourceSchema d) (SourceTable d)] ∨
  block = [EvGetDataDiffMeta (SourceSchema d) (SourceTable d);
           EvModifyWaitSyncTableMetaRecord (cfg_MetaSchema cfg) (cfg_SourceSchemaName cfg)
             (SourceTable d) (DiffMode lib)].



(** The calls of [close] so far: the first caller is the one worker that
    returned nil; a second call has panicked. *)
Record close_inv (g : Group) : Prop := {
  close_first : ∀ i m, workers g !! i = Some (m, Returned None) →
                       head (close_calls g) = Some i;
  close_callers : ∀ i, i ∈ close_calls g →
                       ∃ m, workers g !! i = Some (m, Returned None) ∨
                            (workers g !! i = Some (m, AtClose) ∧
                             panicked g = Some "close of closed channel");
  close_twice : (length (close_calls g) ≤ 1)%nat ∨
                panicked g = Some "close of closed channel";
  close_open : closed g = false → close_calls g = []
}.

Section Invariants.
Context (lib : Lib) (eng : Engine) (cfg : Cfg).



End Invariants.




(** Every task of the group has returned. *)
Definition all_returned (g : Group) : Prop :=
  is_Some (drain g) ∧ forallb is_returned (workers g) = true.

(** ** A test double

    Fixed choices for everything outside [diff.go], to run the definitions
    on concrete chunks. *)
Module Fake.

Definition upper (a : ascii) : ascii :=
  let n := nat_of_ascii a in
  if (97 <=? n)%nat && (n <=? 122)%nat then ascii_of_nat (n - 32) else a.

Fixpoint ToUpper (s : string) : string :=
  match s with
  | EmptyString => EmptyString
  | String a s' => String (upper a) (ToUpper s')
  end.

Definition cell (c : Cell) : string :=
  match c with
  | CStr s => s
  | CUint32 n => NilZero.string_of_uint (N.to_uint n)
  | CInt64 z => NilZero.string_of_int (Z.to_int z)
  end.

Definition Render (header : list Cell) (rows : list (list Cell)) : string :=
  strings_Join (map (λ r, strings_Join (map cell r) " | ") (header :: rows)) nl.

Definition lib : Lib :=
  {| strset_List := elements;
     strset_List_perm := λ s, reflexivity (elements s);
     table_Render := Render;
     strings_ToUpper := ToUpper;
     DataDiffMeta_String := Range;
     DiffMode := "Diff";
     BufferSize := 1024 |}.

(** Adapters that answer every query with the same two digests. *)
Definition digests (ora mysql : result (list string * gset string * N)) : Adapters :=
  {| GetOracleDataRowStrings := λ _, ora;
     GetMySQLDataRowStrings := λ _, mysql;
     GetOracleTableActualRows := λ _, Ok 0%Z;
     GetMySQLTableActualRows := λ _, Ok 0%Z |}.

Definition chunk : DataDiffMeta :=
  {| SourceSchemaName := "MARVIN"; SourceTableName := "T1";
     SourceColumnInfo := "ID,NAME"; TargetColumnInfo := "ID,NAME";
     Range := "ID BETWEEN 1 AND 10"; NumberColumn := "ID";
     SnapshotSCN := "4711" |}.

Definition chunk2 : DataDiffMeta :=
  {| SourceSchemaName := "MARVIN"; SourceTableName := "T1";
     SourceColumnInfo := "ID,NAME"; TargetColumnInfo := "ID,NAME";
     Range := "ID BETWEEN 11 AND 20"; NumberColumn := "ID";
     SnapshotSCN := "4711" |}.

(** An engine that answers every call of one kind with the same outcome. *)
Definition engine (db : Adapters) (create : TableErrorDetail → option error)
    (delete write : option error) : Engine :=
  {| adapters := db;
     GormDB_Create := create;
     DeleteDataDiffMeta := λ _ _ _, delete;
     GetDataDiffMeta := λ _ _, None;
     ModifyWaitSyncTableMetaRecord := λ _ _ _ _, None;
     fixFileMW_Write := λ _, write;
     PreDiffCheck := λ _, None;
     NewDiff := λ tables, Ok (map (λ t, {| SourceSchema := "MARVIN"; SourceTable := t |})
                                  tables);
     Diff_String := SourceTable;
     GetOracleCurrentSnapshotSCN := Ok 4711%N;
     SplitChunk := λ _ _ _, Ok [] |}.

Definition cfg : Cfg :=
  {| DiffThreads := 1; OnlyCheckRows := false;
     cfg_SourceSchemaName := "marvin"; cfg_TargetSchemaName := "tgt";
     cfg_MetaSchema := "db_meta" |}.

Definition store (chunks : list DataDiffMeta) : World :=
  {| data_diff_meta := chunks; table_error_detail := []; done_tables := [];
     fix_sql_file := []; trace := [] |}.

(** Upstream rows, downstream rows. *)
Definition rowsU : gset string := {[ "1,'a'"; "2,'b'" ]}.
Definition rowsD : gset string := {[ "1,'a'"; "3,'c'" ]}.

(** Both fetches succeed and the digests differ. *)
Definition differing : Adapters :=
  digests (Ok (["C1"; "C2"], rowsU, 11%N)) (Ok (["C1"; "C2"], rowsD, 12%N)).

(** The upstream fetch fails. *)
Definition failing : Adapters :=
  digests (Err "ORA-01555") (Ok (["C1"; "C2"], rowsD, 12%N)).

(** The downstream adapter reports one column for rows of two values. *)
Definition drifted : Adapters :=
  digests (Ok (["C1"; "C2"], rowsU, 11%N)) (Ok (["C1"], rowsD, 12%N)).

(** Different rows, the same CRC. *)
Definition collided : Adapters :=
  digests (Ok (["C1"; "C2"], rowsU, 11%N)) (Ok (["C1"; "C2"], rowsD, 11%N)).

Definition collided_drifted : Adapters :=
  digests (Ok (["C1"; "C2"], rowsU, 11%N)) (Ok (["C1"], rowsD, 11%N)).


Definition T1 : Diff := {| SourceSchema := "MARVIN"; SourceTable := "T1" |}.

(** Everything works. *)
Definition healthy : Engine := engine differing (λ _, None) None None.

(** The upstream fetch fails, and so does every insert into
    [table_error_detail]. *)
Definition unlogged : Engine :=
  engine failing (λ _, Some "Error 1205: lock wait timeout") None None.



(** The repair file cannot be written. *)
Definition disk_full : Engine :=
  engine differing (λ _, None) None (Some "no space left on device").

End Fake.

(** ** Vocabulary of the further statements *)

(** What holds of the result channel and of the first error of the group
    in every state that a run reaches. *)
Record chan_inv (lib : Lib) (eng : Engine) (cfg : Cfg) (g : Group) : Prop := {
  chan_bounded : (length (buf g) ≤ BufferSize lib)%nat;
  chan_drained : drain g = Some None → closed g = true;
  chan_closed_by : closed g = true → close_calls g ≠ [];
  chan_write_error : ∀ e, drain g = Some (Some e) →
                          ∃ text err, fixFileMW_Write eng text = Some err ∧
                                      e = drainWriteError cfg err;
  chan_first_err : ∀ e, first_err g = Some e →
                        drain g = Some (Some e) ∨
                        ∃ j m, workers g !! j = Some (m, Returned (Some e))
}.

(** A worker that has not called [Report] yet. *)
Definition at_report (t : DataDiffMeta * Pc) : bool :=
  match t.2 with
  | AtReport => true
  | _ => false
  end.

(** A record of [table_error_detail] written for a chunk of [diffMetas]. *)
Definition failed_detail_of (lib : Lib) (diffMetas : list DataDiffMeta)
    (d : TableErrorDetail) : Prop :=
  RunStatus d = "Failed" ∧ RunMode d = DiffMode lib ∧ InfoSources d = DiffMode lib ∧
  ∃ meta, meta ∈ diffMetas ∧
          TEDSourceSchemaName d = SourceSchemaName meta ∧
          TEDSourceTableName d = SourceTableName meta ∧
          Detail d = DataDiffMeta_String lib meta.

(** A text of the repair file written for a report that [Report] sent for
    a chunk of [diffMetas]. *)
Definition report_text_of (lib : Lib) (eng : Engine) (cfg : Cfg)
    (diffMetas : list DataDiffMeta) (text : string) : Prop :=
  ∃ meta report, meta ∈ diffMetas ∧ report ∈ (callReport lib eng cfg meta).1 ∧
                 text = drainText lib cfg report +:+ nl.

(** What a run of the group of [diffMetas], started in [w], has done to
    the meta store and the repair file. *)
Record effects_inv (lib : Lib) (eng : Engine) (cfg : Cfg)
    (diffMetas : list DataDiffMeta) (w : World) (g : Group) : Prop := {
  eff_chunks : (workers g).*1 = diffMetas;
  eff_buf : ∀ r, r ∈ buf g → ∃ meta, meta ∈ diffMetas ∧ r ∈ (callReport lib eng cfg meta).1;
  eff_file : ∃ l, fix_sql_file (world g) = fix_sql_file w ++ l ∧
                  Forall (report_text_of lib eng cfg diffMetas) l;
  eff_count : (length (fix_sql_file (world g)) + length (buf g) +
               length (List.filter at_report (workers g))
               ≤ length (fix_sql_file w) + length diffMetas)%nat;
  eff_errors : ∃ l, table_error_detail (world g) = table_error_detail w ++ l ∧
                    Forall (failed_detail_of lib diffMetas) l;
  eff_rows : ∀ m, m ∈ data_diff_meta w →
                  (∀ meta, meta ∈ diffMetas →
                           sameChunk (SourceSchemaName meta) (SourceTableName meta)
                             (Range meta) m = false) →
                  m ∈ data_diff_meta (world g)
}.

(** A record of a failed chunk, as the worker writes it. *)
Definition failed_diff_detail (lib : Lib) (diffs : list Diff) (rec : TableErrorDetail)
    : Prop :=
  RunStatus rec = "Failed" ∧ RunMode rec = DiffMode lib ∧ InfoSources rec = DiffMode lib ∧
  ∃ d, d ∈ diffs ∧ TEDSourceSchemaName rec = SourceSchema d ∧
       TEDSourceTableName rec = SourceTable d.

(** [m] is a chunk row of the table of [d]. *)
Definition of_table (d : Diff) (m : DataDiffMeta) : Prop :=
  SourceSchemaName m = SourceSchema d ∧ SourceTableName m = SourceTable d.





(** How often the byte [c] occurs in [s]. *)
Fixpoint count_byte (c : ascii) (s : string) : nat :=
  match s with
  | EmptyString => 0
  | String a s' => (if Ascii.eqb a c then 1 else 0) + count_byte c s'
  end.

(** * Package [o2t]: the DDL of one reversed table *)
Module O2T.

(** [DDL]. *)
Record DDL := {
  SourceSchemaName : string;
  SourceTableName : string;
  SourceTableType : string;
  SourceTableDDL : string;
  TargetSchemaName : string;
  TargetTableName : string;
  TargetDBVersion : string;
  TableColumns : list string;
  TableKeys : list string;
  TableSuffix : string;
  TableComment : string;
  TableCheckKeys : list string;
  TableForeignKeys : list string;
  TableCompatibleDDL : list string
}.

(** [reverse.Write], declared in module [reverse]: the switch
    [Cfg.ReverseConfig.DirectWrite] and the three sinks, each of which
    answers with an error or nil. *)
Module reverse.
Record Write := {
  DirectWrite : bool;
  RWriteFile : string → option error;
  CWriteFile : string → option error;
  RWriteDB : string → option error
}.
End reverse.
Import reverse.

(** The calls made on the sinks, in order, with the text passed. *)
Inductive WriteCall :=
| CallRWriteFile (text : string)
| CallCWriteFile (text : string)
| CallRWriteDB (text : string).

(** [for _, x := range xs { acc = append(acc, f(x)) }]. *)
Definition appendEach {A : Type} (f : A → string) (xs : list A) (acc : list string)
    : list string :=
  fold_left (λ acc x, acc ++ [f x]) xs acc.

(** [fmt.Sprintf("ALTER TABLE `%s`.`%s` ADD %s;", ...)]. *)
Definition alterAdd (d : DDL) (key : string) : string :=
  "ALTER TABLE `" +:+ TargetSchemaName d +:+ "`.`" +:+ TargetTableName d +:+
  "` ADD " +:+ key +:+ ";".

Definition structDDL (d : DDL) : string :=
  if decide (0 < length (TableKeys d)) then
    "CREATE TABLE `" +:+ TargetSchemaName d +:+ "`.`" +:+ TargetTableName d +:+ "` (" +:+
    nl +:+ strings_Join (TableColumns d) ("," +:+ nl) +:+ "," +:+ nl +:+
    strings_Join (TableKeys d) ("," +:+ nl) +:+ nl +:+ ")"
  else
    "CREATE TABLE `" +:+ TargetSchemaName d +:+ "`.`" +:+ TargetTableName d +:+ "` (" +:+
    nl +:+ strings_Join (TableColumns d) ("," +:+ nl) +:+ nl +:+ ")".

(** [strings.EqualFold(s, "")] holds for the empty [s] only: folding
    compares the two strings rune by rune. *)
Definition tableDDL (d : DDL) : string :=
  if decide (TableComment d = "") then
    structDDL d +:+ " " +:+ TableSuffix d +:+ ";"
  else
    structDDL d +:+ " " +:+ TableSuffix d +:+ " " +:+ TableComment d +:+ ";".

Definition GenDDLStructure (d : DDL) : list string * list string :=
  let reverseDDLS : list string := [] in
  let compDDLS : list string := [] in
  let reverseDDLS := reverseDDLS ++ [tableDDL d +:+ nl] in
  let foreignKeyDDL :=
    if decide (0 < length (TableForeignKeys d))
    then appendEach (alterAdd d) (TableForeignKeys d) [] else [] in
  let checkKeyDDL :=
    if decide (0 < length (TableCheckKeys d))
    then appendEach (alterAdd d) (TableCheckKeys d) [] else [] in
  let compDDLS :=
    if decide (0 < length foreignKeyDDL) then appendEach id foreignKeyDDL compDDLS
    else compDDLS in
  let compDDLS :=
    if decide (0 < length checkKeyDDL) then appendEach id checkKeyDDL compDDLS
    else compDDLS in
  let compDDLS :=
    if decide (0 < length (TableCompatibleDDL d))
    then appendEach id (TableCompatibleDDL d) compDDLS else compDDLS in
  (reverseDDLS, compDDLS).

Definition dot (schema table : string) : string := schema +:+ "." +:+ table.

(** The head of the compatibility text, the same in [WriteFile] and
    [WriteDB]. *)
Definition compHead (lib : Lib) (d : DDL) (sqlComp : Builder) : Builder :=
  let sqlComp := WriteString sqlComp ("/*" +:+ nl) in
  let sqlComp := WriteString sqlComp
    (" oracle table index or consrtaint maybe tidb has compatibility, skip" +:+ nl) in
  let tw := table_Render lib [CStr "#"; CStr "ORACLE"; CStr "TIDB"; CStr "SUGGEST"]
              [ [CStr "TABLE"; CStr (dot (SourceSchemaName d) (SourceTableName d));
                 CStr (dot (TargetSchemaName d) (TargetTableName d));
                 CStr "Create Index Or Constraints"] ] in
  let sqlComp := WriteString sqlComp (tw +:+ nl) in
  WriteString sqlComp ("*/" +:+ nl).

Definition WriteFile (lib : Lib) (d : DDL) (w : reverse.Write)
    : list WriteCall * (string * option error) :=
  let '(revDDLS, compDDLS) := GenDDLStructure d in
  let sqlRev : Builder := [] in
  let sqlComp : Builder := [] in
  let sqlRev := WriteString sqlRev ("/*" +:+ nl) in
  let sqlRev := WriteString sqlRev (" oracle table reverse sql " +:+ nl) in
  let sw := table_Render lib
              [CStr "#"; CStr "ORACLE TABLE TYPE"; CStr "ORACLE"; CStr "TIDB"; CStr "SUGGEST"]
              [ [CStr "TABLE"; CStr (SourceTableType d);
                 CStr (dot (SourceSchemaName d) (SourceTableName d));
                 CStr (dot (TargetSchemaName d) (TargetTableName d));
                 CStr "Create Table"] ] in
  let sqlRev := WriteString sqlRev (sw +:+ nl) in
  let sqlRev := WriteString sqlRev ("ORIGIN DDL:" +:+ SourceTableDDL d +:+ nl) in
  let sqlRev := WriteString sqlRev ("*/" +:+ nl) in
  let sqlRev := WriteString sqlRev (strings_Join revDDLS nl) in
  let sqlComp :=
    if decide (0 < length compDDLS) then
      WriteString (compHead lib d sqlComp) (strings_Join compDDLS nl +:+ nl)
    else sqlComp in
  let calls : list WriteCall := [] in
  let rev :=
    if decide (Builder_String sqlRev ≠ "") then
      (calls ++ [CallRWriteFile (Builder_String sqlRev)],
       RWriteFile w (Builder_String sqlRev))
    else (calls, None) in
  match rev with
  | (calls, Some err) => (calls, (Builder_String sqlRev, Some err))
  | (calls, None) =>
      let comp :=
        if decide (Builder_String sqlComp ≠ "") then
          (calls ++ [CallCWriteFile (Builder_String sqlComp)],
           CWriteFile w (Builder_String sqlComp))
        else (calls, None) in
      match comp with
      | (calls, Some err) => (calls, (Builder_String sqlComp, Some err))
      | (calls, None) => (calls, ("", None))
      end
  end.

Definition WriteDB (lib : Lib) (d : DDL) (w : reverse.Write)
    : list WriteCall * (string * option error) :=
  let '(revDDLS, compDDLS) := GenDDLStructure d in
  let sqlRev : Builder := [] in
  let sqlComp : Builder := [] in
  let sqlRev := WriteString sqlRev (strings_Join revDDLS nl) in
  let sqlComp :=
    if decide (0 < length compDDLS) then
      WriteString (compHead lib d sqlComp) (strings_Join compDDLS nl)
    else sqlComp in
  let calls : list WriteCall := [] in
  let rev :=
    if decide (Builder_String sqlRev ≠ "") then
      (calls ++ [CallRWriteDB (Builder_String sqlRev)],
       RWriteDB w (Builder_String sqlRev))
    else (calls, None) in
  match rev with
  | (calls, Some err) => (calls, (Builder_String sqlRev, Some err))
  | (calls, None) =>
      let comp :=
        if decide (Builder_String sqlComp ≠ "") then
          (calls ++ [CallCWriteFile (Builder_String sqlComp)],
           CWriteFile w (Builder_String sqlComp))
        else (calls, None) in
      match comp with
      | (calls, Some err) => (calls, (Builder_String sqlComp, Some err))
      | (calls, None) => (calls, ("", None))
      end
  end.

Definition Write (lib : Lib) (d : DDL) (w : reverse.Write)
    : list WriteCall * (string * option error) :=
  if DirectWrite w then
    match WriteDB lib d w with
    | (calls, (errSql, Some err)) => (calls, (errSql, Some err))
    | (calls, (_, None)) => (calls, ("", None))
    end
  else
    match WriteFile lib d w with
    | (calls, (errSql, Some err)) => (calls, (errSql, Some err))
    | (calls, (_, None)) => (calls, ("", None))
    end.

(** The statements kept away from the database: foreign keys, check
    constraints, then the DDL flagged as incompatible. *)
Definition compStatements (d : DDL) : list string :=
  map (alterAdd d) (TableForeignKeys d) ++ map (alterAdd d) (TableCheckKeys d) ++
  TableCompatibleDDL d.

(** The sink the table statement goes to. *)
Definition reverseCall (w : reverse.Write) (text : string) : WriteCall :=
  if DirectWrite w then CallRWriteDB text else CallRWriteFile text.
Definition reverseWrite (w : reverse.Write) (text : string) : option error :=
  if DirectWrite w then RWriteDB w text else RWriteFile w text.

(** The text [WriteFile] hands to [RWriteFile]. *)
Definition reverseText (lib : Lib) (d : DDL) : string :=
  Builder_String
    [ "/*" +:+ nl; " oracle table reverse sql " +:+ nl;
      table_Render lib
        [CStr "#"; CStr "ORACLE TABLE TYPE"; CStr "ORACLE"; CStr "TIDB"; CStr "SUGGEST"]
        [ [CStr "TABLE"; CStr (SourceTableType d);
           CStr (dot (SourceSchemaName d) (SourceTableName d));
           CStr (dot (TargetSchemaName d) (TargetTableName d));
           CStr "Create Table"] ] +:+ nl;
      "ORIGIN DDL:" +:+ SourceTableDDL d +:+ nl; "*/" +:+ nl; tableDDL d +:+ nl ].

(** What a sink answered to a call, and the text it was given. *)
Definition answer (w : reverse.Write) (c : WriteCall) : option error :=
  match c with
  | CallRWriteFile text => RWriteFile w text
  | CallCWriteFile text => CWriteFile w text
  | CallRWriteDB text => RWriteDB w text
  end.
Definition callText (c : WriteCall) : string :=
  match c with
  | CallRWriteFile text | CallCWriteFile text | CallRWriteDB text => text
  end.

End O2T.

(** ** The entry point [OracleDiffMySQLTable] *)

(** Modelled from the spec: a row of [wait_sync_meta(schema, table, mode,
    status)]. [OracleDiffMySQLTable] counts the rows and hands them on. *)
Record WaitSyncMeta := {
  WSM_SchemaName : string;
  WSM_TableName : string;
  WSM_Mode : string;
  WSM_Status : string
}.

(** [cfg.DiffConfig], the two options read here. *)
Record DiffConfig := {
  EnableCheckpoint : bool;
  FixSqlFile : string
}.

(** One call that leaves the function, with the answer it got. *)
Inductive Step :=
| DidGetOracleDBVersion (r : result string)
| DidGenerateTables (r : result (list string))
| DidGetTableErrorDetailCountByMode (schema mode : string) (r : result Z)
| DidIsExistWaitSyncTableMetaRecord (schema table mode : string) (r : result bool)
| DidInitWaitSyncTableMetaRecord (schema : string) (tables : list string) (mode : string)
    (r : option error)
| DidTruncateDataDiffMetaRecord (metaSchema : string) (r : option error)
| DidDeleteWaitSyncTableMetaRecord (metaSchema schema table mode : string)
    (r : option error)
| DidGetWaitSyncTableMetaRecord (schema mode : string)
    (r : result (list WaitSyncMeta * list string))
| DidGetPartSyncTableMetaRecord (schema mode : string)
    (r : result (list WaitSyncMeta * list string))
| DidJudgingCheckpointResume (schema : string) (metas : list WaitSyncMeta) (mode : string)
    (r : result (list string))
| DidGetOracleDBCharacterSet (r : result string)
| DidGetOracleDBCharacterNLSSortCollation (r : result string)
| DidGetOracleDBCharacterNLSCompCollation (r : result string)
| DidGetOracleSchemaCollation (schema : string) (r : result string)
| DidGetOracleTableCollation (schema schemaCollation : string)
    (r : result (gmap string string))
| DidGetwd (r : result string)
| DidOpenFile (name : string) (r : option error)
| DidStartTableDiff (partSyncTableInfo waitSyncTableInfo : list string) (o : Outcome)
| DidGetTableErrorDetailDistinctCountByMode (schema mode : string) (r : result Z)
| DidClose.

(** The calls made so far with their answers, and the meta store and
    repair file as they stand. *)
Record Run := {
  calls : list Step;
  store : World
}.

(** The methods of [service.Engine] and [cfg], and the functions of
    [utils], [os] and [filepath], that [OracleDiffMySQLTable] calls. An
    answer may depend on everything that happened before the call.
    [version_lt a b] is [utils.VersionOrdinal(a) < utils.VersionOrdinal(b)];
    the two maps of [utils] are given by their key sets. *)
Record Service := {
  GetOracleDBVersion : Run → result string;
  GenerateTables : Run → result (list string);
  GetTableErrorDetailCountByMode : Run → string → string → result Z;
  IsExistWaitSyncTableMetaRecord : Run → string → string → string → result bool;
  InitWaitSyncTableMetaRecord : Run → string → list string → string → option error;
  TruncateDataDiffMetaRecord : Run → string → option error;
  DeleteWaitSyncTableMetaRecord : Run → string → string → string → string → option error;
  GetWaitSyncTableMetaRecord : Run → string → string → result (list WaitSyncMeta * list string);
  GetPartSyncTableMetaRecord : Run → string → string → result (list WaitSyncMeta * list string);
  JudgingCheckpointResume : Run → string → list WaitSyncMeta → string → result (list string);
  GetOracleDBCharacterSet : Run → result string;
  GetOracleDBCharacterNLSSortCollation : Run → result string;
  GetOracleDBCharacterNLSCompCollation : Run → result string;
  GetOracleSchemaCollation : Run → string → result string;
  GetOracleTableCollation : Run → string → string → result (gmap string string);
  GetTableErrorDetailDistinctCountByMode : Run → string → string → result Z;
  os_Getwd : Run → result string;
  os_OpenFile : Run → string → option error;
  filepath_Join : string → string → string;
  strings_EqualFold : string → string → bool;
  version_lt : string → string → bool;
  OracleSYNCRequireDBVersion : string;
  OracleTableColumnCollationDBVersion : string;
  OracleDBCharacterSetMap : gset string;
  OracleCollationMap : gset string
}.

(** A statement of the function: it goes on with a value, or the function
    ends there ([return], a panic, a group that never comes back). *)
Definition M (A : Type) : Type := Run → Run * (A + Outcome).

Definition ret {A : Type} (a : A) : M A := λ r, (r, inl a).
Definition bind {A B : Type} (m : M A) (f : A → M B) : M B :=
  λ r, match m r with
       | (r', inl a) => f a r'
       | (r', inr o) => (r', inr o)
       end.
Definition stop {A : Type} (o : Outcome) : M A := λ r, (r, inr o).

Notation "x <~ m ;; k" := (bind m (λ x, k))
  (at level 100, m at next level, right associativity, only parsing).

(** A call: the answer is logged; [effect] is what the call does to the
    store. *)
Definition ask {A : Type} (oracle : Run → A) (log : A → Step)
    (effect : A → World → World) : M A :=
  λ r, let a := oracle r in
       ({| calls := calls r ++ [log a]; store := effect a (store r) |}, inl a).

Definition no_effect {A : Type} (_ : A) (w : World) : World := w.

(** [x, err := f(); if err != nil { return wrap(err) }]. *)
Definition try {A : Type} (m : M (result A)) (wrap : error → error) : M A :=
  x <~ m ;;
  match x with
  | Ok a => ret a
  | Err err => stop (Returns (Some (wrap err)))
  end.

(** [if err := f(); err != nil { return err }]. *)
Definition check (m : M (option error)) : M unit :=
  x <~ m ;;
  match x with
  | None => ret tt
  | Some err => stop (Returns (Some err))
  end.

(** [for _, x := range xs { body }]. *)
Fixpoint forEach {A : Type} (xs : list A) (body : A → M unit) : M unit :=
  match xs with
  | [] => ret tt
  | x :: rest => _ <~ body x ;; forEach rest body
  end.

(** [defer fixSqlFile.Close()]: the file is closed when the function
    returns. A panic of a worker goroutine ends the process, and a group
    that never comes back keeps the function from returning; neither runs
    the deferred call. *)
Definition defer_Close {A : Type} (m : M A) : M A :=
  λ r, match m r with
       | (r', inr (Panics msg)) => (r', inr (Panics msg))
       | (r', inr Hangs) => (r', inr Hangs)
       | (r', x) => ({| calls := calls r' ++ [DidClose]; store := store r' |}, x)
       end.

Section Entry.
Context (lib : Lib) (eng : Engine) (cfg : Cfg) (svc : Service) (dc : DiffConfig).

(** Modelled from the spec: [TruncateChunks(meta_schema)] wipes the chunk
    rows, here when the call succeeds. *)
Definition truncated (r : option error) (w : World) : World :=
  match r with
  | None => set_data_diff_meta [] w
  | Some _ => w
  end.

(** Modelled from the spec: [DeleteTableTask(schema, table, mode)] removes
    the task row of the table, and with it its status. The row that
    [InitWaitSyncTableMetaRecord] inserts has status wait, so that call
    leaves the done tables as they are. *)
Definition task_deleted (table : string) (r : option error) (w : World) : World :=
  match r with
  | None => set_done_tables (List.filter (λ t, negb (String.eqb t table)) (done_tables w)) w
  | Some _ => w
  end.

(** [os.O_TRUNC]: a file that is opened is emptied. *)
Definition opened (r : option error) (w : World) : World :=
  match r with
  | None => set_fix_sql_file [] w
  | Some _ => w
  end.

(** The call of [StartTableDiff]; the groups of the tables are run under
    the given schedules. *)
Definition callStartTableDiff (partSyncTableInfo waitSyncTableInfo : list string)
    (partScheds waitScheds : list (list nat)) : M (option error) :=
  λ r, let '(w, o) := StartTableDiff lib eng cfg partSyncTableInfo waitSyncTableInfo
                        partScheds waitScheds (store r) in
       let r' := {| calls := calls r ++ [DidStartTableDiff partSyncTableInfo
                                           waitSyncTableInfo o];
                    store := w |} in
       match o with
       | Returns err => (r', inl err)
       | _ => (r', inr o)
       end.

Definition OracleDiffMySQLTable (partScheds waitScheds : list (list nat)) : M unit :=
  let schema := cfg_SourceSchemaName cfg in
  oraDBVersion <~ try (ask (GetOracleDBVersion svc) DidGetOracleDBVersion no_effect) id ;;
  if version_lt svc oraDBVersion (OracleSYNCRequireDBVersion svc) then
    stop (Returns (Some ("oracle db version [" +:+ oraDBVersion +:+
                         "] is less than 11g, can't be using transferdb tools")))
  else
  exporterTableSlice <~ try (ask (GenerateTables svc) DidGenerateTables no_effect) id ;;
  if decide (length exporterTableSlice = 0) then stop (Returns None) else
  errorTotals <~
    try (ask (λ r, GetTableErrorDetailCountByMode svc r schema (DiffMode lib))
           (DidGetTableErrorDetailCountByMode schema (DiffMode lib)) no_effect)
      (λ err, "func [GetTableErrorDetailCountByMode] reverse schema [" +:+
              strings_ToUpper lib schema +:+ "] table mode [" +:+ DiffMode lib +:+
              "] task failed, error: " +:+ err) ;;
  if decide (errorTotals > 0)%Z then
    stop (Returns (Some ("func [GetTableErrorDetailCountByMode] reverse schema [" +:+
                         strings_ToUpper lib schema +:+ "] table mode [" +:+
                         DiffMode lib +:+
                         "] task failed, table [table_error_detail] exist failed error, please clear and rerunning")))
  else
  _ <~ forEach exporterTableSlice (λ tableName,
         isExist <~
           try (ask (λ r, IsExistWaitSyncTableMetaRecord svc r schema tableName (DiffMode lib))
                  (DidIsExistWaitSyncTableMetaRecord schema tableName (DiffMode lib))
                  no_effect) id ;;
         if negb isExist then
           check (ask (λ r, InitWaitSyncTableMetaRecord svc r schema [tableName] (DiffMode lib))
                    (DidInitWaitSyncTableMetaRecord schema [tableName] (DiffMode lib))
                    no_effect)
         else ret tt) ;;
  _ <~ (if negb (EnableCheckpoint dc) then
          _ <~ check (ask (λ r, TruncateDataDiffMetaRecord svc r (cfg_MetaSchema cfg))
                        (DidTruncateDataDiffMetaRecord (cfg_MetaSchema cfg)) truncated) ;;
          forEach exporterTableSlice (λ tableName,
            _ <~ check (ask (λ r, DeleteWaitSyncTableMetaRecord svc r (cfg_MetaSchema cfg)
                                    schema tableName (DiffMode lib))
                          (DidDeleteWaitSyncTableMetaRecord (cfg_MetaSchema cfg) schema
                             tableName (DiffMode lib)) (task_deleted tableName)) ;;
            isExist <~
              try (ask (λ r, IsExistWaitSyncTableMetaRecord svc r schema tableName
                               (DiffMode lib))
                     (DidIsExistWaitSyncTableMetaRecord schema tableName (DiffMode lib))
                     no_effect) id ;;
            if negb isExist then
              check (ask (λ r, InitWaitSyncTableMetaRecord svc r schema [tableName]
                                 (DiffMode lib))
                       (DidInitWaitSyncTableMetaRecord schema [tableName] (DiffMode lib))
                       no_effect)
            else ret tt)
        else ret tt) ;;
  waitSync <~
    try (ask (λ r, GetWaitSyncTableMetaRecord svc r schema (DiffMode lib))
           (DidGetWaitSyncTableMetaRecord schema (DiffMode lib)) no_effect) id ;;
  let '(waitSyncTableMetas, waitSyncTableInfo) := waitSync in
  partSync <~
    try (ask (λ r, GetPartSyncTableMetaRecord svc r schema (DiffMode lib))
           (DidGetPartSyncTableMetaRecord schema (DiffMode lib)) no_effect) id ;;
  let '(partSyncTableMetas, partSyncTableInfo) := partSync in
  if decide (length waitSyncTableMetas = 0 ∧ length partSyncTableMetas = 0) then
    stop (Returns None)
  else
  panicCheckpointTables <~
    try (ask (λ r, JudgingCheckpointResume svc r schema partSyncTableMetas (DiffMode lib))
           (DidJudgingCheckpointResume schema partSyncTableMetas (DiffMode lib))
           no_effect) id ;;
  if decide (length panicCheckpointTables ≠ 0) then
    stop (Returns (Some "checkpoint isn't consistent, please reruning [enable-checkpoint = fase]"))
  else
  characterSet <~
    try (ask (GetOracleDBCharacterSet svc) DidGetOracleDBCharacterSet no_effect) id ;;
  match strings_Split characterSet "." !! 1%nat with
  | None =>
      stop (Panics ("runtime error: index out of range [1] with length " +:+
                    itoa (length (strings_Split characterSet "."))))
  | Some name =>
  if decide (name ∉ OracleDBCharacterSetMap svc) then
    stop (Returns (Some ("oracle db character set [" +:+ characterSet +:+
                         "] isn't support")))
  else
  nlsSort <~
    try (ask (GetOracleDBCharacterNLSSortCollation svc)
           DidGetOracleDBCharacterNLSSortCollation no_effect) id ;;
  nlsComp <~
    try (ask (GetOracleDBCharacterNLSCompCollation svc)
           DidGetOracleDBCharacterNLSCompCollation no_effect) id ;;
  if decide (strings_ToUpper lib nlsSort ∉ OracleCollationMap svc) then
    stop (Returns (Some ("oracle db nls sort [" +:+ nlsSort +:+ "] isn't support")))
  else
  if decide (strings_ToUpper lib nlsComp ∉ OracleCollationMap svc) then
    stop (Returns (Some ("oracle db nls comp [" +:+ nlsComp +:+ "] isn't support")))
  else
  if negb (strings_EqualFold svc nlsSort nlsComp) then
    stop (Returns (Some ("oracle db nls_sort [" +:+ nlsSort +:+ "] and nls_comp [" +:+
                         nlsComp +:+
                         "] isn't different, need be equal; because mysql db isn't support")))
  else
  let oraCollation :=
    negb (version_lt svc oraDBVersion (OracleTableColumnCollationDBVersion svc)) in
  _ <~ (if oraCollation then
          schemaCollation <~
            try (ask (λ r, GetOracleSchemaCollation svc r (strings_ToUpper lib schema))
                   (DidGetOracleSchemaCollation (strings_ToUpper lib schema)) no_effect) id ;;
          _ <~ try (ask (λ r, GetOracleTableCollation svc r (strings_ToUpper lib schema)
                                schemaCollation)
                      (DidGetOracleTableCollation (strings_ToUpper lib schema)
                         schemaCollation) no_effect) id ;;
          ret tt
        else ret tt) ;;
  pwdDir <~ try (ask (os_Getwd svc) DidGetwd no_effect) id ;;
  let name := filepath_Join svc pwdDir (FixSqlFile dc) in
  _ <~ check (ask (λ r, os_OpenFile svc r name) (DidOpenFile name) opened) ;;
  defer_Close (
    _ <~ check (callStartTableDiff partSyncTableInfo waitSyncTableInfo
                  partScheds waitScheds) ;;
    errorTotals <~
      try (ask (λ r, GetTableErrorDetailDistinctCountByMode svc r schema (DiffMode lib))
             (DidGetTableErrorDetailDistinctCountByMode schema (DiffMode lib)) no_effect)
        (λ err, "func [GetTableErrorDetailDistinctCountByMode] diff schema [" +:+
                strings_ToUpper lib schema +:+ "] mode [" +:+ DiffMode lib +:+
                "] table task failed, error: " +:+ err) ;;
    ret tt)
  end.

(** The call from outside: the run starts with no call made. *)
Definition exec (m : M unit) (w : World) : Run * Outcome :=
  match m {| calls := []; store := w |} with
  | (r, inl _) => (r, Returns None)
  | (r, inr o) => (r, o)
  end.

End Entry.

Definition is_init (s : Step) : bool :=
  match s with
  | DidInitWaitSyncTableMetaRecord _ _ _ _ => true
  | _ => false
  end.

(** The calls that wipe the state of an earlier run. *)
Definition is_reset (s : Step) : bool :=
  match s with
  | DidTruncateDataDiffMetaRecord _ _ | DidDeleteWaitSyncTableMetaRecord _ _ _ _ _ => true
  | _ => false
  end.

Definition is_start (s : Step) : bool :=
  match s with
  | DidStartTableDiff _ _ _ => true
  | _ => false
  end.

(** The calls that come after the two loops over the tables' records. *)
Definition is_late (s : Step) : bool :=
  match s with
  | DidGetOracleDBCharacterSet _ | DidOpenFile _ _ | DidStartTableDiff _ _ _
  | DidGetTableErrorDetailDistinctCountByMode _ _ _ | DidClose => true
  | _ => false
  end.

(** The store that [StartTableDiff] finds: the chunk rows of an earlier run
    are kept when checkpointing is enabled and gone otherwise. *)
Definition reset_store (dc : DiffConfig) (w : World) : World :=
  if EnableCheckpoint dc then w else set_data_diff_meta [] w.

Definition index_panic : string :=
  "runtime error: index out of range [1] with length 1".

(** Every [InitWaitSyncTableMetaRecord] in [l] comes right after the
    [IsExistWaitSyncTableMetaRecord] of the same table that answered no. *)
Definition inits_guarded (l : list Step) : Prop :=
  ∀ pre schema tables mode a post,
    l = pre ++ DidInitWaitSyncTableMetaRecord schema tables mode a :: post →
    ∃ pre' table, tables = [table] ∧
                  pre = pre' ++ [DidIsExistWaitSyncTableMetaRecord schema table mode
                                   (Ok false)].

(** The calls that change the meta store or the repair file. *)
Definition is_write (s : Step) : bool :=
  match s with
  | DidInitWaitSyncTableMetaRecord _ _ _ _ | DidTruncateDataDiffMetaRecord _ _
  | DidDeleteWaitSyncTableMetaRecord _ _ _ _ _ | DidOpenFile _ _
  | DidStartTableDiff _ _ _ => true
  | _ => false
  end.

(** [Q] holds of the run and the result that [m] leaves. *)
Definition wp {A : Type} (m : M A) (Q : Run → A + Outcome → Prop) (r : Run) : Prop :=
  Q (m r).1 (m r).2.

(** The log of a run that got past the three refusals at the head of
    [OracleDiffMySQLTable]. *)
Definition gate_passed (lib : Lib) (cfg : Cfg) (svc : Service) (l : list Step) : Prop :=
  ∃ v tables n rest,
    l = DidGetOracleDBVersion (Ok v) :: DidGenerateTables (Ok tables) ::
        DidGetTableErrorDetailCountByMode (cfg_SourceSchemaName cfg) (DiffMode lib) (Ok n) ::
        rest ∧
    version_lt svc v (OracleSYNCRequireDBVersion svc) = false ∧
    tables ≠ [] ∧ (n ≤ 0)%Z.

(** ** More test doubles *)
Module FakeRun.

(** Adapters that count three rows upstream and two downstream. *)
Definition counting : Adapters :=
  {| GetOracleDataRowStrings := λ _, Err "not in rows mode";
     GetMySQLDataRowStrings := λ _, Err "not in rows mode";
     GetOracleTableActualRows := λ _, Ok 3%Z;
     GetMySQLTableActualRows := λ _, Ok 2%Z |}.

(** A chunk of another table. *)
Definition other_chunk : DataDiffMeta :=
  {| SourceSchemaName := "MARVIN"; SourceTableName := "T2";
     SourceColumnInfo := "ID"; TargetColumnInfo := "ID";
     Range := "ID BETWEEN 1 AND 10"; NumberColumn := "";
     SnapshotSCN := "4711" |}.

(** The meta store cannot be read. *)
Definition meta_down : Engine :=
  {| adapters := Fake.differing;
     GormDB_Create := λ _, None;
     DeleteDataDiffMeta := λ _ _ _, None;
     GetDataDiffMeta := λ _ _, Some "Error 2013: lost connection";
     ModifyWaitSyncTableMetaRecord := λ _ _ _ _, None;
     fixFileMW_Write := λ _, None;
     PreDiffCheck := λ _, None;
     NewDiff := NewDiff Fake.healthy;
     Diff_String := SourceTable;
     GetOracleCurrentSnapshotSCN := Ok 4711%N;
     SplitChunk := λ _ _ _, Ok [] |}.

Definition inited (table : string) (s : Step) : bool :=
  match s with
  | DidInitWaitSyncTableMetaRecord _ [t] _ None => String.eqb t table
  | _ => false
  end.

(** A service for one table [T1] that an earlier run has left in part:
    a table has a record once [InitWaitSyncTableMetaRecord] was called for
    it, the upstream reports [characterSet], and the final count is the
    number of records in [table_error_detail]. *)
Definition svc (characterSet : string) : Service :=
  {| GetOracleDBVersion := λ _, Ok "19.0.0.0.0";
     GenerateTables := λ _, Ok ["T1"];
     GetTableErrorDetailCountByMode := λ _ _ _, Ok 0%Z;
     IsExistWaitSyncTableMetaRecord := λ r _ table _, Ok (existsb (inited table) (calls r));
     InitWaitSyncTableMetaRecord := λ _ _ _ _, None;
     TruncateDataDiffMetaRecord := λ _ _, None;
     DeleteWaitSyncTableMetaRecord := λ _ _ _ _ _, None;
     GetWaitSyncTableMetaRecord := λ _ _ _, Ok ([], []);
     GetPartSyncTableMetaRecord := λ _ schema mode,
       Ok ([ {| WSM_SchemaName := schema; WSM_TableName := "T1"; WSM_Mode := mode;
                WSM_Status := "part" |} ], ["T1"]);
     JudgingCheckpointResume := λ _ _ _ _, Ok [];
     GetOracleDBCharacterSet := λ _, Ok characterSet;
     GetOracleDBCharacterNLSSortCollation := λ _, Ok "BINARY";
     GetOracleDBCharacterNLSCompCollation := λ _, Ok "BINARY";
     GetOracleSchemaCollation := λ _ _, Ok "USING_NLS_COMP";
     GetOracleTableCollation := λ _ _ _, Ok ∅;
     GetTableErrorDetailDistinctCountByMode := λ r _ _,
       Ok (Z.of_nat (length (table_error_detail (store r))));
     os_Getwd := λ _, Ok "/data";
     os_OpenFile := λ _ _, None;
     filepath_Join := λ dir name, dir +:+ "/" +:+ name;
     strings_EqualFold := λ a b, String.eqb (Fake.ToUpper a) (Fake.ToUpper b);
     version_lt := String.ltb;
     OracleSYNCRequireDBVersion := "11";
     OracleTableColumnCollationDBVersion := "12.2";
     OracleDBCharacterSetMap := {[ "AL32UTF8" ]};
     OracleCollationMap := {[ "BINARY" ]} |}.

Definition dc : DiffConfig := {| EnableCheckpoint := true; FixSqlFile := "fix.sql" |}.

(** A table with a primary key, a foreign key and a check constraint. *)
Definition ddl : O2T.DDL :=
  {| O2T.SourceSchemaName := "MARVIN"; O2T.SourceTableName := "T1";
     O2T.SourceTableType := "HEAP"; O2T.SourceTableDDL := "CREATE TABLE T1 (ID NUMBER)";
     O2T.TargetSchemaName := "tgt"; O2T.TargetTableName := "t1";
     O2T.TargetDBVersion := "6.5";
     O2T.TableColumns := ["`id` BIGINT"; "`pid` BIGINT"];
     O2T.TableKeys := ["PRIMARY KEY (`id`)"];
     O2T.TableSuffix := "ENGINE=InnoDB";
     O2T.TableComment := "";
     O2T.TableCheckKeys := ["CONSTRAINT `ck` CHECK (`id` > 0)"];
     O2T.TableForeignKeys := ["CONSTRAINT `fk` FOREIGN KEY (`pid`) REFERENCES `t0` (`id`)"];
     O2T.TableCompatibleDDL := [] |}.

End FakeRun.

(** ** Facts about the reconciler *)

Section ReconcilerFacts.
Context (lib : Lib) (db : Adapters).

Lemma strset_List_elem (s : gset string) (t : string) :
  t ∈ strset_List lib s ↔ t ∈ s.
Proof. rewrite (strset_List_perm lib s). apply elem_of_elements. Qed.

Lemma strset_List_length (s : gset string) :
  length (strset_List lib s) = size s.
Proof. rewrite (strset_List_perm lib s). reflexivity. Qed.

Lemma strset_List_nil (s : gset string) :
  strset_List lib s = [] ↔ s = ∅.
Proof.
  split; intros H.
  - apply set_eq. intros t. rewrite <- strset_List_elem, H. set_solver.
  - apply Permutation_nil_r. rewrite (strset_List_perm lib s), H.
    by rewrite elements_empty.
Qed.

Lemma headerIf_pos rows word targetSchema dm oraCrc mysqlCrc :
  0 < length rows →
  headerIf lib rows word targetSchema dm oraCrc mysqlCrc =
  crc32Header lib word targetSchema dm oraCrc mysqlCrc.
Proof. destruct rows; simpl; [lia | done]. Qed.

Lemma deleteLoop_ok targetSchema dm columns targetMore fixSQL :
  Forall (λ t, length (strings_Split t ",") = length columns) targetMore →
  deleteLoop targetSchema dm columns targetMore fixSQL =
  Ok (fixSQL ++ map (λ t, deleteStatement targetSchema dm columns (strings_Split t ","))
                    targetMore).
Proof.
  intros H. revert fixSQL.
  induction H as [|t rest Ht _ IH]; intros fixSQL; simpl.
  - by rewrite app_nil_r.
  - unfold deleteLine. case_decide; [congruence|].
    rewrite IH. unfold WriteString. by rewrite <- app_assoc.
Qed.

Lemma deleteLoop_err targetSchema dm columns targetMore fixSQL :
  Exists (λ t, length (strings_Split t ",") ≠ length columns) targetMore →
  ∃ t, t ∈ targetMore ∧ length (strings_Split t ",") ≠ length columns ∧
       deleteLoop targetSchema dm columns targetMore fixSQL =
       Err (columnCountError targetSchema dm (length columns)
              (length (strings_Split t ","))).
Proof.
  revert fixSQL. induction targetMore as [|t rest IH]; intros fixSQL H.
  - by apply Exists_nil in H.
  - simpl. unfold deleteLine.
    case_decide as Hlen.
    + exists t. split; [left|]. split; [congruence | done].
    + apply Exists_cons in H as [H|H]; [congruence|].
      destruct (IH (WriteString fixSQL
                      (deleteStatement targetSchema dm columns (strings_Split t ","))) H)
        as (t' & Hin & Hne & Heq).
      exists t'. split; [by right|]. by split.
Qed.

Lemma crc32Header_text_ne word targetSchema dm oraCrc mysqlCrc more :
  Builder_String (crc32Header lib word targetSchema dm oraCrc mysqlCrc ++ more) ≠ "".
Proof. unfold Builder_String, crc32Header. simpl. discriminate. Qed.

Lemma fragmentWrites_text targetSchema dm oraReport mysqlReport targetMore sourceMore :
  Builder_String (fragmentWrites lib targetSchema dm oraReport mysqlReport
                    targetMore sourceMore) = "" ↔
  targetMore = [] ∧ sourceMore = [].
Proof.
  unfold fragmentWrites. split.
  - destruct targetMore as [|t tm]; [destruct sourceMore as [|s sm]|]; [done|..].
    + intros H. by apply crc32Header_text_ne in H.
    + intros H. by apply crc32Header_text_ne in H.
  - by intros [-> ->].
Qed.

(** The branch of [reportCheckCRC32] behind the comparison of the CRCs,
    when every downstream-extra row has one value per column. *)
Lemma fixSQLWrites_ok targetSchema dm oraReport mysqlReport :
  (∀ t, t ∈ StringSet mysqlReport ∖ StringSet oraReport →
        length (strings_Split t ",") = length (Columns mysqlReport)) →
  fixSQLWrites lib targetSchema dm oraReport mysqlReport =
  Ok (fragmentWrites lib targetSchema dm oraReport mysqlReport
        (strset_List lib (StringSet mysqlReport ∖ StringSet oraReport))
        (strset_List lib (StringSet oraReport ∖ StringSet mysqlReport))).
Proof.
  intros Hcols. unfold fixSQLWrites, fragmentWrites.
  set (tm := strset_List lib (StringSet mysqlReport ∖ StringSet oraReport)).
  set (sm := strset_List lib (StringSet oraReport ∖ StringSet mysqlReport)).
  assert (Forall (λ t, length (strings_Split t ",") = length (Columns mysqlReport)) tm)
    as Hall.
  { apply Forall_forall. intros t Ht. apply Hcols. by apply strset_List_elem. }
  case_decide as Htm.
  - rewrite (deleteLoop_ok _ _ _ _ _ Hall), (headerIf_pos tm) by done.
    case_decide as Hsm.
    + rewrite (headerIf_pos sm) by done. cbv zeta.
      by rewrite ?app_nil_l, <- ?app_assoc.
    + destruct sm; [|simpl in Hsm; lia]. cbn [headerIf map].
      by rewrite ?app_nil_l, ?app_nil_r.
  - destruct tm; [|simpl in Htm; lia]. cbn [headerIf map].
    case_decide as Hsm.
    + by rewrite (headerIf_pos sm) by done.
    + destruct sm; [done | simpl in Hsm; lia].
Qed.

Lemma fixSQLWrites_err targetSchema dm oraReport mysqlReport t :
  t ∈ StringSet mysqlReport ∖ StringSet oraReport →
  length (strings_Split t ",") ≠ length (Columns mysqlReport) →
  ∃ t', t' ∈ StringSet mysqlReport ∖ StringSet oraReport ∧
        length (strings_Split t' ",") ≠ length (Columns mysqlReport) ∧
        fixSQLWrites lib targetSchema dm oraReport mysqlReport =
        Err (columnCountError targetSchema dm (length (Columns mysqlReport))
               (length (strings_Split t' ","))).
Proof.
  intros Hin Hne. unfold fixSQLWrites.
  set (tm := strset_List lib (StringSet mysqlReport ∖ StringSet oraReport)).
  assert (t ∈ tm) as Htm by by apply strset_List_elem.
  case_decide as Hpos.
  - edestruct (deleteLoop_err targetSchema dm (Columns mysqlReport) tm)
      as (t' & Hin' & Hne' & Heq).
    { apply Exists_exists. eauto. }
    exists t'. split; [by apply strset_List_elem|]. split; [done|]. by rewrite Heq.
  - destruct tm; [by apply elem_of_nil in Htm | simpl in Hpos; lia].
Qed.

End ReconcilerFacts.

Section ExecutorFacts.
Context (lib : Lib) (eng : Engine) (cfg : Cfg).

Ltac step_cases :=
  unfold step, drain_step, worker_step, after_report, close_chan,
    worker_returns, drain_returns, set_pc, set_world, set_buf, panic,
    set_fix_sql_file, set_table_error_detail, set_data_diff_meta;
  repeat case_match; simpl in *.


Lemma run_cons j s g :
  run lib eng cfg (j :: s) g = run lib eng cfg s (step lib eng cfg j g).
Proof. reflexivity. Qed.

(** An invariant of [step] holds after every schedule. *)
Lemma run_invariant (P : Group → Prop) :
  (∀ j g, P g → P (step lib eng cfg j g)) → ∀ sched g, P g → P (run lib eng cfg sched g).
Proof.
  intros Hstep sched. induction sched as [|j sched IH]; intros g Hg; [done|].
  rewrite run_cons. apply IH, Hstep, Hg.
Qed.

Lemma step_trace j g : trace (world (step lib eng cfg j g)) = trace (world g).
Proof. step_cases; done. Qed.

Lemma step_done_tables j g :
  done_tables (world (step lib eng cfg j g)) = done_tables (world g).
Proof. step_cases; done. Qed.

Lemma deleteChunk_subseteq schema table range rows :
  deleteChunk schema table range rows ⊆ rows.
Proof.
  intros m Hm. unfold deleteChunk in Hm.
  apply list_elem_of_In, filter_In in Hm as [Hm _]. by apply list_elem_of_In.
Qed.

Lemma step_data_diff_meta j g :
  data_diff_meta (world (step lib eng cfg j g)) ⊆ data_diff_meta (world g).
Proof. step_cases; try done. apply deleteChunk_subseteq. Qed.



Lemma close_inv_spawn diffMetas w : close_inv (spawn diffMetas w).
Proof.
  split; simpl.
  - intros i m H. apply list_lookup_fmap_Some in H as (? & ? & ?). simplify_eq.
  - intros i H. by apply elem_of_nil in H.
  - left. lia.
  - done.
Qed.

Lemma insert_pc_lookup (ws : list (DataDiffMeta * Pc)) k meta pc pc' i m q :
  ws !! k = Some (meta, pc) → pc ≠ q → pc' ≠ q →
  <[k := (meta, pc')]> ws !! i = Some (m, q) ↔ ws !! i = Some (m, q).
Proof.
  intros Hk Hpc Hpc'. rewrite list_lookup_insert_Some. split.
  - intros [(-> & ? & _)|[? H]]; [simplify_eq | done].
  - intros H. right. split; [|done]. intros ->. simplify_eq.
Qed.

(** Steps that neither call [close] nor let a worker return nil. *)
Lemma close_inv_frame g g' :
  close_inv g → panicked g = None →
  close_calls g' = close_calls g → closed g' = closed g →
  (∀ i m, workers g' !! i = Some (m, Returned None) ↔
          workers g !! i = Some (m, Returned None)) →
  close_inv g'.
Proof.
  intros [HA HB HC HD] Hp Hcalls Hclosed Hw. split.
  - intros i m H. rewrite Hcalls. by apply (HA i m), Hw.
  - intros i Hi. rewrite Hcalls in Hi. destruct (HB i Hi) as [m [H|[_ H]]]; [|congruence].
    exists m. left. by apply Hw.
  - left. rewrite Hcalls. destruct HC; [done | congruence].
  - rewrite Hcalls, Hclosed. done.
Qed.

Lemma close_inv_step j g : close_inv g → close_inv (step lib eng cfg j g).
Proof.
  intros Hinv.
  unfold step.
  destruct (panicked g) eqn:Hp; [done|].
  destruct j as [|k].
  { apply (close_inv_frame g); try done;
      unfold drain_step, drain_returns, set_world, set_buf; repeat case_match; done. }
  destruct (workers g !! k) as [[meta pc]|] eqn:Hk; [|done].
  destruct pc; unfold worker_step.
  - (* Report *)
    unfold after_report. 
    repeat case_match; try done;
      apply (close_inv_frame g); try done; simpl; intros;
      by eapply insert_pc_lookup.
  - case_match; apply (close_inv_frame g); try done; simpl; intros;
      by eapply insert_pc_lookup.
  - case_match; apply (close_inv_frame g); try done; simpl; intros;
      by eapply insert_pc_lookup.
  - case_match; apply (close_inv_frame g); try done; simpl; intros;
      by eapply insert_pc_lookup.
  - (* close *)
    destruct Hinv as [HA HB HC HD].
    unfold close_chan. destruct (closed g) eqn:Hclosed; simpl.
    + split; simpl.
      * intros i m H. apply HA in H. destruct (close_calls g); by simplify_eq/=.
      * intros i [Hi| ->%list_elem_of_singleton]%elem_of_app.
        -- destruct (HB i Hi) as [m [H|[_ H]]]; [eauto | congruence].
        -- eauto.
      * by right.
      * done.
    + rewrite Hp. rewrite (HD eq_refl) in *. split; simpl.
      * intros i m [(-> & ? & _)|[? H]]%list_lookup_insert_Some; [done|].
        by apply HA in H.
      * intros i ->%list_elem_of_singleton. exists meta. left.
        apply list_lookup_insert_eq. by eapply lookup_lt_Some.
      * left. lia.
      * done.
  - done.
Qed.

Lemma close_inv_run diffMetas w sched :
  close_inv (run lib eng cfg sched (spawn diffMetas w)).
Proof. apply run_invariant; [apply close_inv_step | apply close_inv_spawn]. Qed.

Lemma step_workers_length j g :
  length (workers (step lib eng cfg j g)) = length (workers g).
Proof. step_cases; rewrite ?length_insert; done. Qed.

Lemma run_workers_length sched g :
  length (workers (run lib eng cfg sched g)) = length (workers g).
Proof.
  revert g. induction sched as [|j sched IH]; intros g; [done|].
  by rewrite run_cons, IH, step_workers_length.
Qed.

Lemma run_trace sched g : trace (world (run lib eng cfg sched g)) = trace (world g).
Proof.
  revert g. induction sched as [|j sched IH]; intros g; [done|].
  by rewrite run_cons, IH, step_trace.
Qed.

Lemma run_done_tables sched g :
  done_tables (world (run lib eng cfg sched g)) = done_tables (world g).
Proof.
  revert g. induction sched as [|j sched IH]; intros g; [done|].
  by rewrite run_cons, IH, step_done_tables.
Qed.

Lemma run_data_diff_meta sched g :
  data_diff_meta (world (run lib eng cfg sched g)) ⊆ data_diff_meta (world g).
Proof.
  revert g. induction sched as [|j sched IH]; intros g; [done|].
  rewrite run_cons. etrans; [apply IH | apply step_data_diff_meta].
Qed.






(** The chunks of the workers are the chunks the group was started for. *)
Lemma step_workers_chunks j g :
  (workers (step lib eng cfg j g)).*1 = (workers g).*1.
Proof.
  unfold step. destruct (panicked g); [done|]. destruct j as [|i].
  { unfold drain_step, drain_returns, set_world, set_buf. by repeat case_match. }
  destruct (workers g !! i) as [[meta pc]|] eqn:Hi; [|done].
  assert ((<[i := meta]> ((workers g).*1)) = (workers g).*1) as Hid.
  { apply list_insert_id. by rewrite list_lookup_fmap, Hi. }
  unfold worker_step, after_report, close_chan, worker_returns, set_pc, set_world,
    set_buf, panic.
  repeat case_match; simpl; rewrite ?list_fmap_insert; simpl; by rewrite ?Hid.
Qed.

Lemma run_workers_chunks sched diffMetas w :
  (workers (run lib eng cfg sched (spawn diffMetas w))).*1 = diffMetas.
Proof.
  apply (run_invariant (λ g, (workers g).*1 = diffMetas)).
  - intros j g <-. apply step_workers_chunks.
  - simpl. rewrite <- list_fmap_compose. apply list_fmap_id.
Qed.

(** *** A table of one chunk whose comparison fails and is logged *)
Section SingleChunk.
Context (meta : DataDiffMeta) (err : error).
Hypothesis report_fails : (callReport lib eng cfg meta).2 = Some err.
Hypothesis log_ok : GormDB_Create eng (reportFailedDetail lib meta err) = None.
Hypothesis delete_ok :
  DeleteDataDiffMeta eng (SourceSchemaName meta) (SourceTableName meta) (Range meta)
  = None.







End SingleChunk.

End ExecutorFacts.

Section TableFacts.
Context (lib : Lib) (eng : Engine) (cfg : Cfg).

Lemma tableLoop_trace diffs scheds w :
∃ t, trace (tableLoop lib eng cfg diffs scheds w).1 = trace w ++ t ∧
     Forall (λ e, planner_event e = false) t ∧
     data_diff_meta (tableLoop lib eng cfg diffs scheds w).1 ⊆ data_diff_meta w.
Proof.
revert scheds w. induction diffs as [|d rest IH]; intros scheds w.
{ exists []. simpl. by rewrite app_nil_r. }
cbn [tableLoop].
set (w0 := emit (EvGetDataDiffMeta (SourceSchema d) (SourceTable d)) w).
destruct (GetDataDiffMeta eng _ _).
{ exists [EvGetDataDiffMeta (SourceSchema d) (SourceTable d)]. simpl.
  split; [done|]. split; [|done]. by repeat constructor. }
set (g := run lib eng cfg (hd [] scheds) (spawn _ w0)).
assert (trace (world g) = trace w ++ [EvGetDataDiffMeta (SourceSchema d) (SourceTable d)])
  as Htr by (unfold g; by rewrite run_trace).
assert (data_diff_meta (world g) ⊆ data_diff_meta w) as Hsub.
{ unfold g. etrans; [apply run_data_diff_meta|done]. }
destruct (Wait g) as [[e|]| |].
- edestruct (IH (tl scheds)) as (t & Ht & Hall & Hd).
  eexists. rewrite Ht. simpl. rewrite Htr, <- !app_assoc.
  split; [done|]. split.
  + repeat (apply Forall_cons; split; [done|]). done.
  + etrans; [apply Hd|]. done.
- destruct (ModifyWaitSyncTableMetaRecord eng _ _ _ _).
  + eexists. simpl. rewrite Htr, <- !app_assoc. split; [done|].
    split; [by repeat constructor | done].
  + edestruct (IH (tl scheds)) as (t & Ht & Hall & Hd).
    eexists. rewrite Ht. simpl. rewrite Htr, <- !app_assoc.
    split; [done|]. split.
    * repeat (apply Forall_cons; split; [done|]). done.
    * etrans; [apply Hd|]. done.
- eexists. simpl. rewrite Htr. split; [done|]. split; [by repeat constructor | done].
- eexists. simpl. rewrite Htr. split; [done|]. split; [by repeat constructor | done].
Qed.

Lemma startTableDiffCheck_checkpoint_trace part wait scheds w :
∃ t, trace (startTableDiffCheck lib eng cfg part wait true scheds w).1
     = trace w ++ EvPreDiffCheck part :: t ∧
     Forall (λ e, planner_event e = false) t ∧
     data_diff_meta (startTableDiffCheck lib eng cfg part wait true scheds w).1
     ⊆ data_diff_meta w.
Proof.
unfold startTableDiffCheck.
destruct (PreDiffCheck eng part).
{ exists []. simpl. done. }
destruct (NewDiff eng part) as [diffs|e].
- edestruct (tableLoop_trace diffs scheds) as (t & Ht & Hall & Hd).
  eexists. rewrite Ht. simpl. rewrite <- !app_assoc. split; [done|].
  split; [by constructor | apply Hd].
- eexists. simpl. rewrite <- !app_assoc. split; [done|]. split; [by repeat constructor|done].
Qed.

Lemma startTableDiffCheck_fresh_trace part wait scheds w :
∃ t, trace (startTableDiffCheck lib eng cfg part wait false scheds w).1
     = trace w ++ EvPreDiffCheck wait :: t.
Proof.
unfold startTableDiffCheck.
destruct (PreDiffCheck eng wait).
{ by exists []. }
assert (∀ diffs n scn first w', ∃ t,
          trace (splitChunks eng diffs n scn first w').1 = trace w' ++ t) as Hsplit.
{ induction diffs as [|d rest IH]; intros n scn first w'; simpl.
  - exists []. by rewrite app_nil_r.
  - destruct (SplitChunk eng d n scn).
    + edestruct IH as [t Ht]. eexists. rewrite Ht. simpl. by rewrite <- app_assoc.
    + edestruct IH as [t Ht]. eexists. rewrite Ht. simpl. by rewrite <- app_assoc. }
unfold PreSplitChunk.
destruct (NewDiff eng wait) as [diffs|e]; [|eexists; simpl; by rewrite <- app_assoc].
destruct (GetOracleCurrentSnapshotSCN eng) as [scn|e];
  [|eexists; simpl; by rewrite <- !app_assoc].
set (w1 := emit EvGetOracleCurrentSnapshotSCN _).
destruct (Hsplit diffs 0 scn None w1) as [t Ht].
destruct (splitChunks eng diffs 0 scn None w1) as [w' [e|]]; simpl in Ht.
- eexists. cbn [fst]. rewrite Ht. simpl. by rewrite <- !app_assoc.
- edestruct (tableLoop_trace diffs scheds w') as (t' & Ht' & _).
  eexists. rewrite Ht', Ht. simpl. by rewrite <- !app_assoc.
Qed.

Lemma tableLoop_nil_handled diffs scheds w :
  (tableLoop lib eng cfg diffs scheds w).2 = Returns None →
  ∃ blocks, trace (tableLoop lib eng cfg diffs scheds w).1 = trace w ++ concat blocks ∧
            Forall2 (table_handled lib cfg) diffs blocks.
Proof.
  revert scheds w. induction diffs as [|d rest IH]; intros scheds w.
  { intros _. exists []. simpl. by rewrite app_nil_r. }
  cbn [tableLoop].
  set (w0 := emit (EvGetDataDiffMeta (SourceSchema d) (SourceTable d)) w).
  destruct (GetDataDiffMeta eng _ _); [done|].
  set (g := run lib eng cfg (hd [] scheds) (spawn _ w0)).
  assert (trace (world g) = trace w ++ [EvGetDataDiffMeta (SourceSchema d) (SourceTable d)])
    as Htr by (unfold g; by rewrite run_trace).
  destruct (Wait g) as [[e|]| |]; try done.
  - intros Hnil. destruct (IH _ _ Hnil) as (blocks & Ht & Hall).
    eexists (_ :: blocks). split; [|constructor; [by left | done]].
    rewrite Ht. simpl. by rewrite Htr, <- !app_assoc.
  - destruct (ModifyWaitSyncTableMetaRecord eng _ _ _ _); [done|].
    intros Hnil. destruct (IH _ _ Hnil) as (blocks & Ht & Hall).
    eexists (_ :: blocks). split; [|constructor; [by right | done]].
    rewrite Ht. simpl. by rewrite Htr, <- !app_assoc.
Qed.

Lemma listChunks_subseteq schema table rows : listChunks schema table rows ⊆ rows.
Proof. intros m Hm. unfold listChunks in Hm. by apply list_elem_of_In, filter_In in Hm as [?%list_elem_of_In _]. Qed.

End TableFacts.

(** ** The reconciler: [Report] and [reportCheckCRC32] *)

Section ReconcilerClaims.
Context (lib : Lib) (db : Adapters).

(** What [reportCheckCRC32] does once both digests are read, their CRCs
    differ and no downstream-extra row trips the column count: the fragment
    follows the two enumerations that [List()] gave. *)
Lemma reportCheckCRC32_differ targetSchema oraQuery mysqlQuery dm
    oraColumns U oraCrc mysqlColumns D mysqlCrc :
  GetOracleDataRowStrings db oraQuery = Ok (oraColumns, U, oraCrc) →
  GetMySQLDataRowStrings db mysqlQuery = Ok (mysqlColumns, D, mysqlCrc) →
  oraCrc ≠ mysqlCrc →
  (∀ t, t ∈ D ∖ U → length (strings_Split t ",") = length mysqlColumns) →
  fixSQLWrites lib targetSchema dm
    (digest oraColumns U oraCrc) (digest mysqlColumns D mysqlCrc) =
  Ok (fragmentWrites lib targetSchema dm
        (digest oraColumns U oraCrc) (digest mysqlColumns D mysqlCrc)
        (strset_List lib (D ∖ U)) (strset_List lib (U ∖ D))) ∧
  reportCheckCRC32 lib db targetSchema oraQuery mysqlQuery dm =
  (match strset_List lib (D ∖ U), strset_List lib (U ∖ D) with
   | [], [] => []
   | _, _ =>
       [fragment targetSchema dm
          (Builder_String
             (fragmentWrites lib targetSchema dm
                (digest oraColumns U oraCrc) (digest mysqlColumns D mysqlCrc)
                (strset_List lib (D ∖ U)) (strset_List lib (U ∖ D))))]
   end, None).
Proof.
  intros Hora Hmysql Hcrc Hcols.
  pose proof (fixSQLWrites_ok lib targetSchema dm
                (digest oraColumns U oraCrc) (digest mysqlColumns D mysqlCrc) Hcols) as Hw.
  split; [exact Hw|].
  unfold reportCheckCRC32. rewrite Hora, Hmysql.
  case_decide as Heq; [done|]. simpl in Hw. rewrite Hw.
  case_decide as Htext.
  - destruct (strset_List lib (D ∖ U)), (strset_List lib (U ∖ D)); try done.
  - destruct (decide (Builder_String (fragmentWrites lib targetSchema dm
                (digest oraColumns U oraCrc) (digest mysqlColumns D mysqlCrc)
                (strset_List lib (D ∖ U)) (strset_List lib (U ∖ D))) = "")) as [He|He];
      [|done].
    apply fragmentWrites_text in He as [-> ->]. done.
Qed.

(** C1 (amended). In CRC mode, when the two CRC32 values differ and every
    row of D \ U splits at its commas into as many values as there are
    downstream columns, the writes into [fixSQL] are: a commented header
    and one DELETE line for each row of an enumeration of D \ U without
    repeats (when D \ U is not empty), then a commented header and one
    INSERT line for each row of an enumeration of U \ D without repeats
    (when U \ D is not empty), and nothing else; that text is the one
    fragment sent, and nothing is sent when both differences are empty. *)
Theorem reportCheckCRC32_symmetric_diff
    (targetSchema oraQuery mysqlQuery : string) (dm : DataDiffMeta)
    (oraColumns : list string) (U : gset string) (oraCrc : N)
    (mysqlColumns : list string) (D : gset string) (mysqlCrc : N) :
  GetOracleDataRowStrings db oraQuery = Ok (oraColumns, U, oraCrc) →
  GetMySQLDataRowStrings db mysqlQuery = Ok (mysqlColumns, D, mysqlCrc) →
  oraCrc ≠ mysqlCrc →
  (∀ t, t ∈ D ∖ U → length (strings_Split t ",") = length mysqlColumns) →
  ∃ targetMore sourceMore,
    targetMore ≡ₚ elements (D ∖ U) ∧
    sourceMore ≡ₚ elements (U ∖ D) ∧
    length targetMore = size (D ∖ U) ∧
    length sourceMore = size (U ∖ D) ∧
    fixSQLWrites lib targetSchema dm
      (digest oraColumns U oraCrc) (digest mysqlColumns D mysqlCrc) =
    Ok (headerIf lib targetMore "more" targetSchema dm oraCrc mysqlCrc ++
        map (λ t, deleteStatement targetSchema dm mysqlColumns (strings_Split t ","))
            targetMore ++
        headerIf lib sourceMore "less" targetSchema dm oraCrc mysqlCrc ++
        map (insertLine targetSchema dm oraColumns) sourceMore) ∧
    reportCheckCRC32 lib db targetSchema oraQuery mysqlQuery dm =
    (match targetMore, sourceMore with
     | [], [] => []
     | _, _ =>
         [fragment targetSchema dm
            (Builder_String
               (headerIf lib targetMore "more" targetSchema dm oraCrc mysqlCrc ++
                map (λ t, deleteStatement targetSchema dm mysqlColumns
                            (strings_Split t ",")) targetMore ++
                headerIf lib sourceMore "less" targetSchema dm oraCrc mysqlCrc ++
                map (insertLine targetSchema dm oraColumns) sourceMore))]
     end, None).
Proof.
  intros Hora Hmysql Hcrc Hcols.
  exists (strset_List lib (D ∖ U)), (strset_List lib (U ∖ D)).
  split; [apply strset_List_perm|]. split; [apply strset_List_perm|].
  split; [apply strset_List_length|]. split; [apply strset_List_length|].
  exact (reportCheckCRC32_differ targetSchema oraQuery mysqlQuery dm
           _ _ _ _ _ _ Hora Hmysql Hcrc Hcols).
Qed.

(** C5. In CRC mode one call of [Report] sends at most one [ReportSummary]
    on the result channel, and it sends none (and returns nil) when both
    digests are read and their CRC32 values are equal. *)
Theorem Report_crc_mode_at_most_one_fragment
    (targetSchema : string) (dm : DataDiffMeta) :
  (length (Report lib db targetSchema dm false).1 ≤ 1)%nat ∧
  (∀ oraColumns U mysqlColumns D crc,
     GetOracleDataRowStrings db (Report_oraQuery dm) = Ok (oraColumns, U, crc) →
     GetMySQLDataRowStrings db (Report_mysqlQuery targetSchema dm)
       = Ok (mysqlColumns, D, crc) →
     Report lib db targetSchema dm false = ([], None)).
Proof.
  unfold Report, reportCheckCRC32. split.
  - destruct (GetOracleDataRowStrings db _) as [[[oc U] c1]|e]; [|simpl; lia].
    destruct (GetMySQLDataRowStrings db _) as [[[mc D] c2]|e]; [|simpl; lia].
    case_decide; [simpl; lia|].
    destruct (fixSQLWrites _ _ _ _ _); [|simpl; lia].
    case_decide; simpl; lia.
  - intros oc U mc D crc -> ->. simpl. by case_decide.
Qed.

(** C8 (amended). In CRC mode, when the two CRC32 values differ and some
    downstream-extra row splits at its commas into a number of values other
    than the number of downstream columns, [reportCheckCRC32] returns the
    error that names the column count and the value count of such a row
    (the first one that [List()] yields), and sends nothing. *)
Theorem reportCheckCRC32_column_count_error
    (targetSchema oraQuery mysqlQuery : string) (dm : DataDiffMeta)
    (oraColumns : list string) (U : gset string) (oraCrc : N)
    (mysqlColumns : list string) (D : gset string) (mysqlCrc : N) (t : string) :
  GetOracleDataRowStrings db oraQuery = Ok (oraColumns, U, oraCrc) →
  GetMySQLDataRowStrings db mysqlQuery = Ok (mysqlColumns, D, mysqlCrc) →
  oraCrc ≠ mysqlCrc →
  t ∈ D ∖ U →
  length (strings_Split t ",") ≠ length mysqlColumns →
  ∃ t', t' ∈ D ∖ U ∧
        length (strings_Split t' ",") ≠ length mysqlColumns ∧
        reportCheckCRC32 lib db targetSchema oraQuery mysqlQuery dm =
        ([], Some ("mysql schema [" +:+ targetSchema +:+ "] table [" +:+
                   SourceTableName dm +:+ "] column counts [" +:+
                   itoa (length mysqlColumns) +:+ "] isn't match values counts [" +:+
                   itoa (length (strings_Split t' ",")) +:+ "]")).
Proof.
  intros Hora Hmysql Hcrc Hin Hne.
  destruct (fixSQLWrites_err lib targetSchema dm
              (digest oraColumns U oraCrc) (digest mysqlColumns D mysqlCrc) t Hin Hne)
    as (t' & Hin' & Hne' & Heq).
  exists t'. split; [done|]. split; [done|].
  unfold reportCheckCRC32. rewrite Hora, Hmysql.
  case_decide; [done|]. simpl in Heq. by rewrite Heq.
Qed.

(** C10 (amended). In CRC mode, when the two CRC32 values differ and every
    downstream-extra row has as many values as there are downstream
    columns, [reportCheckCRC32] returns nil and sends a fragment if and
    only if D \ U or U \ D is not empty; in particular, when the CRC32
    values differ and the two row sets are equal, it sends nothing and
    returns nil. *)
Theorem reportCheckCRC32_pushes_iff_differ
    (targetSchema oraQuery mysqlQuery : string) (dm : DataDiffMeta)
    (oraColumns : list string) (U : gset string) (oraCrc : N)
    (mysqlColumns : list string) (D : gset string) (mysqlCrc : N) :
  GetOracleDataRowStrings db oraQuery = Ok (oraColumns, U, oraCrc) →
  GetMySQLDataRowStrings db mysqlQuery = Ok (mysqlColumns, D, mysqlCrc) →
  oraCrc ≠ mysqlCrc →
  ((∀ t, t ∈ D ∖ U → length (strings_Split t ",") = length mysqlColumns) →
   (reportCheckCRC32 lib db targetSchema oraQuery mysqlQuery dm).2 = None ∧
   ((reportCheckCRC32 lib db targetSchema oraQuery mysqlQuery dm).1 ≠ [] ↔
    D ∖ U ≠ ∅ ∨ U ∖ D ≠ ∅)) ∧
  (U = D → reportCheckCRC32 lib db targetSchema oraQuery mysqlQuery dm = ([], None)).
Proof.
  intros Hora Hmysql Hcrc.
  assert (∀ Hcols : (∀ t, t ∈ D ∖ U → length (strings_Split t ",") = length mysqlColumns),
            (reportCheckCRC32 lib db targetSchema oraQuery mysqlQuery dm).2 = None ∧
            ((reportCheckCRC32 lib db targetSchema oraQuery mysqlQuery dm).1 ≠ [] ↔
             D ∖ U ≠ ∅ ∨ U ∖ D ≠ ∅)) as Hmain.
  { intros Hcols.
    destruct (reportCheckCRC32_differ targetSchema oraQuery mysqlQuery dm
                _ _ _ _ _ _ Hora Hmysql Hcrc Hcols) as [_ ->].
    split; [done|]. cbn [fst].
    pose proof (strset_List_nil lib (D ∖ U)) as Et.
    pose proof (strset_List_nil lib (U ∖ D)) as Es.
    destruct (strset_List lib (D ∖ U)) as [|t tm'], (strset_List lib (U ∖ D)) as [|s sm'].
    - split; [done|]. intros [H|H]; exfalso; apply H; [by apply Et | by apply Es].
    - split; [|done]. intros _. right. intros H. by apply Es in H.
    - split; [|done]. intros _. left. intros H. by apply Et in H.
    - split; [|done]. intros _. left. intros H. by apply Et in H. }
  split; [exact Hmain|].
  intros ->.
  destruct Hmain as [Hret Hsent].
  { intros t [Hin Hnot]%elem_of_difference. done. }
  destruct (reportCheckCRC32 lib db targetSchema oraQuery mysqlQuery dm) as [sent ret].
  simpl in *. subst ret. f_equal.
  destruct sent; [done|]. exfalso.
  destruct Hsent as [Hsent _].
  destruct Hsent as [H|H]; [done|..]; apply H, difference_diag_L.
Qed.

Lemma append_nil_r (s : string) : s +:+ "" = s.
Proof.
  induction s as [|a s IH]; [reflexivity|].
  change (String a (s +:+ "") = String a s). by rewrite IH.
Qed.

(** C4 (amended). [Report] hands the adapters two queries built from the
    chunk's projection lists, the table name and the range predicate as
    the WHERE clause, with an ORDER BY number_column DESC tail on both when
    [NumberColumn] is not empty and on neither when it is empty. The
    snapshot token of the chunk takes no part in either query. *)
Theorem Report_queries (targetSchema : string) (dm : DataDiffMeta) :
  Report_oraQuery dm =
    "SELECT " +:+ SourceColumnInfo dm +:+ " FROM " +:+ SourceSchemaName dm +:+ "." +:+
    SourceTableName dm +:+ " WHERE " +:+ Range dm +:+ orderBy dm ∧
  Report_mysqlQuery targetSchema dm =
    "SELECT " +:+ TargetColumnInfo dm +:+ " FROM " +:+ targetSchema +:+ "." +:+
    SourceTableName dm +:+ " WHERE " +:+ Range dm +:+ orderBy dm ∧
  (∀ scn, Report_oraQuery (with_SnapshotSCN scn dm) = Report_oraQuery dm ∧
          Report_mysqlQuery targetSchema (with_SnapshotSCN scn dm)
          = Report_mysqlQuery targetSchema dm) ∧
  (∀ onlyCheckRows,
     Report lib db targetSchema dm onlyCheckRows =
     if onlyCheckRows
     then reportCheckRows db targetSchema (Report_oraQuery dm)
            (Report_mysqlQuery targetSchema dm) dm
     else reportCheckCRC32 lib db targetSchema (Report_oraQuery dm)
            (Report_mysqlQuery targetSchema dm) dm).
Proof.
  unfold Report_oraQuery, Report_mysqlQuery, orderBy, StringsBuilder.
  repeat split; try done; cbn [NumberColumn with_SnapshotSCN];
    case_decide; rewrite ?append_nil_r; reflexivity.
Qed.

End ReconcilerClaims.

(** ** The worker group and the per-table loop *)

Section ExecutorClaims.
Context (lib : Lib) (eng : Engine) (cfg : Cfg).

Lemma Wait_returns g r :
  Wait g = Returns r →
  panicked g = None ∧ all_returned g ∧ r = first_err g.
Proof.
  unfold Wait, all_returned.
  destruct (panicked g); [done|]. destruct (drain g); [|done].
  destruct (forallb is_returned (workers g)) eqn:Hall; [|done].
  intros [= <-]. eauto.
Qed.

Lemma all_returned_lookup g i m pc :
  all_returned g → workers g !! i = Some (m, pc) → ∃ r, pc = Returned r.
Proof.
  intros [_ Hall] Hi.
  rewrite forallb_forall in Hall.
  apply list_elem_of_lookup_2, list_elem_of_In, Hall in Hi.
  destruct pc; try done. eauto.
Qed.

(** C2 (amended). A worker task that returns nil has called [close] on the
    shared result channel of its table, and a task that returns an error
    has not: the two error returns leave before [close]. Hence, in every
    run of a table's group: once [close] has been called twice the second
    call has panicked with "close of closed channel"; at most one worker
    returns nil; and a table of two or more chunks gets through [Wait] only
    if some worker returned an error. *)
Theorem close_called_by_every_worker_that_returns_nil
    (diffMetas : list DataDiffMeta) (w : World) (sched : list nat) :
  let g := run lib eng cfg sched (spawn diffMetas w) in
  (∀ i m, workers g !! i = Some (m, Returned None) → i ∈ close_calls g) ∧
  (∀ i m e, workers g !! i = Some (m, Returned (Some e)) → i ∉ close_calls g) ∧
  ((2 ≤ length (close_calls g))%nat → panicked g = Some "close of closed channel") ∧
  (∀ i j mi mj, workers g !! i = Some (mi, Returned None) →
                workers g !! j = Some (mj, Returned None) → i = j) ∧
  ((2 ≤ length diffMetas)%nat → ∀ r, Wait g = Returns r →
     ∃ i m e, workers g !! i = Some (m, Returned (Some e))).
Proof.
  intros g.
  destruct (close_inv_run lib eng cfg diffMetas w sched) as [HA HB HC HD].
  fold g in HA, HB, HC, HD.
  assert (∀ i j mi mj, workers g !! i = Some (mi, Returned None) →
                       workers g !! j = Some (mj, Returned None) → i = j) as Huniq.
  { intros i j mi mj Hi Hj. apply HA in Hi, Hj. congruence. }
  split; [|split; [|split; [|split]]].
  - intros i m Hi. apply HA in Hi. destruct (close_calls g); simplify_eq/=. by left.
  - intros i m e Hi Hin. destruct (HB i Hin) as [m' [H|[H _]]]; congruence.
  - intros Hlen. destruct HC; [lia | done].
  - exact Huniq.
  - intros Hlen r Hwait. apply Wait_returns in Hwait as (_ & Hall & _).
    assert (length (workers g) = length diffMetas) as Hl.
    { unfold g. rewrite run_workers_length. apply length_map. }
    destruct (lookup_lt_is_Some_2 (workers g) 0) as [[m0 pc0] H0]; [lia|].
    destruct (lookup_lt_is_Some_2 (workers g) 1) as [[m1 pc1] H1]; [lia|].
    destruct (all_returned_lookup g 0 m0 pc0 Hall H0) as [[e0|] ->]; [by eauto|].
    destruct (all_returned_lookup g 1 m1 pc1 Hall H1) as [[e1|] ->]; [by eauto|].
    by specialize (Huniq 0 1 m0 m1 H0 H1).
Qed.






(** C7. When the group of a table returns an error from [Wait], the loop
    logs the failure and goes on with the next table: nothing is returned,
    [ModifyWaitSyncTableMetaRecord] is not called for the table (the only
    calls recorded for it are [GetDataDiffMeta] and the error log), and no
    table is added to the done ones. *)
Theorem group_error_skips_table_without_marking_done
    (d : Diff) (rest : list Diff) (sched : list nat) (scheds : list (list nat))
    (w : World) (err : error) :
  let w0 := emit (EvGetDataDiffMeta (SourceSchema d) (SourceTable d)) w in
  let g := run lib eng cfg sched
             (spawn (listChunks (SourceSchema d) (SourceTable d) (data_diff_meta w0)) w0) in
  let w1 := emit (EvDiffTableFailed (SourceSchema d) (SourceTable d)) (world g) in
  GetDataDiffMeta eng (SourceSchema d) (SourceTable d) = None →
  Wait g = Returns (Some err) →
  tableLoop lib eng cfg (d :: rest) (sched :: scheds) w
  = tableLoop lib eng cfg rest scheds w1 ∧
  trace w1 = trace w ++ [EvGetDataDiffMeta (SourceSchema d) (SourceTable d);
                         EvDiffTableFailed (SourceSchema d) (SourceTable d)] ∧
  done_tables w1 = done_tables w.
Proof.
  intros w0 g w1 Hget Hwait. split; [|split].
  - cbn [tableLoop hd tl]. rewrite Hget. fold w0. fold g. by rewrite Hwait.
  - unfold w1, g. simpl. rewrite run_trace. simpl. by rewrite <- app_assoc.
  - unfold w1, g. simpl. by rewrite run_done_tables.
Qed.

(** C9. [StartTableDiff] runs the checkpoint path over the part tables
    first and the fresh path over the wait tables after it, and only if the
    first returned nil. On the checkpoint path no call belongs to the
    planner (neither [GetOracleCurrentSnapshotSCN] nor [SplitChunk]) and no
    row is added to [data_diff_meta]. Once [PreDiffCheck] and [NewDiff]
    have succeeded the path is the loop over the part tables, and when it
    returns nil every part table, in order, has had its chunk rows read by
    [GetDataDiffMeta] and then its group error logged or its status
    advanced. For each table the workers are started for the rows of the
    table that are in [data_diff_meta] when the table's turn comes, rows
    that were persisted before; what the loop does next is decided by the
    [Wait] of that group. *)
Theorem StartTableDiff_resumes_part_tables_without_planner
    (partSyncTableInfo waitSyncTableInfo : list string)
    (partScheds waitScheds : list (list nat)) (w : World) :
  let resumed :=
    if decide (0 < length partSyncTableInfo) then
      startTableDiffCheck lib eng cfg partSyncTableInfo waitSyncTableInfo true partScheds w
    else (w, Returns None) in
  let final :=
    StartTableDiff lib eng cfg partSyncTableInfo waitSyncTableInfo partScheds waitScheds w in
  (∃ t1, trace resumed.1 = trace w ++ t1 ∧
         (t1 ≠ [] ↔ 0 < length partSyncTableInfo) ∧
         (t1 ≠ [] → head t1 = Some (EvPreDiffCheck partSyncTableInfo)) ∧
         Forall (λ e, planner_event e = false) t1 ∧
         data_diff_meta resumed.1 ⊆ data_diff_meta w) ∧
  (∃ t2, trace final.1 = trace resumed.1 ++ t2 ∧
         (t2 ≠ [] ↔ resumed.2 = Returns None ∧ 0 < length waitSyncTableInfo) ∧
         (t2 ≠ [] → head t2 = Some (EvPreDiffCheck waitSyncTableInfo))) ∧
  (resumed.2 ≠ Returns None → final = resumed) ∧
  (∀ diffs,
     0 < length partSyncTableInfo → PreDiffCheck eng partSyncTableInfo = None →
     NewDiff eng partSyncTableInfo = Ok diffs →
     let w1 := emit (EvNewDiff partSyncTableInfo) (emit (EvPreDiffCheck partSyncTableInfo) w) in
     resumed = tableLoop lib eng cfg diffs partScheds w1 ∧
     (resumed.2 = Returns None →
      ∃ blocks, trace resumed.1 = trace w1 ++ concat blocks ∧
                Forall2 (table_handled lib cfg) diffs blocks)) ∧
  (∀ d rest scheds w',
     GetDataDiffMeta eng (SourceSchema d) (SourceTable d) = None →
     let chunks := listChunks (SourceSchema d) (SourceTable d) (data_diff_meta w') in
     let g := run lib eng cfg (hd [] scheds)
                (spawn chunks (emit (EvGetDataDiffMeta (SourceSchema d) (SourceTable d)) w')) in
     (workers g).*1 = chunks ∧ chunks ⊆ data_diff_meta w' ∧
     tableLoop lib eng cfg (d :: rest) scheds w' =
     match Wait g with
     | Panics msg => (world g, Panics msg)
     | Hangs => (world g, Hangs)
     | Returns (Some _) =>
         tableLoop lib eng cfg rest (tl scheds)
           (emit (EvDiffTableFailed (SourceSchema d) (SourceTable d)) (world g))
     | Returns None =>
         let w2 := emit (EvModifyWaitSyncTableMetaRecord (cfg_MetaSchema cfg)
                           (cfg_SourceSchemaName cfg) (SourceTable d) (DiffMode lib))
                     (world g) in
         match ModifyWaitSyncTableMetaRecord eng (cfg_MetaSchema cfg)
                 (cfg_SourceSchemaName cfg) (SourceTable d) (DiffMode lib) with
         | Some err => (w2, Returns (Some err))
         | None =>
             tableLoop lib eng cfg rest (tl scheds)
               (set_done_tables (done_tables w2 ++ [SourceTable d]) w2)
         end
     end).
Proof.
  intros resumed final. split; [|split; [|split; [|split]]].
  - unfold resumed. case_decide as Hpart.
    + destruct (startTableDiffCheck_checkpoint_trace lib eng cfg partSyncTableInfo
                  waitSyncTableInfo partScheds w) as (t & Ht & Hall & Hsub).
      exists (EvPreDiffCheck partSyncTableInfo :: t).
      split; [done|]. split; [done|]. split; [done|]. split; [|done].
      by constructor.
    + exists []. simpl. rewrite app_nil_r. split; [done|]. split; [done|].
      split; [done|]. split; [constructor | done].
  - unfold final, StartTableDiff. fold resumed.
    destruct resumed as [w1 [[e|]| |]] eqn:Hres; cbn [fst snd];
      try (exists []; rewrite app_nil_r; split; [done|]; split; [|done];
           split; [done | by intros [? _]]).
    case_decide as Hwait.
    + destruct (startTableDiffCheck_fresh_trace lib eng cfg partSyncTableInfo
                  waitSyncTableInfo waitScheds w1) as (t & Ht).
      exists (EvPreDiffCheck waitSyncTableInfo :: t). by rewrite Ht.
    + exists []. cbn [fst]. rewrite app_nil_r. split; [done|]. split; [|done].
      split; [done | by intros [_ ?]].
  - intros Hne. unfold final, StartTableDiff. fold resumed.
    by destruct resumed as [w1 [[e|]| |]].
  - intros diffs Hpart Hpre Hnew w1.
    assert (resumed = tableLoop lib eng cfg diffs partScheds w1) as Hres.
    { unfold resumed. rewrite decide_True by done.
      unfold startTableDiffCheck. by rewrite Hpre, Hnew. }
    split; [done|]. rewrite Hres. apply tableLoop_nil_handled.
  - intros d rest scheds w' Hget chunks g.
    split; [apply run_workers_chunks|]. split; [apply listChunks_subseteq|].
    cbn [tableLoop]. by rewrite Hget.
Qed.

End ExecutorClaims.

(** ** The definitions at work *)

Example strings_Split_empty : strings_Split "" "," = [""].
Proof. reflexivity. Qed.

Example strings_Split_trailing : strings_Split "1,'a'," "," = ["1"; "'a'"; ""].
Proof. reflexivity. Qed.

Example Report_oraQuery_chunk :
  Report_oraQuery Fake.chunk
  = "SELECT ID,NAME FROM MARVIN.T1 WHERE ID BETWEEN 1 AND 10 ORDER BY ID DESC".
Proof. reflexivity. Qed.

Example deleteLine_extra_row :
  deleteLine "TGT" Fake.chunk ["C1"; "C2"] "3,'c'"
  = Ok ("DELETE FROM TGT.T1 WHERE C1=3 AND C2='c';" +:+ nl).
Proof. reflexivity. Qed.

Example insertLine_missing_row :
  insertLine "TGT" Fake.chunk ["C1"; "C2"] "2,'b'"
  = "INSERT INTO TGT.T1 (C1,C2) VALUES (2,'b');" +:+ nl.
Proof. reflexivity. Qed.

(** A table of one healthy chunk: compared, written to the repair file,
    chunk row deleted, table marked done. *)
Example healthy_single_chunk_table :
  let r := tableLoop Fake.lib Fake.healthy Fake.cfg [Fake.T1] [[1; 1; 1; 0; 0]]
             (Fake.store [Fake.chunk]) in
  r.2 = Returns None ∧ done_tables r.1 = ["T1"] ∧ data_diff_meta r.1 = [] ∧
  length (fix_sql_file r.1) = 1.
Proof. vm_compute. done. Qed.

(** Two healthy chunks, one worker after the other: the first closes the
    channel and the second panics on its send. *)
Example healthy_two_chunk_table_panics :
  (tableLoop Fake.lib Fake.healthy Fake.cfg [Fake.T1] [[1; 1; 1; 2]]
     (Fake.store [Fake.chunk; Fake.chunk2])).2
  = Panics "send on closed channel".
Proof. vm_compute. done. Qed.

(** ** The statements on concrete chunks *)

Lemma rowsD_minus_rowsU : elements (Fake.rowsD ∖ Fake.rowsU) = ["3,'c'"].
Proof. vm_compute. reflexivity. Qed.

Lemma rowsU_minus_rowsD : elements (Fake.rowsU ∖ Fake.rowsD) = ["2,'b'"].
Proof. vm_compute. reflexivity. Qed.

Lemma rowsD_extra (t : string) : t ∈ Fake.rowsD ∖ Fake.rowsU → t = "3,'c'".
Proof.
  intros Ht. apply elem_of_elements in Ht. rewrite rowsD_minus_rowsU in Ht.
  by apply list_elem_of_singleton in Ht.
Qed.

Lemma rowsD_extra_in : "3,'c'" ∈ Fake.rowsD ∖ Fake.rowsU.
Proof. apply elem_of_elements. rewrite rowsD_minus_rowsU. by left. Qed.

(** C1, counterexample. Upstream rows U = {(1,'a'), (2,'b')}, downstream
    rows D = {(1,'a'), (3,'c')}. With a downstream column list of one
    column the call fails and emits no statement at all; with equal CRC32
    values it returns at once and emits none either. The specification
    asks for one DELETE and one INSERT in both cases. *)
Lemma reportCheckCRC32_symmetric_diff_counterexample :
  elements (Fake.rowsD ∖ Fake.rowsU) = ["3,'c'"] ∧
  elements (Fake.rowsU ∖ Fake.rowsD) = ["2,'b'"] ∧
  reportCheckCRC32 Fake.lib Fake.drifted "TGT" "q1" "q2" Fake.chunk
  = ([], Some "mysql schema [TGT] table [T1] column counts [1] isn't match values counts [2]") ∧
  reportCheckCRC32 Fake.lib Fake.collided "TGT" "q1" "q2" Fake.chunk = ([], None).
Proof.
  split; [apply rowsD_minus_rowsU|]. split; [apply rowsU_minus_rowsD|].
  split; vm_compute; reflexivity.
Qed.

(** C1, witness: the two differing row sets above, two columns on each
    side, CRC32 values 11 and 12. *)
Lemma reportCheckCRC32_symmetric_diff_witness :
  ∃ targetMore sourceMore,
    targetMore ≡ₚ ["3,'c'"] ∧ sourceMore ≡ₚ ["2,'b'"] ∧
    (reportCheckCRC32 Fake.lib Fake.differing "TGT" "q1" "q2" Fake.chunk).1
    = [fragment "TGT" Fake.chunk
         (Builder_String
            (headerIf Fake.lib targetMore "more" "TGT" Fake.chunk 11 12 ++
             map (λ t, deleteStatement "TGT" Fake.chunk ["C1"; "C2"] (strings_Split t ","))
                 targetMore ++
             headerIf Fake.lib sourceMore "less" "TGT" Fake.chunk 11 12 ++
             map (insertLine "TGT" Fake.chunk ["C1"; "C2"]) sourceMore))].
Proof.
  destruct (reportCheckCRC32_symmetric_diff Fake.lib Fake.differing "TGT" "q1" "q2"
              Fake.chunk ["C1"; "C2"] Fake.rowsU 11 ["C1"; "C2"] Fake.rowsD 12)
    as (targetMore & sourceMore & Ht & Hs & _ & _ & _ & Hr).
  - reflexivity.
  - reflexivity.
  - discriminate.
  - intros t Ht. apply rowsD_extra in Ht. subst t. reflexivity.
  - exists targetMore, sourceMore.
    rewrite rowsD_minus_rowsU in Ht. rewrite rowsU_minus_rowsD in Hs.
    split; [exact Ht|]. split; [exact Hs|].
    rewrite Hr. cbn [fst].
    destruct targetMore; [|reflexivity].
    apply Permutation_nil in Ht. discriminate Ht.
Defined.

(** C8, counterexample. The downstream-extra row (3,'c') has two values
    against one downstream column, but the two CRC32 values are equal:
    [reportCheckCRC32] returns nil, not the error. *)
Lemma reportCheckCRC32_column_count_error_counterexample :
  elements (Fake.rowsD ∖ Fake.rowsU) = ["3,'c'"] ∧
  length (strings_Split "3,'c'" ",") = 2 ∧
  GetMySQLDataRowStrings Fake.collided_drifted "q2" = Ok (["C1"], Fake.rowsD, 11%N) ∧
  reportCheckCRC32 Fake.lib Fake.collided_drifted "TGT" "q1" "q2" Fake.chunk = ([], None).
Proof.
  split; [apply rowsD_minus_rowsU|]. repeat split; vm_compute; reflexivity.
Qed.

(** C8, witness: the same rows and columns with CRC32 values 11 and 12. *)
Lemma reportCheckCRC32_column_count_error_witness :
  ∃ t', t' ∈ Fake.rowsD ∖ Fake.rowsU ∧
        length (strings_Split t' ",") ≠ 1 ∧
        reportCheckCRC32 Fake.lib Fake.drifted "TGT" "q1" "q2" Fake.chunk =
        ([], Some ("mysql schema [" +:+ "TGT" +:+ "] table [" +:+ "T1" +:+
                   "] column counts [" +:+ itoa 1 +:+ "] isn't match values counts [" +:+
                   itoa (length (strings_Split t' ",")) +:+ "]")).
Proof.
  apply (reportCheckCRC32_column_count_error Fake.lib Fake.drifted "TGT" "q1" "q2"
           Fake.chunk ["C1"; "C2"] Fake.rowsU 11 ["C1"] Fake.rowsD 12 "3,'c'").
  - reflexivity.
  - reflexivity.
  - discriminate.
  - apply rowsD_extra_in.
  - discriminate.
Defined.

(** C10, counterexample. Both differences are non-empty, yet no fragment
    is sent: once because the column count fails the call, once because the
    two CRC32 values are equal. *)
Lemma reportCheckCRC32_pushes_iff_differ_counterexample :
  Fake.rowsD ∖ Fake.rowsU ≠ ∅ ∧
  (reportCheckCRC32 Fake.lib Fake.drifted "TGT" "q1" "q2" Fake.chunk).1 = [] ∧
  (reportCheckCRC32 Fake.lib Fake.collided "TGT" "q1" "q2" Fake.chunk).1 = [].
Proof.
  split; [|split; vm_compute; reflexivity].
  intros H. pose proof rowsD_extra_in as Hin. rewrite H in Hin.
  by apply not_elem_of_empty in Hin.
Qed.

(** C10, witness: differing rows, then equal rows, under CRC32 values 11
    and 12. *)
Lemma reportCheckCRC32_pushes_iff_differ_witness :
  (reportCheckCRC32 Fake.lib Fake.differing "TGT" "q1" "q2" Fake.chunk).1 ≠ [] ∧
  reportCheckCRC32 Fake.lib
    (Fake.digests (Ok (["C1"; "C2"], Fake.rowsU, 11%N)) (Ok (["C1"; "C2"], Fake.rowsU, 12%N)))
    "TGT" "q1" "q2" Fake.chunk = ([], None).
Proof.
  split.
  - destruct (reportCheckCRC32_pushes_iff_differ Fake.lib Fake.differing "TGT" "q1" "q2"
                Fake.chunk ["C1"; "C2"] Fake.rowsU 11 ["C1"; "C2"] Fake.rowsD 12)
      as [Hiff _]; [reflexivity | reflexivity | discriminate |].
    destruct Hiff as [_ Hiff].
    { intros t Ht. apply rowsD_extra in Ht. subst t. reflexivity. }
    apply Hiff. left. intros H. pose proof rowsD_extra_in as Hin. rewrite H in Hin.
    by apply not_elem_of_empty in Hin.
  - apply (reportCheckCRC32_pushes_iff_differ Fake.lib
             (Fake.digests (Ok (["C1"; "C2"], Fake.rowsU, 11%N))
                           (Ok (["C1"; "C2"], Fake.rowsU, 12%N)))
             "TGT" "q1" "q2" Fake.chunk ["C1"; "C2"] Fake.rowsU 11 ["C1"; "C2"]
             Fake.rowsU 12); [reflexivity | reflexivity | discriminate | reflexivity].
Defined.

(** C4, counterexample. The chunk carries the snapshot token 4711; the
    upstream query is built without it, and stays the same under any other
    token. *)
Lemma Report_oraQuery_without_snapshot_counterexample :
  SnapshotSCN Fake.chunk = "4711" ∧
  Report_oraQuery Fake.chunk
  = "SELECT ID,NAME FROM MARVIN.T1 WHERE ID BETWEEN 1 AND 10 ORDER BY ID DESC" ∧
  index 0 "4711" (Report_oraQuery Fake.chunk) = None ∧
  Report_oraQuery (with_SnapshotSCN "9999" Fake.chunk) = Report_oraQuery Fake.chunk.
Proof. repeat split; vm_compute; reflexivity. Qed.

(** C2, counterexample. A table of two chunks. When the upstream fetch and
    the insert into [table_error_detail] fail for both, the two workers,
    run one after the other, both return and [close] has not been called at
    all. When both chunks are healthy, the first worker closes the channel
    and the second panics on its send: [close] has been called once. *)
Lemma close_not_called_by_every_worker_counterexample :
  (let g := run Fake.lib Fake.unlogged Fake.cfg [1; 1; 2; 2]
              (spawn [Fake.chunk; Fake.chunk2] (Fake.store [Fake.chunk; Fake.chunk2])) in
   forallb is_returned (workers g) = true ∧ length (workers g) = 2 ∧
   close_calls g = [] ∧ panicked g = None) ∧
  (let g := run Fake.lib Fake.healthy Fake.cfg [1; 1; 1; 2]
              (spawn [Fake.chunk; Fake.chunk2] (Fake.store [Fake.chunk; Fake.chunk2])) in
   map snd (workers g) = [Returned None; AtReport] ∧
   close_calls g = [0] ∧ panicked g = Some "send on closed channel").
Proof. split; vm_compute; done. Qed.





(** C7, witness: one healthy chunk and a repair file that cannot be
    written; the drain returns the write error, [Wait] hands it on, and the
    loop goes on without marking the table. *)
Lemma group_error_skips_table_without_marking_done_witness :
  let r := tableLoop Fake.lib Fake.disk_full Fake.cfg [Fake.T1] [[1; 1; 1; 0]]
             (Fake.store [Fake.chunk]) in
  r.2 = Returns None ∧
  trace r.1 = [EvGetDataDiffMeta "MARVIN" "T1"; EvDiffTableFailed "MARVIN" "T1"] ∧
  done_tables r.1 = [].
Proof.
  intros r.
  destruct (group_error_skips_table_without_marking_done Fake.lib Fake.disk_full
              Fake.cfg Fake.T1 [] [1; 1; 1; 0] [] (Fake.store [Fake.chunk])
              "fix sql file write [only-check-rows = false] failed: no space left on device")
    as (Hloop & Htrace & Hdone).
  - reflexivity.
  - vm_compute. reflexivity.
  - unfold r. rewrite Hloop. cbn [tableLoop fst snd].
    split; [reflexivity|]. split; [exact Htrace | exact Hdone].
Defined.

(** ** The worker group, once more *)

Section GroupMore.
Context (lib : Lib) (eng : Engine) (cfg : Cfg).

Ltac unfold_step :=
  unfold step, drain_step, worker_step, after_report, close_chan,
    worker_returns, drain_returns, set_pc, set_world, set_buf, panic,
    set_fix_sql_file, set_table_error_detail, set_data_diff_meta.

Lemma chan_inv_spawn diffMetas w : chan_inv lib eng cfg (spawn diffMetas w).
Proof. split; simpl; try done. lia. Qed.

Lemma lookup_insert_returned (ws : list (DataDiffMeta * Pc)) i meta pc0 pc j m e :
  ws !! i = Some (meta, pc0) → (∀ r, pc0 ≠ Returned r) →
  ws !! j = Some (m, Returned (Some e)) →
  <[i := (meta, pc)]> ws !! j = Some (m, Returned (Some e)).
Proof.
  intros Hi Hpc Hj. rewrite list_lookup_insert_ne; [done|].
  intros ->. rewrite Hi in Hj. simplify_eq. by eapply Hpc.
Qed.

Lemma chan_inv_frame g g' i meta pc pc' :
  chan_inv lib eng cfg g → workers g !! i = Some (meta, pc) → (∀ r, pc ≠ Returned r) →
  (length (buf g') ≤ BufferSize lib)%nat →
  drain g' = drain g → closed g' = closed g → close_calls g' = close_calls g →
  first_err g' = first_err g →
  workers g' = <[i := (meta, pc')]> (workers g) →
  chan_inv lib eng cfg g'.
Proof.
  intros [Hb Hd Hc Hw Hf] Hi Hnr Hbuf' Hdr' Hcl' Hcc' Hfe' Hws'. split.
  - done.
  - by rewrite Hdr', Hcl'.
  - by rewrite Hcl', Hcc'.
  - by rewrite Hdr'.
  - rewrite Hfe', Hdr', Hws'. intros e He.
    destruct (Hf e He) as [?|(j & m & Hj)]; [by left|].
    right. exists j, m. by eapply lookup_insert_returned.
Qed.

Lemma chan_inv_step j g :
  chan_inv lib eng cfg g → chan_inv lib eng cfg (step lib eng cfg j g).
Proof.
  intros Hinv. pose proof Hinv as [Hb Hd Hc Hw Hf].
  unfold step. destruct (panicked g) eqn:Hp; [done|].
  destruct j as [|i].
  - unfold drain_step. destruct (drain g) eqn:Hdr; [done|].
    destruct (buf g) as [|report rest] eqn:Hbuf.
    + destruct (closed g) eqn:Hcl; [|done].
      split; simpl; rewrite ?Hbuf, ?Hcl; try done.
      intros e. destruct (first_err g) eqn:Hfe; simpl; [|done].
      intros [= <-]. destruct (Hf _ eq_refl) as [?|?]; [done | by right].
    + destruct (fixFileMW_Write eng _) eqn:Hwr.
      * split; simpl; rewrite ?Hbuf; simpl in *; try done; try lia.
        -- intros e' [= <-]. eauto.
        -- intros e'. destruct (first_err g) eqn:Hfe; simpl.
           ++ intros [= <-]. destruct (Hf _ eq_refl) as [?|?]; [done | by right].
           ++ intros [= <-]. by left.
      * split; simpl; rewrite ?Hdr; simpl in *; try done; try lia.
  - destruct (workers g !! i) as [[meta pc]|] eqn:Hi; [|done].
    assert (i < length (workers g))%nat as Hlt by by eapply lookup_lt_Some.
    destruct pc; unfold worker_step.
    + destruct (callReport lib eng cfg meta) as [[|report sent] r].
      * unfold after_report. destruct r; by eapply (chan_inv_frame g).
      * destruct (closed g) eqn:Hcl.
        { split; simpl; try done. by rewrite Hcl. }
        case_decide as Hfull; [done|].
        unfold after_report. destruct r; eapply (chan_inv_frame g); eauto; simpl;
          rewrite length_app; simpl; lia.
    + destruct (GormDB_Create eng _).
      * split; simpl; try done.
        intros e'. destruct (first_err g) eqn:Hfe; simpl.
        -- intros [= <-]. destruct (Hf _ eq_refl) as [?|(j & m & Hj)]; [by left|].
           right. exists j, m. by eapply lookup_insert_returned.
        -- intros [= <-]. right. exists i, meta. by apply list_lookup_insert_eq.
      * by eapply (chan_inv_frame g).
    + destruct (DeleteDataDiffMeta eng _ _ _); by eapply (chan_inv_frame g).
    + destruct (GormDB_Create eng _).
      * split; simpl; try done.
        intros e'. destruct (first_err g) eqn:Hfe; simpl.
        -- intros [= <-]. destruct (Hf _ eq_refl) as [?|(j & m & Hj)]; [by left|].
           right. exists j, m. by eapply lookup_insert_returned.
        -- intros [= <-]. right. exists i, meta. by apply list_lookup_insert_eq.
      * by eapply (chan_inv_frame g).
    + unfold close_chan. destruct (closed g) eqn:Hcl; simpl.
      * split; simpl; try done. intros _. by destruct (close_calls g).
      * rewrite Hp. split; simpl; try done.
        -- intros _. by destruct (close_calls g).
        -- intros e. destruct (first_err g) eqn:Hfe; simpl; [|done].
           intros [= <-]. destruct (Hf _ eq_refl) as [?|(j & m & Hj)]; [by left|].
           right. exists j, m. by eapply lookup_insert_returned.
    + done.
Qed.

Lemma chan_inv_run diffMetas w sched :
  chan_inv lib eng cfg (run lib eng cfg sched (spawn diffMetas w)).
Proof. apply run_invariant; [apply chan_inv_step | apply chan_inv_spawn]. Qed.

Lemma worker_chunk_in sched diffMetas w i meta pc :
  workers (run lib eng cfg sched (spawn diffMetas w)) !! i = Some (meta, pc) →
  meta ∈ diffMetas.
Proof.
  intros Hi. rewrite <- (run_workers_chunks lib eng cfg sched diffMetas w).
  apply list_elem_of_fmap. exists (meta, pc). split; [done|].
  by eapply list_elem_of_lookup_2.
Qed.

End GroupMore.

Section Effects.
Context (lib : Lib) (eng : Engine) (cfg : Cfg).

Lemma filter_at_report_all diffMetas :
  length (List.filter at_report (map (λ m : DataDiffMeta, (m, AtReport)) diffMetas))
  = length diffMetas.
Proof. induction diffMetas; simpl; congruence. Qed.

Lemma filter_insert_length (l : list (DataDiffMeta * Pc)) i x y :
  l !! i = Some x →
  (length (List.filter at_report (<[i := y]> l)) + (if at_report x then 1 else 0)
   = length (List.filter at_report l) + (if at_report y then 1 else 0))%nat.
Proof.
  revert i. induction l as [|a l IH]; intros [|i] Hi; simplify_eq/=.
  - destruct (at_report x), (at_report y); simpl; lia.
  - specialize (IH i Hi). destruct (at_report a); simpl; lia.
Qed.

Lemma effects_inv_spawn diffMetas w : effects_inv lib eng cfg diffMetas w (spawn diffMetas w).
Proof.
  split; simpl.
  - rewrite <- list_fmap_compose. apply list_fmap_id.
  - intros r Hr. by apply elem_of_nil in Hr.
  - exists []. by rewrite app_nil_r.
  - rewrite filter_at_report_all. lia.
  - exists []. by rewrite app_nil_r.
  - done.
Qed.

Lemma elem_of_deleteChunk schema table range rows m :
  m ∈ rows → sameChunk schema table range m = false →
  m ∈ deleteChunk schema table range rows.
Proof.
  intros Hm Hs. unfold deleteChunk. apply list_elem_of_In, filter_In.
  split; [by apply list_elem_of_In | by rewrite Hs].
Qed.

Lemma effects_inv_step diffMetas w j g :
  effects_inv lib eng cfg diffMetas w g →
  effects_inv lib eng cfg diffMetas w (step lib eng cfg j g).
Proof.
  intros Hinv. pose proof Hinv as [Hch Hbuf Hfile Hcount Herr Hrows].
  pose proof (step_workers_chunks lib eng cfg j g) as Hch'.
  unfold step in *. destruct (panicked g) eqn:Hp; [done|].
  destruct j as [|i].
  - unfold drain_step in *. destruct (drain g) eqn:Hdr; [done|].
    destruct (buf g) as [|report rest] eqn:Hb.
    + destruct (closed g); [|done]. split; simpl; rewrite ?Hb; try done.
    + assert (∀ r, r ∈ rest → ∃ meta, meta ∈ diffMetas ∧ r ∈ (callReport lib eng cfg meta).1)
        as Hrest by (intros r Hr; apply Hbuf; by right).
      destruct (fixFileMW_Write eng _) eqn:Hwr.
      * split; simpl; try done. { simpl in Hcount. lia. }
      * split; simpl; try done.
        -- destruct Hfile as (l & -> & Hall).
           exists (l ++ [drainText lib cfg report +:+ nl]). rewrite app_assoc.
           split; [done|]. apply Forall_app. split; [done|].
           apply Forall_singleton. destruct (Hbuf report) as (meta & ? & ?); [by left|].
           by exists meta, report.
        -- rewrite length_app. simpl in *. lia.
  - destruct (workers g !! i) as [[meta pc]|] eqn:Hi; [|done].
    assert (meta ∈ diffMetas) as Hmeta.
    { rewrite <- Hch. apply list_elem_of_fmap. exists (meta, pc).
      split; [done | by eapply list_elem_of_lookup_2]. }
    assert (∀ pc', pc ≠ AtReport → pc' ≠ AtReport →
              (length (List.filter at_report (<[i := (meta, pc')]> (workers g)))
               = length (List.filter at_report (workers g)))%nat) as Hcnt.
    { intros pc' Hne Hne'.
      pose proof (filter_insert_length (workers g) i _ (meta, pc') Hi) as H.
      assert (at_report (meta, pc) = false) as Hf by by destruct pc.
      assert (at_report (meta, pc') = false) as Hf' by by destruct pc'.
      rewrite Hf, Hf' in H. lia. }
    assert (∀ pc', pc = AtReport → pc' ≠ AtReport →
              (S (length (List.filter at_report (<[i := (meta, pc')]> (workers g))))
               = length (List.filter at_report (workers g)))%nat) as Hcnt1.
    { intros pc' -> Hne. pose proof (filter_insert_length (workers g) i _ (meta, pc') Hi) as H.
      assert (at_report (meta, pc') = false) as Hf by by destruct pc'.
      rewrite Hf in H. simpl in H. lia. }
    assert (∀ pc', (<[i := (meta, pc')]> (workers g)).*1 = diffMetas) as Hch''.
    { intros pc'. rewrite list_fmap_insert. simpl. rewrite <- Hch.
      apply list_insert_id. by rewrite list_lookup_fmap, Hi. }
    clear Hch'.
    destruct pc; unfold worker_step in *.
    + destruct (callReport lib eng cfg meta) as [[|report sent] r] eqn:Hcall.
      * unfold after_report in *. destruct r; split; simpl; try done.
        all: match goal with |- context [<[_ := (_, ?p)]> (workers _)] =>
               pose proof (Hcnt1 p eq_refl ltac:(done)) end.
        all: lia.
      * destruct (closed g); [done|]. case_decide; [done|].
        assert (report ∈ (callReport lib eng cfg meta).1) as Hin by (rewrite Hcall; by left).
        unfold after_report in *. destruct r; split; simpl; try done.
        all: try (intros r' [Hr| ->%list_elem_of_singleton]%elem_of_app; [by apply Hbuf | eauto]).
        all: rewrite length_app; simpl;
          match goal with |- context [<[_ := (_, ?p)]> (workers _)] =>
            pose proof (Hcnt1 p eq_refl ltac:(done)) end; lia.
    + destruct (GormDB_Create eng _); split; simpl in *; try done.
      * rewrite (Hcnt (Returned (Some (reportTaskError meta e)))) by done. lia.
      * rewrite (Hcnt AtDelete) by done. lia.
      * destruct Herr as (l & -> & Hall). exists (l ++ [reportFailedDetail lib meta err]).
        rewrite app_assoc. split; [done|]. apply Forall_app. split; [done|].
        apply Forall_singleton. repeat split. by exists meta.
    + destruct (DeleteDataDiffMeta eng _ _ _); split; simpl in *; try done.
      * rewrite (Hcnt (AtDeleteFailed e)) by done. lia.
      * rewrite (Hcnt AtClose) by done. lia.
      * intros m Hm Hother. apply elem_of_deleteChunk; [by apply Hrows | by apply Hother].
    + destruct (GormDB_Create eng _); split; simpl in *; try done.
      * rewrite (Hcnt (Returned (Some (deleteTaskError e)))) by done. lia.
      * rewrite (Hcnt AtClose) by done. lia.
      * destruct Herr as (l & -> & Hall). exists (l ++ [deleteFailedDetail lib meta err]).
        rewrite app_assoc. split; [done|]. apply Forall_app. split; [done|].
        apply Forall_singleton. repeat split. by exists meta.
    + unfold close_chan in *. destruct (closed g); simpl in *.
      * split; simpl; try done.
      * rewrite Hp in *. split; simpl in *; try done.
        rewrite (Hcnt (Returned None)) by done. lia.
    + done.
Qed.

Lemma effects_inv_run diffMetas w sched :
  effects_inv lib eng cfg diffMetas w (run lib eng cfg sched (spawn diffMetas w)).
Proof. apply run_invariant; [apply effects_inv_step | apply effects_inv_spawn]. Qed.

End Effects.

(** ** The loop over the tables and the planner *)

Section TableMore.
Context (lib : Lib) (eng : Engine) (cfg : Cfg).

Lemma listChunks_of_table d rows meta :
  meta ∈ listChunks (SourceSchema d) (SourceTable d) rows → of_table d meta.
Proof.
  unfold listChunks. intros [_ H]%list_elem_of_In%filter_In.
  apply andb_prop in H as [H1 H2]. split; by eapply bool_decide_eq_true_1.
Qed.

(** X4. The loop over the tables only appends to [table_error_detail], and
    every record it appends has status [Failed], the diff mode as run mode
    and as source, and the schema and table of one of the tables of the
    loop. *)
Theorem tableLoop_only_appends_failed_records
    (diffs : list Diff) (scheds : list (list nat)) (w : World) :
  ∃ l, table_error_detail (tableLoop lib eng cfg diffs scheds w).1
       = table_error_detail w ++ l ∧
       Forall (failed_diff_detail lib diffs) l.
Proof.
  revert scheds w. induction diffs as [|d rest IH]; intros scheds w.
  { exists []. simpl. by rewrite app_nil_r. }
  assert (∀ l, Forall (failed_diff_detail lib rest) l →
               Forall (failed_diff_detail lib (d :: rest)) l) as Hrest.
  { intros l Hl. eapply Forall_impl; [exact Hl|]. intros rec (? & ? & ? & d' & ? & ?).
    repeat split; try done. exists d'. split; [by right | done]. }
  cbn [tableLoop].
  set (w0 := emit (EvGetDataDiffMeta (SourceSchema d) (SourceTable d)) w).
  destruct (GetDataDiffMeta eng _ _).
  { exists []. simpl. by rewrite app_nil_r. }
  set (metas := listChunks _ _ _).
  destruct (effects_inv_run lib eng cfg metas w0 (hd [] scheds))
    as [_ _ _ _ (l & Hl & Hall) _].
  set (g := run lib eng cfg (hd [] scheds) (spawn metas w0)) in *.
  assert (Forall (failed_diff_detail lib (d :: rest)) l) as Hl'.
  { eapply Forall_impl; [exact Hall|].
    intros rec (? & ? & ? & meta & Hmeta & Hs & Ht & _).
    apply listChunks_of_table in Hmeta as [Hms Hmt].
    repeat split; try done. exists d. split; [by left|]. split; congruence. }
  change (table_error_detail w0) with (table_error_detail w) in Hl.
  destruct (Wait g) as [[e|]| |].
  - edestruct (IH (tl scheds)) as (l2 & Hl2 & Hall2).
    exists (l ++ l2). rewrite Hl2. simpl. rewrite Hl, app_assoc.
    split; [done|]. apply Forall_app. split; [done | by apply Hrest].
  - destruct (ModifyWaitSyncTableMetaRecord eng _ _ _ _).
    + by exists l.
    + edestruct (IH (tl scheds)) as (l2 & Hl2 & Hall2).
      exists (l ++ l2). rewrite Hl2. simpl. rewrite Hl, app_assoc.
      split; [done|]. apply Forall_app. split; [done | by apply Hrest].
  - by exists l.
  - by exists l.
Qed.

(** X6. The loop marks tables done in the order of [diffs]: the names it
    adds to the done tables are a sublist of the tables' names. *)
Theorem tableLoop_marks_done_in_order
    (diffs : list Diff) (scheds : list (list nat)) (w : World) :
  ∃ l, done_tables (tableLoop lib eng cfg diffs scheds w).1 = done_tables w ++ l ∧
       l `sublist_of` map SourceTable diffs.
Proof.
  revert scheds w. induction diffs as [|d rest IH]; intros scheds w.
  { exists []. simpl. by rewrite app_nil_r. }
  cbn [tableLoop].
  set (w0 := emit (EvGetDataDiffMeta (SourceSchema d) (SourceTable d)) w).
  destruct (GetDataDiffMeta eng _ _).
  { exists []. simpl. rewrite app_nil_r. split; [done|]. apply sublist_nil_l. }
  set (g := run lib eng cfg (hd [] scheds) (spawn _ w0)).
  assert (done_tables (world g) = done_tables w) as Hg by (unfold g; by rewrite run_done_tables).
  destruct (Wait g) as [[e|]| |].
  - destruct (IH (tl scheds) (emit (EvDiffTableFailed (SourceSchema d) (SourceTable d))
                                (world g))) as (l & Hl & Hsub).
    exists l. rewrite Hl. simpl. rewrite Hg. split; [done|]. by apply sublist_cons.
  - destruct (ModifyWaitSyncTableMetaRecord eng _ _ _ _).
    + exists []. simpl. rewrite app_nil_r. split; [done|]. apply sublist_nil_l.
    + edestruct IH as (l & Hl & Hsub). exists (SourceTable d :: l).
      rewrite Hl. simpl. rewrite Hg, <- app_assoc. split; [done|]. by apply sublist_skip.
  - exists []. simpl. rewrite app_nil_r. split; [done|]. apply sublist_nil_l.
  - exists []. simpl. rewrite app_nil_r. split; [done|]. apply sublist_nil_l.
Qed.

Lemma sameChunk_of_table d meta m :
  of_table d meta → ¬ of_table d m →
  sameChunk (SourceSchemaName meta) (SourceTableName meta) (Range meta) m = false.
Proof.
  intros [Hs Ht] Hm. unfold sameChunk.
  destruct (bool_decide (SourceSchemaName m = SourceSchemaName meta)) eqn:H1; [|done].
  destruct (bool_decide (SourceTableName m = SourceTableName meta)) eqn:H2; [|done].
  exfalso. apply Hm. apply bool_decide_eq_true_1 in H1, H2. split; congruence.
Qed.

(** X5. The loop over the tables leaves the chunk rows of every other
    table in [data_diff_meta]. *)
Theorem tableLoop_leaves_rows_of_other_tables
    (diffs : list Diff) (scheds : list (list nat)) (w : World) (m : DataDiffMeta) :
  m ∈ data_diff_meta w →
  (∀ d, d ∈ diffs → ¬ of_table d m) →
  m ∈ data_diff_meta (tableLoop lib eng cfg diffs scheds w).1.
Proof.
  revert scheds w. induction diffs as [|d rest IH]; intros scheds w Hm Hother; [done|].
  cbn [tableLoop].
  set (w0 := emit (EvGetDataDiffMeta (SourceSchema d) (SourceTable d)) w).
  destruct (GetDataDiffMeta eng _ _); [done|].
  set (metas := listChunks _ _ _).
  destruct (effects_inv_run lib eng cfg metas w0 (hd [] scheds)) as [_ _ _ _ _ Hrows].
  set (g := run lib eng cfg (hd [] scheds) (spawn metas w0)) in *.
  assert (m ∈ data_diff_meta (world g)) as Hg.
  { apply Hrows; [done|]. intros meta Hmeta. apply (sameChunk_of_table d).
    - by eapply listChunks_of_table.
    - apply Hother. by left. }
  assert (∀ d', d' ∈ rest → ¬ of_table d' m) as Hrest.
  { intros d' Hd'. apply Hother. by right. }
  destruct (Wait g) as [[e|]| |]; try done.
  - by apply IH.
  - destruct (ModifyWaitSyncTableMetaRecord eng _ _ _ _); [done|]. by apply IH.
Qed.

(** X7. An error that the loop over the tables returns is the error of a
    [GetDataDiffMeta] or of a [ModifyWaitSyncTableMetaRecord] call for one
    of the tables; the error of a table's group is logged and never
    returned. *)
Theorem tableLoop_returns_only_meta_store_errors
    (diffs : list Diff) (scheds : list (list nat)) (w : World) (e : error) :
  (tableLoop lib eng cfg diffs scheds w).2 = Returns (Some e) →
  ∃ d, d ∈ diffs ∧
       (GetDataDiffMeta eng (SourceSchema d) (SourceTable d) = Some e ∨
        ModifyWaitSyncTableMetaRecord eng (cfg_MetaSchema cfg) (cfg_SourceSchemaName cfg)
          (SourceTable d) (DiffMode lib) = Some e).
Proof.
  revert scheds w. induction diffs as [|d rest IH]; intros scheds w; [done|].
  cbn [tableLoop].
  destruct (GetDataDiffMeta eng _ _) eqn:Hget.
  { simpl. intros [= <-]. exists d. split; [by left | by left]. }
  destruct (Wait _) as [[e'|]| |]; try done.
  - intros H. destruct (IH _ _ H) as (d' & ? & ?). exists d'. split; [by right | done].
  - destruct (ModifyWaitSyncTableMetaRecord eng _ _ _ _) eqn:Hmod.
    + simpl. intros [= <-]. exists d. split; [by left | by right].
    + intros H. destruct (IH _ _ H) as (d' & ? & ?). exists d'. split; [by right | done].
Qed.

End TableMore.

Section PlannerFacts.
Context (lib : Lib) (eng : Engine) (cfg : Cfg).


End PlannerFacts.

Section MoreClaims.
Context (lib : Lib) (eng : Engine) (cfg : Cfg).

(** X1. When [Wait] returns, either a worker has returned nil and the
    result channel is closed, or the drain has returned the error of a
    failed write to the repair file; and an error that [Wait] returns is
    the drain's or that of a worker. *)
Theorem Wait_returns_after_close_or_write_error
    (diffMetas : list DataDiffMeta) (w : World) (sched : list nat) (r : option error) :
  let g := run lib eng cfg sched (spawn diffMetas w) in
  Wait g = Returns r →
  ((∃ i m, workers g !! i = Some (m, Returned None) ∧ closed g = true) ∨
   (∃ text err, fixFileMW_Write eng text = Some err ∧
                drain g = Some (Some (drainWriteError cfg err)))) ∧
  (∀ e, r = Some e →
        drain g = Some (Some e) ∨ ∃ j m, workers g !! j = Some (m, Returned (Some e))).
Proof.
  intros g Hwait. apply Wait_returns in Hwait as (Hp & [Hdr _] & ->).
  destruct (chan_inv_run lib eng cfg diffMetas w sched) as [_ Hd Hc Hw Hf]. fold g in Hd, Hc, Hw, Hf.
  destruct (close_inv_run lib eng cfg diffMetas w sched) as [_ HB _ _]. fold g in HB.
  split; [|exact Hf].
  destruct Hdr as [[e|] Hdr].
  - right. destruct (Hw e Hdr) as (text & err & ? & ->). eauto.
  - left. specialize (Hd Hdr). specialize (Hc Hd).
    destruct (close_calls g) as [|i calls] eqn:Hcalls; [done|].
    destruct (HB i) as [m [Hi|[_ Hpanic]]]; [by left | | congruence].
    eauto.
Qed.

Lemma step_no_workers j g :
  workers g = [] → buf g = [] → closed g = false → step lib eng cfg j g = g.
Proof.
  intros Hw Hb Hc. unfold step. destruct (panicked g); [done|].
  destruct j; [|by rewrite Hw].
  unfold drain_step. destruct (drain g); [done|]. by rewrite Hb, Hc.
Qed.

Lemma run_no_workers sched w : run lib eng cfg sched (spawn [] w) = spawn [] w.
Proof.
  induction sched as [|j sched IH]; [done|].
  rewrite run_cons, step_no_workers; done.
Qed.

(** X2. A table without chunk rows starts no worker, so nobody closes the
    result channel: the drain never returns under any schedule, and the
    loop over the tables hangs at this table. *)
Theorem table_without_chunks_never_finishes
    (d : Diff) (rest : list Diff) (scheds : list (list nat)) (w : World) :
  GetDataDiffMeta eng (SourceSchema d) (SourceTable d) = None →
  listChunks (SourceSchema d) (SourceTable d) (data_diff_meta w) = [] →
  (∀ sched w', Wait (run lib eng cfg sched (spawn [] w')) = Hangs) ∧
  tableLoop lib eng cfg (d :: rest) scheds w
  = (emit (EvGetDataDiffMeta (SourceSchema d) (SourceTable d)) w, Hangs).
Proof.
  intros Hget Hnone.
  assert (∀ sched w', Wait (run lib eng cfg sched (spawn [] w')) = Hangs) as Hhang.
  { intros sched w'. by rewrite run_no_workers. }
  split; [exact Hhang|].
  cbn [tableLoop]. rewrite Hget.
  change (data_diff_meta (emit _ w)) with (data_diff_meta w). rewrite Hnone.
  by rewrite run_no_workers.
Qed.

(** X3. A run of a table's group only appends to the repair file, at most
    one text for each chunk, and every text is the rendering of a report
    that [Report] sent for a chunk of the table. *)
Theorem repair_file_gets_at_most_one_text_per_chunk
    (diffMetas : list DataDiffMeta) (w : World) (sched : list nat) :
  ∃ l, fix_sql_file (world (run lib eng cfg sched (spawn diffMetas w)))
       = fix_sql_file w ++ l ∧
       (length l ≤ length diffMetas)%nat ∧
       Forall (λ text, ∃ meta report,
                 meta ∈ diffMetas ∧ report ∈ (callReport lib eng cfg meta).1 ∧
                 text = drainText lib cfg report +:+ nl) l.
Proof.
  destruct (effects_inv_run lib eng cfg diffMetas w sched)
    as [_ _ (l & Hl & Hall) Hcount _ _].
  exists l. split; [done|]. split; [|exact Hall].
  rewrite Hl, length_app in Hcount. lia.
Qed.

End MoreClaims.

Section PlannerClaims.
Context (lib : Lib) (eng : Engine) (cfg : Cfg).




End PlannerClaims.

Section ReconcilerMore.
Context (lib : Lib) (db : Adapters).

(** X10. In rows mode [Report] sends nothing when the two counts are equal;
    when they differ it sends one summary that holds the two counts under
    the two table names, and the drain renders it as the comment and the
    one-row table with both counts. *)
Theorem Report_rows_mode_counts
    (targetSchema : string) (dm : DataDiffMeta) (oraRows mysqlRows : Z) :
  GetOracleTableActualRows db (Report_oraQuery dm) = Ok oraRows →
  GetMySQLTableActualRows db (Report_mysqlQuery targetSchema dm) = Ok mysqlRows →
  (oraRows = mysqlRows → Report lib db targetSchema dm true = ([], None)) ∧
  (oraRows ≠ mysqlRows →
   ∃ s, Report lib db targetSchema dm true = ([s], None) ∧
        CRC32Result s = "" ∧
        SourceRows s !! SourceName s = Some oraRows ∧
        TargetRows s !! TargetName s = Some mysqlRows ∧
        ∀ cfg, OnlyCheckRows cfg = true →
               drainText lib cfg s =
               ("/* " +:+ nl +:+ tab +:+ "mysql table [" +:+
                StringsBuilder [SourceSchemaName dm; "."; SourceTableName dm] +:+
                "] chunk [" +:+ Range dm +:+ "] data rows aren't equal" +:+ nl +:+
                " */" +:+ nl) +:+
               table_Render lib
                 [CStr "SOURCE TABLE"; CStr "SOURCE TABLE COUNTS"; CStr "TARGET TABLE";
                  CStr "TARGET TABLE COUNTS"; CStr "RANGE"]
                 [ [CStr (StringsBuilder [SourceSchemaName dm; "."; SourceTableName dm]);
                    CInt64 oraRows;
                    CStr (StringsBuilder [targetSchema; "."; SourceTableName dm]);
                    CInt64 mysqlRows;
                    CStr (Range dm)] ] +:+ nl).
Proof.
  intros Hora Hmysql. unfold Report, reportCheckRows. rewrite Hora, Hmysql.
  split; intros Hcmp; case_decide; try done.
  eexists. split; [done|]. cbn [CRC32Result SourceRows SourceName TargetRows TargetName].
  split; [done|]. rewrite !lookup_singleton_eq. split; [done|]. split; [done|].
  intros cfg Hmode. unfold drainText. rewrite Hmode.
  cbn [CRC32Result SourceRows SourceName TargetRows TargetName RSRange].
  by rewrite !lookup_singleton_eq.
Qed.

(** X11. A call of [Report] that returns an error has sent nothing, in both
    modes; a failed upstream read is returned whatever the downstream read
    gives. *)
Theorem Report_errors_send_nothing (targetSchema : string) (dm : DataDiffMeta) :
  (∀ onlyCheckRows err,
     (Report lib db targetSchema dm onlyCheckRows).2 = Some err →
     (Report lib db targetSchema dm onlyCheckRows).1 = []) ∧
  (∀ e, GetOracleDataRowStrings db (Report_oraQuery dm) = Err e →
        Report lib db targetSchema dm false
        = ([], Some ("get oracle data row strings failed: " +:+ e))) ∧
  (∀ e, GetOracleTableActualRows db (Report_oraQuery dm) = Err e →
        Report lib db targetSchema dm true = ([], Some e)).
Proof.
  split; [|split].
  - intros onlyCheckRows err. unfold Report, reportCheckRows, reportCheckCRC32.
    repeat case_match; simpl; done.
  - intros e He. unfold Report, reportCheckCRC32. by rewrite He.
  - intros e He. unfold Report, reportCheckRows. by rewrite He.
Qed.

Lemma strings_Split_length (s : string) (sep : ascii) :
  length (strings_Split s sep) = S (count_byte sep s).
Proof.
  induction s as [|a s IH]; [done|]. simpl.
  destruct (Ascii.eqb a sep); simpl; [by rewrite IH|].
  destruct (strings_Split s sep); simpl in *; lia.
Qed.

(** X12. A downstream-extra row yields a DELETE statement exactly when the
    number of its commas is one less than the number of columns; otherwise
    the error names both numbers. *)
Theorem deleteLine_ok_iff_one_comma_less_than_columns
    (targetSchema : string) (dm : DataDiffMeta) (columns : list string) (t : string) :
  deleteLine targetSchema dm columns t =
  if decide (length columns = S (count_byte "," t))
  then Ok (deleteStatement targetSchema dm columns (strings_Split t ","))
  else Err (columnCountError targetSchema dm (length columns) (S (count_byte "," t))).
Proof.
  unfold deleteLine. rewrite strings_Split_length.
  repeat case_decide; done.
Qed.

(** Joining the pieces of a split with the separator gives the string back. *)
Lemma strings_Join_Split (s : string) (sep : ascii) :
  strings_Join (strings_Split s sep) (String sep EmptyString) = s.
Proof.
  unfold strings_Join. induction s as [|a s IH]; [done|].
  cbn [strings_Split]. destruct (Ascii.eqb a sep) eqn:Ha.
  - apply Ascii.eqb_eq in Ha as ->.
    destruct (strings_Split s sep) as [|w ws] eqn:Hs.
    { pose proof (strings_Split_length s sep) as H. rewrite Hs in H. done. }
    change (String.concat (String sep "") ("" :: w :: ws))
      with (String sep (String.concat (String sep "") (w :: ws))).
    by rewrite IH.
  - destruct (strings_Split s sep) as [|w ws] eqn:Hs.
    { pose proof (strings_Split_length s sep) as H. rewrite Hs in H. done. }
    rewrite <- IH. destruct ws; reflexivity.
Qed.

End ReconcilerMore.

(** ** The DDL of a reversed table *)

Section DDLFacts.
Import O2T.reverse O2T.

Lemma appendEach_map {A : Type} (f : A → string) (xs : list A) (acc : list string) :
  appendEach f xs acc = acc ++ map f xs.
Proof.
  unfold appendEach. revert acc. induction xs as [|x xs IH]; intros acc; simpl.
  - by rewrite app_nil_r.
  - by rewrite IH, <- app_assoc.
Qed.

Lemma guarded_appendEach {A : Type} (f : A → string) (xs : list A) (acc : list string) :
  (if decide (0 < length xs) then appendEach f xs acc else acc) = acc ++ map f xs.
Proof.
  case_decide; [apply appendEach_map|].
  destruct xs; simpl in *; [by rewrite app_nil_r | lia].
Qed.

(** X13. [GenDDLStructure] returns one reverse statement, the table DDL
    followed by a newline, and as compatibility statements the ALTER of
    every foreign key, then the ALTER of every check key, then the
    compatible DDL, each list in its order. *)
Theorem GenDDLStructure_statements (d : DDL) :
  GenDDLStructure d = ([tableDDL d +:+ nl], compStatements d).
Proof.
  unfold GenDDLStructure, compStatements.
  rewrite !guarded_appendEach. unfold id. simpl.
  by rewrite !List.map_id, <- app_assoc.
Qed.

Lemma append_ne (s t : string) : t ≠ "" → s +:+ t ≠ "".
Proof. destruct s; [done|]. intros _ H. discriminate H. Qed.

Lemma nl_ne : nl ≠ "".
Proof. intros H. discriminate H. Qed.

Lemma concat_cons_ne (s : string) (b : list string) :
  s ≠ "" → String.concat "" (s :: b) ≠ "".
Proof.
  intros Hs. destruct s as [|a s]; [done|]. destruct b; intros H; discriminate H.
Qed.

Lemma compHead_ne lib d tail : Builder_String (WriteString (compHead lib d []) tail) ≠ "".
Proof. unfold Builder_String, compHead, WriteString. simpl. intros H. discriminate H. Qed.

Lemma WriteDB_eq lib d w :
  WriteDB lib d w =
  let rev := tableDDL d +:+ nl in
  match RWriteDB w rev with
  | Some err => ([CallRWriteDB rev], (rev, Some err))
  | None =>
      match compStatements d with
      | [] => ([CallRWriteDB rev], ("", None))
      | _ :: _ =>
          let comp := Builder_String
                        (WriteString (compHead lib d []) (strings_Join (compStatements d) nl)) in
          match CWriteFile w comp with
          | Some err => ([CallRWriteDB rev; CallCWriteFile comp], (comp, Some err))
          | None => ([CallRWriteDB rev; CallCWriteFile comp], ("", None))
          end
      end
  end.
Proof.
  unfold WriteDB. rewrite GenDDLStructure_statements. cbv zeta.
  change (Builder_String (WriteString [] (strings_Join [tableDDL d +:+ nl] nl)))
    with (tableDDL d +:+ nl).
  destruct (decide (tableDDL d +:+ nl ≠ "")) as [_|[]]; [|apply append_ne, nl_ne].
  destruct (RWriteDB w _); [done|].
  destruct (compStatements d) as [|c cs] eqn:Hc.
  - simpl. done.
  - destruct (decide (0 < length (c :: cs))) as [_|[]]; [|simpl; lia].
    destruct (decide (_ ≠ "")) as [_|[]]; [|apply compHead_ne].
    by destruct (CWriteFile w _).
Qed.

Lemma WriteFile_eq lib d w :
  WriteFile lib d w =
  let rev := reverseText lib d in
  match RWriteFile w rev with
  | Some err => ([CallRWriteFile rev], (rev, Some err))
  | None =>
      match compStatements d with
      | [] => ([CallRWriteFile rev], ("", None))
      | _ :: _ =>
          let comp := Builder_String
                        (WriteString (compHead lib d [])
                           (strings_Join (compStatements d) nl +:+ nl)) in
          match CWriteFile w comp with
          | Some err => ([CallRWriteFile rev; CallCWriteFile comp], (comp, Some err))
          | None => ([CallRWriteFile rev; CallCWriteFile comp], ("", None))
          end
      end
  end.
Proof.
  unfold WriteFile. rewrite GenDDLStructure_statements. cbv zeta.
  change (strings_Join [tableDDL d +:+ nl] nl) with (tableDDL d +:+ nl).
  unfold WriteString at 1 2 3 4 5 6. simpl app. fold (reverseText lib d).
  destruct (decide (reverseText lib d ≠ "")) as [_|[]]; [|intros H; discriminate H].
  destruct (RWriteFile w _); [done|].
  destruct (compStatements d) as [|c cs] eqn:Hc.
  - simpl. done.
  - destruct (decide (0 < length (c :: cs))) as [_|[]]; [|simpl; lia].
    destruct (decide (_ ≠ "")) as [_|[]]; [|apply compHead_ne].
    by destruct (CWriteFile w _).
Qed.

Lemma Write_eq lib d w :
  Write lib d w = if DirectWrite w then WriteDB lib d w else WriteFile lib d w.
Proof.
  unfold Write. destruct (DirectWrite w).
  - rewrite WriteDB_eq. cbv zeta. repeat case_match; simplify_eq; done.
  - rewrite WriteFile_eq. cbv zeta. repeat case_match; simplify_eq; done.
Qed.

(** X14. [Write] calls the sink of the table statement first, with a text
    that is not empty: the database, with the CREATE TABLE statement alone,
    in direct-write mode, and the reverse file otherwise. It then calls
    the compatibility file, once and with a text that is not empty, exactly
    when the first write succeeded and the table has a foreign key, a check
    key or an incompatible DDL; those statements never reach the
    database. *)
Theorem Write_sink_calls (lib : Lib) (d : DDL) (w : reverse.Write) :
  let rev := if DirectWrite w then tableDDL d +:+ nl else reverseText lib d in
  ∃ rest, (Write lib d w).1 = reverseCall w rev :: rest ∧
          rev ≠ "" ∧
          (rest = [] ∨ ∃ comp, comp ≠ "" ∧ rest = [CallCWriteFile comp]) ∧
          (rest ≠ [] ↔ reverseWrite w rev = None ∧ compStatements d ≠ []).
Proof.
  intros rev. rewrite Write_eq. unfold rev, reverseCall, reverseWrite.
  destruct (DirectWrite w).
  - rewrite WriteDB_eq. cbv zeta.
    assert (tableDDL d +:+ nl ≠ "") as Hne by apply append_ne, nl_ne.
    destruct (RWriteDB w _).
    { exists []. split; [done|]. split; [done|]. split; [by left|]. by split; [|intros [? _]]. }
    destruct (compStatements d) as [|c cs].
    { exists []. split; [done|]. split; [done|]. split; [by left|]. by split; [|intros [_ ?]]. }
    eexists [_]. split; [by destruct (CWriteFile w _)|]. split; [done|].
    split; [|done]. right. eexists. split; [apply compHead_ne | done].
  - rewrite WriteFile_eq. cbv zeta.
    assert (reverseText lib d ≠ "") as Hne by (intros H; discriminate H).
    destruct (RWriteFile w _).
    { exists []. split; [done|]. split; [done|]. split; [by left|]. by split; [|intros [? _]]. }
    destruct (compStatements d) as [|c cs].
    { exists []. split; [done|]. split; [done|]. split; [by left|]. by split; [|intros [_ ?]]. }
    eexists [_]. split; [by destruct (CWriteFile w _)|]. split; [done|].
    split; [|done]. right. eexists. split; [apply compHead_ne | done].
Qed.

(** X15. [Write] returns an empty text exactly when it returns nil, which
    is when every sink it called answered nil; otherwise the sink called
    last is the only one that failed, and [Write] returns its error and the
    text it was given. *)
Theorem Write_stops_at_first_failed_sink (lib : Lib) (d : DDL) (w : reverse.Write) :
  let r := Write lib d w in
  (r.2.2 = None ↔ r.2.1 = "") ∧
  (r.2.2 = None ↔ Forall (λ c, answer w c = None) r.1) ∧
  (∀ err, r.2.2 = Some err →
          ∃ calls c, r.1 = calls ++ [c] ∧ Forall (λ c, answer w c = None) calls ∧
                     answer w c = Some err ∧ callText c = r.2.1).
Proof.
  intros r. unfold r. rewrite Write_eq.
  assert (tableDDL d +:+ nl ≠ "") as Hne by apply append_ne, nl_ne.
  assert (reverseText lib d ≠ "") as Hne' by (intros H; discriminate H).
  pose proof (compHead_ne lib d) as Hc.
  destruct (DirectWrite w).
  - rewrite WriteDB_eq. cbv zeta.
    destruct (RWriteDB w _) as [e|] eqn:Hr; simpl.
    { split; [done|]. split.
      - split; [done|]. intros H%Forall_cons_1. simpl in H. destruct H; congruence.
      - intros err [= <-]. exists [], (CallRWriteDB (tableDDL d +:+ nl)). by repeat split. }
    destruct (compStatements d) as [|c cs]; simpl.
    { split; [done|]. split; [|done]. split; [|done]. intros _. by repeat constructor. }
    destruct (CWriteFile w _) as [e|] eqn:Hw; simpl.
    + split; [split; [done | intros H; by apply Hc in H]|]. split.
      * split; [done|]. intros H%Forall_cons_1. destruct H as [_ H%Forall_cons_1].
        simpl in H. destruct H; congruence.
      * intros err [= <-]. eexists [_], (CallCWriteFile _). split; [done|].
        split; [by repeat constructor|]. by split.
    + split; [done|]. split; [|done]. split; [|done]. intros _. by repeat constructor.
  - rewrite WriteFile_eq. cbv zeta.
    destruct (RWriteFile w _) as [e|] eqn:Hr; simpl.
    { split; [done|]. split.
      - split; [done|]. intros H%Forall_cons_1. simpl in H. destruct H; congruence.
      - intros err [= <-]. exists [], (CallRWriteFile (reverseText lib d)). by repeat split. }
    destruct (compStatements d) as [|c cs]; simpl.
    { split; [done|]. split; [|done]. split; [|done]. intros _. by repeat constructor. }
    destruct (CWriteFile w _) as [e|] eqn:Hw; simpl.
    + split; [split; [done | intros H; by apply Hc in H]|]. split.
      * split; [done|]. intros H%Forall_cons_1. destruct H as [_ H%Forall_cons_1].
        simpl in H. destruct H; congruence.
      * intros err [= <-]. eexists [_], (CallCWriteFile _). split; [done|].
        split; [by repeat constructor|]. by split.
    + split; [done|]. split; [|done]. split; [|done]. intros _. by repeat constructor.
Qed.

End DDLFacts.

(** ** The entry point *)

Section Wp.
Context (lib : Lib) (eng : Engine) (cfg : Cfg).

Lemma wp_ret {A : Type} (a : A) Q r : Q r (inl a) → wp (ret a) Q r.
Proof. done. Qed.

Lemma wp_stop {A : Type} (o : Outcome) (Q : Run → A + Outcome → Prop) r :
  Q r (inr o) → wp (stop o) Q r.
Proof. done. Qed.

Lemma wp_bind {A B : Type} (m : M A) (k : A → M B) Q r :
  wp m (λ r' x, match x with
                | inl a => wp (k a) Q r'
                | inr o => Q r' (inr o)
                end) r →
  wp (bind m k) Q r.
Proof. unfold wp, bind. by destruct (m r) as [r' [a|o]]. Qed.

Lemma wp_ask {A : Type} (oracle : Run → A) log effect Q r :
  Q {| calls := calls r ++ [log (oracle r)]; store := effect (oracle r) (store r) |}
    (inl (oracle r)) →
  wp (ask oracle log effect) Q r.
Proof. done. Qed.

Lemma wp_forEach {A : Type} (I : Run → Prop) (xs : list A) (body : A → M unit) Q r :
  I r →
  (∀ x r, x ∈ xs → I r →
          wp (body x) (λ r' y, match y with
                               | inl _ => I r'
                               | inr o => Q r' (inr o)
                               end) r) →
  (∀ r, I r → Q r (inl tt)) →
  wp (forEach xs body) Q r.
Proof.
  intros Hr Hbody Hend. revert r Hr. induction xs as [|x xs IH]; intros r Hr.
  { by apply Hend. }
  cbn [forEach]. apply wp_bind.
  assert (x ∈ x :: xs) as Hx by left.
  specialize (Hbody x r Hx Hr) as Hb. unfold wp in *.
  destruct (body x r) as [r' [[]|o]]; simpl in *; [|done].
  apply IH; [|done]. intros y r0 Hy. apply Hbody. by right.
Qed.

Lemma wp_defer_Close {A : Type} (m : M A) Q r :
  wp m (λ r' x, match x with
                | inr (Panics _) | inr Hangs => Q r' x
                | _ => Q {| calls := calls r' ++ [DidClose]; store := store r' |} x
                end) r →
  wp (defer_Close m) Q r.
Proof. unfold wp, defer_Close. by destruct (m r) as [r' [a|[e|msg|]]]. Qed.

Lemma wp_callStartTableDiff part wait ps ws Q r :
  (∀ w o, StartTableDiff lib eng cfg part wait ps ws (store r) = (w, o) →
          Q {| calls := calls r ++ [DidStartTableDiff part wait o]; store := w |}
            match o with
            | Returns err => inl err
            | _ => inr o
            end) →
  wp (callStartTableDiff lib eng cfg part wait ps ws) Q r.
Proof.
  unfold wp, callStartTableDiff. intros H.
  specialize (H (StartTableDiff lib eng cfg part wait ps ws (store r)).1
                (StartTableDiff lib eng cfg part wait ps ws (store r)).2).
  destruct (StartTableDiff lib eng cfg part wait ps ws (store r)) as [w [e|msg|]];
    by apply H.
Qed.

Lemma wp_exec (m : M unit) (Q : Run → Outcome → Prop) w :
  wp m (λ r x, Q r match x with
                   | inl _ => Returns None
                   | inr o => o
                   end) {| calls := []; store := w |} →
  Q (exec m w).1 (exec m w).2.
Proof. unfold wp, exec. by destruct (m _) as [r [a|o]]. Qed.

End Wp.

Ltac wp_step :=
  lazymatch goal with
  | |- wp (bind _ _) _ _ => apply wp_bind
  | |- wp (try _ _) _ _ => unfold try at 1
  | |- wp (check _) _ _ => unfold check at 1
  | |- wp (ask _ _ _) _ _ =>
      apply wp_ask; cbv beta iota; unfold no_effect; cbn [calls store app]
  | |- wp (ret _) _ _ => apply wp_ret; cbv beta iota
  | |- wp (stop _) _ _ => apply wp_stop; cbv beta iota
  | |- wp (defer_Close _) _ _ => apply wp_defer_Close
  | |- wp (callStartTableDiff _ _ _ _ _ _ _) _ _ =>
      apply wp_callStartTableDiff; intros ? [?|?|] ?; cbv beta iota; cbn [calls store app]
  | |- wp (if ?b then _ else _) _ _ => destruct b eqn:?
  | |- wp (match ?x with _ => _ end) _ _ => destruct x eqn:?
  | |- wp (let _ := _ in _) _ _ => cbv zeta
  end.

(** Runs through the statements; [I] is the invariant of the loops. *)
Ltac wp_run I :=
  repeat first
    [ wp_step
    | lazymatch goal with
      | |- wp (forEach _ _) _ _ =>
          apply (wp_forEach I); [ | intros ? ? ? ? | intros ? ?]
      end ].

(** The same with one invariant for each of the two loops. *)
Ltac wp_run2 I1 I2 :=
  repeat first
    [ wp_step
    | lazymatch goal with
      | |- wp (forEach _ _) _ _ =>
          apply (wp_forEach I1); [ | intros ? ? ? ?; wp_run I1 | intros ? ?; wp_run I2 ]
      end ].

(** Where a step known to be in the log can be. *)
Ltac find_step H :=
  repeat first
    [ apply elem_of_app in H as [H|H]
    | apply elem_of_cons in H as [H|H]
    | (apply elem_of_nil in H; destruct H) ];
  try discriminate H;
  try match goal with
      | HF : Forall _ ?l |- _ =>
          match type of H with
          | _ ∈ l => rewrite Forall_forall in HF; apply HF in H; by simpl in H
          end
      end.

(** A step that is in the log as written. *)
Ltac in_log :=
  repeat (apply elem_of_app; first [ right; apply list_elem_of_here | left ]).

(** The invariants and the switches known at this point. *)
Ltac know_state :=
  repeat match goal with
         | H : _ ∧ _ |- _ => destruct H
         | H : negb ?b = _ |- _ =>
             destruct b eqn:?; simpl in H; try discriminate H; clear H
         end;
  try done.

Ltac solve_Forall :=
  rewrite ?Forall_app, ?Forall_cons, ?Forall_nil; repeat split; try done.

Section EntryFacts.
Context (lib : Lib) (eng : Engine) (cfg : Cfg) (svc : Service) (dc : DiffConfig).

Lemma gate_passed_app l s : gate_passed lib cfg svc l → gate_passed lib cfg svc (l ++ [s]).
Proof.
  intros (v & tables & n & rest & -> & ?). exists v, tables, n, (rest ++ [s]). done.
Qed.

(** X16. A run of [OracleDiffMySQLTable] that changes the meta store or
    opens the repair file has first read an upstream version that is not
    below the required one, a table list that is not empty, and a count of
    earlier diff errors that is not positive. *)
Theorem OracleDiffMySQLTable_writes_only_after_gate
    (partScheds waitScheds : list (list nat)) (w : World) (s : Step) :
  let r := (exec (OracleDiffMySQLTable lib eng cfg svc dc partScheds waitScheds) w).1 in
  s ∈ calls r → is_write s = true → gate_passed lib cfg svc (calls r).
Proof.
  intros r. unfold r.
  apply (wp_exec _ (λ r' _, s ∈ calls r' → is_write s = true → gate_passed lib cfg svc (calls r'))).
  unfold OracleDiffMySQLTable. cbv zeta.
  wp_run (λ r' : Run, gate_passed lib cfg svc (calls r')).
  all: cbn [calls store].
  all: try (intros Hs Hw; repeat (apply elem_of_cons in Hs as [->|Hs]; [done|]);
            by apply elem_of_nil in Hs).
  all: try (intros _ _).
  all: try (repeat apply gate_passed_app; assumption).
  exists a, a0, a1, []. split; [done|]. split; [done|]. split; [by destruct a0 | lia].
Qed.

Lemma inits_guarded_other l s :
  inits_guarded l → is_init s = false → inits_guarded (l ++ [s]).
Proof.
  intros Hl Hs pre schema tables mode a post Heq.
  destruct post as [|p post _] using rev_ind.
  - apply app_inj_tail in Heq as [_ ->]. done.
  - rewrite app_comm_cons, app_assoc in Heq. apply app_inj_tail in Heq as [-> _].
    by eapply Hl.
Qed.

Lemma inits_guarded_init l schema table mode a :
  inits_guarded (l ++ [DidIsExistWaitSyncTableMetaRecord schema table mode (Ok false)]) →
  inits_guarded ((l ++ [DidIsExistWaitSyncTableMetaRecord schema table mode (Ok false)]) ++
                 [DidInitWaitSyncTableMetaRecord schema [table] mode a]).
Proof.
  intros Hl pre schema' tables mode' a' post Heq.
  destruct post as [|p post _] using rev_ind.
  - apply app_inj_tail in Heq as [Hpre Hinit]. simplify_eq. eauto.
  - rewrite app_comm_cons, app_assoc in Heq. apply app_inj_tail in Heq as [Heq _].
    by eapply Hl.
Qed.

Lemma inits_guarded_no_init l :
  Forall (λ s, is_init s = false) l → inits_guarded l.
Proof.
  intros Hl pre schema tables mode a post ->.
  apply Forall_app in Hl as [_ Hl]. by apply Forall_cons in Hl as [? _].
Qed.

Ltac know_isExist :=
  repeat match goal with
         | H : negb ?b = _ |- _ => destruct b; simpl in H; try discriminate H; clear H
         end.

(** X17. [InitWaitSyncTableMetaRecord] is only called for a table right
    after [IsExistWaitSyncTableMetaRecord] answered no for it; and with
    checkpointing enabled nothing is truncated or deleted. *)
Theorem OracleDiffMySQLTable_meta_store_discipline
    (partScheds waitScheds : list (list nat)) (w : World) :
  let r := (exec (OracleDiffMySQLTable lib eng cfg svc dc partScheds waitScheds) w).1 in
  inits_guarded (calls r) ∧
  (EnableCheckpoint dc = true → Forall (λ s, is_reset s = false) (calls r)).
Proof.
  intros r. unfold r.
  apply (wp_exec _ (λ r' _, inits_guarded (calls r') ∧
                            (EnableCheckpoint dc = true →
                             Forall (λ s, is_reset s = false) (calls r')))).
  unfold OracleDiffMySQLTable. cbv zeta.
  wp_run (λ r' : Run, inits_guarded (calls r') ∧
                      (EnableCheckpoint dc = true →
                       Forall (λ s, is_reset s = false) (calls r'))).
  all: cbn [calls store]; know_isExist.
  all: repeat match goal with H : _ ∧ _ |- _ => destruct H end.
  all: split;
    [ first [ by apply inits_guarded_no_init; repeat constructor
            | repeat first [ assumption | apply inits_guarded_init
                           | apply inits_guarded_other; [|done] ] ]
    | intros HEC; rewrite ?HEC in *; try discriminate;
      rewrite ?Forall_app, ?Forall_cons, ?Forall_nil; repeat split; auto ].
Qed.

(** X18. [StartTableDiff] is called on a store whose repair file is empty
    and whose chunk rows are those of the earlier run when checkpointing is
    enabled and none otherwise, and the run ends with the store that
    [StartTableDiff] leaves. A run that does not get to [StartTableDiff]
    leaves the repair file as it was, and the chunk rows too unless it
    wiped them with checkpointing disabled. Nothing is said of the task
    rows of the tables, which the calls before [StartTableDiff] insert and
    delete. *)
Theorem OracleDiffMySQLTable_starts_from_reset_store
    (partScheds waitScheds : list (list nat)) (w : World) :
  let r := (exec (OracleDiffMySQLTable lib eng cfg svc dc partScheds waitScheds) w).1 in
  (Forall (λ s, is_start s = false) (calls r) →
   fix_sql_file (store r) = fix_sql_file w ∧
   (data_diff_meta (store r) = data_diff_meta w ∨
    EnableCheckpoint dc = false ∧ data_diff_meta (store r) = [])) ∧
  (∀ part wait o,
     DidStartTableDiff part wait o ∈ calls r →
     ∃ w0, fix_sql_file w0 = [] ∧
           data_diff_meta w0 = data_diff_meta (reset_store dc w) ∧
           StartTableDiff lib eng cfg part wait partScheds waitScheds w0 = (store r, o)).
Proof.
  intros r. unfold r.
  apply (wp_exec _
    (λ r' _, (Forall (λ s, is_start s = false) (calls r') →
              fix_sql_file (store r') = fix_sql_file w ∧
              (data_diff_meta (store r') = data_diff_meta w ∨
               EnableCheckpoint dc = false ∧ data_diff_meta (store r') = [])) ∧
             (∀ part wait o,
                DidStartTableDiff part wait o ∈ calls r' →
                ∃ w0, fix_sql_file w0 = [] ∧
                      data_diff_meta w0 = data_diff_meta (reset_store dc w) ∧
                      StartTableDiff lib eng cfg part wait partScheds waitScheds w0
                      = (store r', o)))).
  unfold OracleDiffMySQLTable, reset_store. cbv zeta.
  wp_run2 (λ r' : Run, Forall (λ s, is_late s = false) (calls r') ∧
                       fix_sql_file (store r') = fix_sql_file w ∧
                       data_diff_meta (store r') = data_diff_meta w)
          (λ r' : Run, Forall (λ s, is_late s = false) (calls r') ∧
                       fix_sql_file (store r') = fix_sql_file w ∧
                       data_diff_meta (store r') = [] ∧ EnableCheckpoint dc = false).
  all: cbn [calls store] in *; unfold truncated, opened, task_deleted in *; know_state.
  all: cbn [fix_sql_file data_diff_meta
            set_data_diff_meta set_done_tables set_fix_sql_file] in *.
  all: try (split; [by solve_Forall|]; repeat split; congruence).
  all: split;
    [ intros HF;
      first [ split; [congruence|];
              first [ left; congruence | right; split; congruence ]
            | rewrite ?Forall_app, ?Forall_cons in HF; simpl in HF; destruct_and!;
              discriminate ]
    | intros ? ? ? Hs; find_step Hs; simplify_eq;
      (eexists; split; [|split; [|eassumption]]; simpl; congruence) ].
Qed.

Lemma lookup_Split_None (cs : string) (sep : ascii) :
  strings_Split cs sep !! 1%nat = None →
  count_byte sep cs = 0%nat ∧ length (strings_Split cs sep) = 1%nat.
Proof.
  intros H%lookup_ge_None. pose proof (strings_Split_length cs sep). lia.
Qed.

Lemma lookup_Split_Some (cs : string) (sep : ascii) (name : string) :
  strings_Split cs sep !! 1%nat = Some name → count_byte sep cs ≠ 0%nat.
Proof.
  intros H%lookup_lt_Some. pose proof (strings_Split_length cs sep). lia.
Qed.

(** X19. A character set name without a dot makes [OracleDiffMySQLTable]
    panic with an index out of range right after the name was read; with a
    dot in the name the only panics are those of [StartTableDiff]. *)
Theorem character_set_without_dot_panics
    (partScheds waitScheds : list (list nat)) (w : World) (cs : string) :
  let ro := exec (OracleDiffMySQLTable lib eng cfg svc dc partScheds waitScheds) w in
  DidGetOracleDBCharacterSet (Ok cs) ∈ calls ro.1 →
  (count_byte "." cs = 0%nat →
   ro.2 = Panics index_panic ∧
   last (calls ro.1) = Some (DidGetOracleDBCharacterSet (Ok cs))) ∧
  (count_byte "." cs ≠ 0%nat →
   ∀ msg, ro.2 = Panics msg →
          ∃ part wait, DidStartTableDiff part wait (Panics msg) ∈ calls ro.1).
Proof.
  intros ro. unfold ro.
  apply (wp_exec _
    (λ r' o, DidGetOracleDBCharacterSet (Ok cs) ∈ calls r' →
             (count_byte "." cs = 0%nat →
              o = Panics index_panic ∧
              last (calls r') = Some (DidGetOracleDBCharacterSet (Ok cs))) ∧
             (count_byte "." cs ≠ 0%nat →
              ∀ msg, o = Panics msg →
                     ∃ part wait, DidStartTableDiff part wait (Panics msg) ∈ calls r'))).
  unfold OracleDiffMySQLTable. cbv zeta.
  wp_run (λ r' : Run, Forall (λ s, is_late s = false) (calls r')).
  all: cbn [calls store] in *.
  all: try by solve_Forall.
  all: intros Hs; find_step Hs; simplify_eq.
  all: try match goal with
           | H : strings_Split _ _ !! _ = None |- _ =>
               apply lookup_Split_None in H as [H1 H2]; rewrite H2;
               split; [intros _; split; [reflexivity | apply last_snoc] | done]
           end.
  all: match goal with
       | H : strings_Split _ _ !! _ = Some _ |- _ => apply lookup_Split_Some in H
       end.
  all: split; [done|]; intros _ ? Hmsg; simplify_eq.
  all: eexists _, _; in_log.
Qed.

(** X20. [OracleDiffMySQLTable] returns nil whenever it gets to read the
    final count of failed tables, whatever that count is; it closes the
    repair file exactly when it opened it and returns; and an error, a
    panic or a hang of [StartTableDiff] is its own. *)
Theorem OracleDiffMySQLTable_result
    (partScheds waitScheds : list (list nat)) (w : World) :
  let ro := exec (OracleDiffMySQLTable lib eng cfg svc dc partScheds waitScheds) w in
  (∀ n, DidGetTableErrorDetailDistinctCountByMode (cfg_SourceSchemaName cfg)
          (DiffMode lib) (Ok n) ∈ calls ro.1 →
        ro.2 = Returns None) ∧
  (DidClose ∈ calls ro.1 ↔
   (∃ name, DidOpenFile name None ∈ calls ro.1) ∧ ∃ e, ro.2 = Returns e) ∧
  (∀ part wait o, DidStartTableDiff part wait o ∈ calls ro.1 → o ≠ Returns None →
                  ro.2 = o).
Proof.
  intros ro. unfold ro.
  apply (wp_exec _
    (λ r' o', (∀ n, DidGetTableErrorDetailDistinctCountByMode (cfg_SourceSchemaName cfg)
                      (DiffMode lib) (Ok n) ∈ calls r' →
                    o' = Returns None) ∧
              (DidClose ∈ calls r' ↔
               (∃ name, DidOpenFile name None ∈ calls r') ∧ ∃ e, o' = Returns e) ∧
              (∀ part wait o, DidStartTableDiff part wait o ∈ calls r' →
                              o ≠ Returns None → o' = o))).
  unfold OracleDiffMySQLTable. cbv zeta.
  wp_run (λ r' : Run, Forall (λ s, is_late s = false) (calls r')).
  all: cbn [calls store] in *.
  all: try by solve_Forall.
  all: split; [intros ? Hs; by find_step Hs|].
  all: split; [|intros ? ? ? Hs Hne; find_step Hs; by simplify_eq].
  all: split;
    [ intros Hs; find_step Hs; (split; [eexists; in_log | eauto])
    | intros [[? Hs] [? He]]; find_step Hs; simplify_eq; in_log ].
Qed.

End EntryFacts.

(** ** The further statements on concrete runs *)

(** The entry point resumes the table [T1] of one chunk: the chunk is
    compared and deleted, the table is marked done, and the run returns
    nil. *)
Example OracleDiffMySQLTable_resumes_one_table :
  let ro := exec (OracleDiffMySQLTable Fake.lib Fake.healthy Fake.cfg
                    (FakeRun.svc "AMERICAN_AMERICA.AL32UTF8") FakeRun.dc
                    [[1; 1; 1; 0; 0]] [])
              (Fake.store [Fake.chunk]) in
  ro.2 = Returns None ∧
  calls ro.1 =
    [ DidGetOracleDBVersion (Ok "19.0.0.0.0"); DidGenerateTables (Ok ["T1"]);
      DidGetTableErrorDetailCountByMode "marvin" "Diff" (Ok 0%Z);
      DidIsExistWaitSyncTableMetaRecord "marvin" "T1" "Diff" (Ok false);
      DidInitWaitSyncTableMetaRecord "marvin" ["T1"] "Diff" None;
      DidGetWaitSyncTableMetaRecord "marvin" "Diff" (Ok ([], []));
      DidGetPartSyncTableMetaRecord "marvin" "Diff"
        (Ok ([ {| WSM_SchemaName := "marvin"; WSM_TableName := "T1"; WSM_Mode := "Diff";
                  WSM_Status := "part" |} ], ["T1"]));
      DidJudgingCheckpointResume "marvin"
        [ {| WSM_SchemaName := "marvin"; WSM_TableName := "T1"; WSM_Mode := "Diff";
             WSM_Status := "part" |} ] "Diff" (Ok []);
      DidGetOracleDBCharacterSet (Ok "AMERICAN_AMERICA.AL32UTF8");
      DidGetOracleDBCharacterNLSSortCollation (Ok "BINARY");
      DidGetOracleDBCharacterNLSCompCollation (Ok "BINARY");
      DidGetOracleSchemaCollation "MARVIN" (Ok "USING_NLS_COMP");
      DidGetOracleTableCollation "MARVIN" "USING_NLS_COMP" (Ok ∅);
      DidGetwd (Ok "/data"); DidOpenFile "/data/fix.sql" None;
      DidStartTableDiff ["T1"] [] (Returns None);
      DidGetTableErrorDetailDistinctCountByMode "marvin" "Diff" (Ok 0%Z);
      DidClose ] ∧
  done_tables (store ro.1) = ["T1"] ∧ data_diff_meta (store ro.1) = [].
Proof. vm_compute. done. Qed.

(** The part table [T1] with one persisted chunk is resumed: no planner
    call, the chunk is read back, compared and deleted, and the table is
    marked done. *)
Example StartTableDiff_resumes_one_chunk :
  let r := StartTableDiff Fake.lib Fake.healthy Fake.cfg ["T1"] [] [[1; 1; 1; 0; 0]] []
             (Fake.store [Fake.chunk]) in
  r.2 = Returns None ∧
  trace r.1 = [EvPreDiffCheck ["T1"]; EvNewDiff ["T1"]; EvGetDataDiffMeta "MARVIN" "T1";
               EvModifyWaitSyncTableMetaRecord "db_meta" "marvin" "T1" "Diff"] ∧
  done_tables r.1 = ["T1"] ∧ data_diff_meta r.1 = [] ∧ length (fix_sql_file r.1) = 1.
Proof. vm_compute. done. Qed.

(** The statements of a table with a key, a foreign key and a check
    constraint. *)
Example GenDDLStructure_ddl :
  O2T.GenDDLStructure FakeRun.ddl =
  ( [ "CREATE TABLE `tgt`.`t1` (" +:+ nl +:+ "`id` BIGINT," +:+ nl +:+ "`pid` BIGINT," +:+
      nl +:+ "PRIMARY KEY (`id`)" +:+ nl +:+ ") ENGINE=InnoDB;" +:+ nl ],
    [ "ALTER TABLE `tgt`.`t1` ADD CONSTRAINT `fk` FOREIGN KEY (`pid`) REFERENCES `t0` (`id`);";
      "ALTER TABLE `tgt`.`t1` ADD CONSTRAINT `ck` CHECK (`id` > 0);" ] ).
Proof. reflexivity. Qed.

(** X1, witness: one healthy chunk; the worker sends, closes and returns
    nil, the drain writes and returns. *)
Lemma Wait_returns_after_close_or_write_error_witness :
  let g := run Fake.lib Fake.healthy Fake.cfg [1; 1; 1; 0; 0]
             (spawn [Fake.chunk] (Fake.store [Fake.chunk])) in
  Wait g = Returns None ∧
  ((∃ i m, workers g !! i = Some (m, Returned None) ∧ closed g = true) ∨
   (∃ text err, fixFileMW_Write Fake.healthy text = Some err ∧
                drain g = Some (Some (drainWriteError Fake.cfg err)))).
Proof.
  intros g.
  assert (Wait g = Returns None) as H by (vm_compute; reflexivity).
  split; [exact H|].
  exact (proj1 (Wait_returns_after_close_or_write_error Fake.lib Fake.healthy Fake.cfg
                  [Fake.chunk] (Fake.store [Fake.chunk]) [1; 1; 1; 0; 0] None H)).
Defined.

(** X2, witness: the table [T1] with no chunk row in the store. *)
Lemma table_without_chunks_never_finishes_witness :
  listChunks "MARVIN" "T1" (data_diff_meta (Fake.store [])) = [] ∧
  (tableLoop Fake.lib Fake.healthy Fake.cfg [Fake.T1] [[1; 0; 0]] (Fake.store [])).2 = Hangs.
Proof.
  split; [reflexivity|].
  destruct (table_without_chunks_never_finishes Fake.lib Fake.healthy Fake.cfg Fake.T1 []
              [[1; 0; 0]] (Fake.store [])) as [_ H]; [reflexivity | reflexivity |].
  rewrite H. reflexivity.
Defined.

(** X5, witness: the table [T1] is compared while a chunk row of [T2] is
    in the store. *)
Lemma tableLoop_leaves_rows_of_other_tables_witness :
  FakeRun.other_chunk ∈
    data_diff_meta (tableLoop Fake.lib Fake.healthy Fake.cfg [Fake.T1] [[1; 1; 1; 0; 0]]
                      (Fake.store [Fake.chunk; FakeRun.other_chunk])).1.
Proof.
  apply (tableLoop_leaves_rows_of_other_tables Fake.lib Fake.healthy Fake.cfg).
  - apply (list_elem_of_lookup_2 _ 1). reflexivity.
  - intros d Hd. apply list_elem_of_singleton in Hd as ->. intros [_ H]. discriminate H.
Defined.

(** X7, witness: the chunk rows of [T1] cannot be read. *)
Lemma tableLoop_returns_only_meta_store_errors_witness :
  (tableLoop Fake.lib FakeRun.meta_down Fake.cfg [Fake.T1] [] (Fake.store [Fake.chunk])).2
  = Returns (Some "Error 2013: lost connection") ∧
  ∃ d, d ∈ [Fake.T1] ∧
       (GetDataDiffMeta FakeRun.meta_down (SourceSchema d) (SourceTable d)
        = Some "Error 2013: lost connection" ∨
        ModifyWaitSyncTableMetaRecord FakeRun.meta_down (cfg_MetaSchema Fake.cfg)
          (cfg_SourceSchemaName Fake.cfg) (SourceTable d) (DiffMode Fake.lib)
        = Some "Error 2013: lost connection").
Proof.
  split; [reflexivity|].
  apply (tableLoop_returns_only_meta_store_errors Fake.lib FakeRun.meta_down Fake.cfg
           [Fake.T1] [] (Fake.store [Fake.chunk])).
  reflexivity.
Defined.


(** X10, witness: three rows upstream, two downstream. *)
Lemma Report_rows_mode_counts_witness :
  ∃ s, Report Fake.lib FakeRun.counting "TGT" Fake.chunk true = ([s], None) ∧
       SourceRows s !! SourceName s = Some 3%Z ∧
       TargetRows s !! TargetName s = Some 2%Z.
Proof.
  destruct (Report_rows_mode_counts Fake.lib FakeRun.counting "TGT" Fake.chunk 3 2
              eq_refl eq_refl) as [_ H].
  destruct H as (s & Hs & _ & Hu & Hd & _); [lia|].
  exists s. split; [exact Hs|]. split; [exact Hu | exact Hd].
Defined.

(** X16, witness: the run above calls [InitWaitSyncTableMetaRecord]. *)
Lemma OracleDiffMySQLTable_writes_only_after_gate_witness :
  let r := (exec (OracleDiffMySQLTable Fake.lib Fake.healthy Fake.cfg
                    (FakeRun.svc "AMERICAN_AMERICA.AL32UTF8") FakeRun.dc
                    [[1; 1; 1; 0; 0]] [])
              (Fake.store [Fake.chunk])).1 in
  calls r !! 4%nat = Some (DidInitWaitSyncTableMetaRecord "marvin" ["T1"] "Diff" None) ∧
  gate_passed Fake.lib Fake.cfg (FakeRun.svc "AMERICAN_AMERICA.AL32UTF8") (calls r).
Proof.
  intros r.
  assert (calls r !! 4%nat = Some (DidInitWaitSyncTableMetaRecord "marvin" ["T1"] "Diff" None))
    as H by (vm_compute; reflexivity).
  split; [exact H|].
  apply (OracleDiffMySQLTable_writes_only_after_gate Fake.lib Fake.healthy Fake.cfg
           (FakeRun.svc "AMERICAN_AMERICA.AL32UTF8") FakeRun.dc [[1; 1; 1; 0; 0]] []
           (Fake.store [Fake.chunk])
           (DidInitWaitSyncTableMetaRecord "marvin" ["T1"] "Diff" None)).
  - by apply list_elem_of_lookup_2 in H.
  - reflexivity.
Defined.

(** X19, witness: the upstream reports the character set without the
    language and territory in front. *)
Lemma character_set_without_dot_panics_witness :
  let ro := exec (OracleDiffMySQLTable Fake.lib Fake.healthy Fake.cfg
                    (FakeRun.svc "AL32UTF8") FakeRun.dc [[1; 1; 1; 0; 0]] [])
              (Fake.store [Fake.chunk]) in
  calls ro.1 !! 8%nat = Some (DidGetOracleDBCharacterSet (Ok "AL32UTF8")) ∧
  ro.2 = Panics index_panic ∧
  store ro.1 = Fake.store [Fake.chunk].
Proof.
  intros ro.
  assert (calls ro.1 !! 8%nat = Some (DidGetOracleDBCharacterSet (Ok "AL32UTF8")))
    as H by (vm_compute; reflexivity).
  split; [exact H|].
  split; [|vm_compute; reflexivity].
  apply list_elem_of_lookup_2 in H.
  exact (proj1 (proj1 (character_set_without_dot_panics Fake.lib Fake.healthy Fake.cfg
                         (FakeRun.svc "AL32UTF8") FakeRun.dc [[1; 1; 1; 0; 0]] []
                         (Fake.store [Fake.chunk]) "AL32UTF8" H) eq_refl)).
Defined.
